(** * MatchSum [metrics.py]: margin-ranking loss and evaluation metrics

    A shallow embedding of [metrics.py] and the properties its
    specification states about it.

    Conventions of the embedding:
    - Python [int] is [Z]; Python [float] and tensor entries are exact
      rationals [Q] (rounding, overflow and infinities of IEEE floats are
      outside this model); the one float effect that is kept is [nan] as the
      mean of an empty tensor. The loss is embedded a second time over IEEE
      binary32 ([Float32]), to evaluate it where rounding decides;
    - a 1-D tensor is a [list Q], a 2-D tensor a record with its column
      count and its rows; the device a tensor lives on is passed next to
      it;
    - methods that mutate [self] or raise are computations in a state and
      exception monad [M]: the state an exception leaves behind is kept;
    - the external collaborators ([rouge.Rouge.get_scores], the ROUGE-1.5.5
      toolchain behind [eval_rouge], the clock) are parameters. *)

From Stdlib Require Import ZArith QArith Qminmax List String Ascii Lia Lqa.
From Stdlib Require SpecFloat.
From stdpp Require Import base list strings gmap pretty sorting.

Local Open Scope Z_scope.

(** ** Python exceptions and results *)

Inductive exn : Type :=
  | NameError (name : string)
  | KeyError (key : string)
  | IndexError
  | ZeroDivisionError
  | ValueError
  | RuntimeError
  | SystemExit (code : Z)
  | ExternalError (what : string).

Inductive Res (A : Type) : Type :=
  | Ok (a : A)
  | Raise (e : exn).
Arguments Ok {A} a.
Arguments Raise {A} e.

Definition res_bind {A B} (r : Res A) (k : A -> Res B) : Res B :=
  match r with
  | Ok a => k a
  | Raise e => Raise e
  end.

(** State and exception monad: a raised exception keeps the state reached
    so far, as a Python exception leaves the mutated object behind. *)
Definition M (S A : Type) : Type := S -> Res A * S.

Definition ret {S A} (a : A) : M S A := fun s => (Ok a, s).

Definition bind {S A B} (m : M S A) (k : A -> M S B) : M S B :=
  fun s =>
    match m s with
    | (Ok a, s') => k a s'
    | (Raise e, s') => (Raise e, s')
    end.

Definition raise {S A} (e : exn) : M S A := fun s => (Raise e, s).
Definition get {S} : M S S := fun s => (Ok s, s).
Definition modify {S} (f : S -> S) : M S unit := fun s => (Ok tt, f s).
Definition lift {S A} (r : Res A) : M S A := fun s => (r, s).

Declare Scope py_scope.
Delimit Scope py_scope with py.
Notation "x <- m ;; k" := (bind m (fun x => k))
  (at level 100, m at next level, right associativity) : py_scope.
Notation "m ;;; k" := (bind m (fun _ => k))
  (at level 100, right associativity) : py_scope.

(** [for x in xs: body x] *)
Fixpoint for_each {S A} (xs : list A) (body : A -> M S unit) : M S unit :=
  match xs with
  | [] => ret tt
  | x :: xs' => bind (body x) (fun _ => for_each xs' body)
  end.

(** [l[i]] for a Python list: negative indices count from the end, an index
    out of range raises [IndexError]. *)
Definition getitem {A} (l : list A) (i : Z) : Res A :=
  let len := Z.of_nat (length l) in
  let k := if i <? 0 then i + len else i in
  if (k <? 0) || (len <=? k) then Raise IndexError
  else match l !! Z.to_nat k with
       | Some a => Ok a
       | None => Raise IndexError
       end.

(** [l[i] = x] for an index already known to be in range (negative indices
    as in [getitem]). *)
Definition setitem {A} (l : list A) (i : Z) (x : A) : list A :=
  let len := Z.of_nat (length l) in
  let k := if i <? 0 then i + len else i in
  if (k <? 0) || (len <=? k) then l else <[Z.to_nat k := x]> l.

(** [sep.join(l)] *)
Definition join_str (sep : string) (l : list string) : string :=
  String.concat sep l.

(** [os.path.join(a, b)] on a POSIX system. *)
Definition starts_with_sep (s : string) : bool :=
  match s with
  | String c _ => bool_decide (c = "/"%char)
  | EmptyString => false
  end.

Fixpoint ends_with_sep (s : string) : bool :=
  match s with
  | EmptyString => false
  | String c EmptyString => bool_decide (c = "/"%char)
  | String _ s' => ends_with_sep s'
  end.

Definition join (a b : string) : string :=
  if starts_with_sep b then b
  else if bool_decide (a = "") || ends_with_sep a then a +:+ b
  else a +:+ "/" +:+ b.

(** A string that starts with a character other than the separator. *)
Definition digit_head (s : string) : Prop :=
  exists c s', s = String c s' /\ c <> "/"%char.

(** ** Module level: imports and the [ROUGE_PATH] lookup (lines 1-26) *)

Module ModuleLoad.

Inductive import_stmt : Type :=
  | Import (module : list string)
  | ImportAs (module : list string) (name : string)
  | FromImport (module : list string) (names : list string).

(** Lines 1-19 of [metrics.py], in order. *)
Definition imports : list import_stmt :=
  [ ImportAs ["numpy"] "np";
    Import ["json"];
    FromImport ["os"; "path"] ["join"];
    Import ["sys"];
    Import ["torch"];
    Import ["logging"];
    Import ["tempfile"];
    ImportAs ["subprocess"] "sp";
    FromImport ["datetime"] ["timedelta"];
    FromImport ["time"] ["time"];
    FromImport ["itertools"] ["combinations"];
    FromImport ["pyrouge"] ["Rouge155"];
    FromImport ["pyrouge"; "utils"] ["log"];
    FromImport ["rouge"] ["Rouge"];
    FromImport ["fastNLP"; "core"; "losses"] ["LossBase"];
    FromImport ["fastNLP"; "core"; "metrics"] ["MetricBase"] ]%string.

(** The names an import statement binds in the module's namespace:
    [import a.b] binds [a], [import a as n] binds [n],
    [from a.b import x, y] binds [x] and [y] (and not [a]). *)
Definition binds (s : import_stmt) : list string :=
  match s with
  | Import m => match m with [] => [] | top :: _ => [top] end
  | ImportAs _ n => [n]
  | FromImport _ ns => ns
  end.

Definition module_globals : list string := flat_map binds imports.

(** Python's built-in functions and the built-in exception the module
    names; a name that is in neither namespace raises [NameError]. *)
Definition builtins : list string :=
  [ "abs"; "all"; "any"; "ascii"; "bin"; "bool"; "breakpoint"; "bytearray";
    "bytes"; "callable"; "chr"; "classmethod"; "compile"; "complex";
    "delattr"; "dict"; "dir"; "divmod"; "enumerate"; "eval"; "exec";
    "filter"; "float"; "format"; "frozenset"; "getattr"; "globals";
    "hasattr"; "hash"; "help"; "hex"; "id"; "input"; "int"; "isinstance";
    "issubclass"; "iter"; "len"; "list"; "locals"; "map"; "max";
    "memoryview"; "min"; "next"; "object"; "oct"; "open"; "ord"; "pow";
    "print"; "property"; "range"; "repr"; "reversed"; "round"; "set";
    "setattr"; "slice"; "sorted"; "staticmethod"; "str"; "sum"; "super";
    "tuple"; "type"; "vars"; "zip"; "__import__"; "KeyError" ]%string.

Definition lookup_name (globals : list string) (x : string) : Res unit :=
  if bool_decide (x ∈ globals ++ builtins) then Ok tt else Raise (NameError x).

(** The body of the [try]: [_ROUGE_PATH = os.environ["ROUGE_PATH"]].
    The name [os] is resolved first, then the key is looked up. *)
Definition try_body (globals : list string) (environ : gmap string string)
  : Res string :=
  res_bind (lookup_name globals "os") (fun _ =>
    match environ !! "ROUGE_PATH"%string with
    | Some p => Ok p
    | None => Raise (KeyError "ROUGE_PATH")
    end).

(** What loading the module does: the text printed and either the value
    bound to [_ROUGE_PATH] or the exception that leaves the module.
    Only [KeyError] is handled; [sys.exit(1)] raises [SystemExit 1]. *)
Definition load_with (globals : list string) (environ : gmap string string)
  : list string * Res string :=
  match try_body globals environ with
  | Raise (KeyError _) =>
      (["Please set the environment variable ROUGE_PATH"%string],
       Raise (SystemExit 1))
  | r => ([], r)
  end.

Definition load_module (environ : gmap string string)
  : list string * Res string :=
  load_with module_globals environ.

(** What the specification expects when [ROUGE_PATH] is not set. *)
Definition please_set_and_exit : list string * Res string :=
  (["Please set the environment variable ROUGE_PATH"%string],
   Raise (SystemExit 1)).

End ModuleLoad.

(** ** Tensors *)

(** A scalar tensor: a number, or [nan] (the mean of an empty tensor). *)
Inductive scalar : Type :=
  | nan
  | fin (q : Q).

Definition scalar_add (a b : scalar) : scalar :=
  match a, b with
  | fin x, fin y => fin (x + y)
  | _, _ => nan
  end.

Definition scalar_equiv (a b : scalar) : Prop :=
  match a, b with
  | nan, nan => True
  | fin x, fin y => x == y
  | _, _ => False
  end.

(** A 2-D tensor of shape [(size0, size1)]: the column count is kept next to
    the rows, so that the shape [(0, n)] is represented too. *)
Record Tensor2 : Type := mkTensor2 { size1 : nat; rows : list (list Q) }.

Definition size0 (t : Tensor2) : nat := length (rows t).

Definition wf_tensor (t : Tensor2) : Prop :=
  Forall (fun r => length r = size1 t) (rows t).

(** [t.contiguous().view(-1)] *)
Definition view (t : Tensor2) : list Q := concat (rows t).

(** [torch.ones(t.size())] *)
Definition ones_like (t : Tensor2) : Tensor2 :=
  {| size1 := size1 t; rows := replicate (size0 t) (replicate (size1 t) 1%Q) |}.

(** [torch.ones(v.size())] for a 1-D tensor *)
Definition ones1 (v : list Q) : list Q := replicate (length v) 1%Q.

(** [t[:, :-i]] for [i >= 1]: the stop index [-i] is [len - i], clipped at 0. *)
Definition cols_until_neg (i : nat) (t : Tensor2) : Tensor2 :=
  {| size1 := size1 t - i;
     rows := map (fun r => take (length r - i) r) (rows t) |}.

(** [t[:, i:]] *)
Definition cols_from (i : nat) (t : Tensor2) : Tensor2 :=
  {| size1 := size1 t - i; rows := map (drop i) (rows t) |}.

(** [v.unsqueeze(-1).expand_as(t)]: shape [(len v, 1)] expanded to the shape
    of [t]; the first dimension must agree with [t] or be 1. *)
Definition expand_as (v : list Q) (t : Tensor2) : Res Tensor2 :=
  if bool_decide (length v = size0 t) then
    Ok {| size1 := size1 t; rows := map (fun x => replicate (size1 t) x) v |}
  else match v with
       | [x] => Ok {| size1 := size1 t;
                      rows := replicate (size0 t) (replicate (size1 t) x) |}
       | _ => Raise RuntimeError
       end.

Definition Qsum (l : list Q) : Q := fold_right Qplus 0%Q l.

Definition Qnat (n : nat) : Q := inject_Z (Z.of_nat n).

(** [torch.mean] of a 1-D tensor *)
Definition mean (l : list Q) : scalar :=
  match l with
  | [] => nan
  | _ => fin (Qsum l / Qnat (length l))
  end.

Fixpoint zip_with3 {A B C D} (f : A -> B -> C -> D)
    (l1 : list A) (l2 : list B) (l3 : list C) : list D :=
  match l1, l2, l3 with
  | a :: l1', b :: l2', c :: l3' => f a b c :: zip_with3 f l1' l2' l3'
  | _, _, _ => []
  end.

(** [torch.nn.MarginRankingLoss(margin)(x1, x2, y)] with the default mean
    reduction: [mean(max(0, -y * (x1 - x2) + margin))]. The three tensors
    have the same number of entries wherever [get_loss] calls it on a
    matrix whose rows all have [size1] entries. *)
Definition torch_MarginRankingLoss (margin : Q) (x1 x2 y : list Q) : scalar :=
  mean (zip_with3 (fun a b t => Qmax 0 (- t * (a - b) + margin)%Q) x1 x2 y).

(** First index of the largest entry, as [torch.max(v, dim).indices]. *)
Fixpoint argmax_from (best_i : nat) (best : Q) (i : nat) (l : list Q) : nat :=
  match l with
  | [] => best_i
  | x :: l' =>
      if Qle_bool x best then argmax_from best_i best (S i) l'
      else argmax_from i x (S i) l'
  end.

Definition argmax (l : list Q) : Res nat :=
  match l with
  | [] => Raise (ExternalError "torch.max")
  | x :: l' => Ok (argmax_from 0 x 1 l')
  end.

Fixpoint map_res {A B} (f : A -> Res B) (l : list A) : Res (list B) :=
  match l with
  | [] => Ok []
  | x :: l' =>
      res_bind (f x) (fun y => res_bind (map_res f l') (fun ys => Ok (y :: ys)))
  end.

(** [torch.max(score, dim=1).indices]: the reduced dimension must not be
    empty. *)
Definition max_indices (score : Tensor2) : Res (list nat) :=
  if bool_decide (size1 score = 0%nat) then Raise (ExternalError "torch.max")
  else map_res argmax (rows score).

(** ** Devices *)

(** Where a tensor lives: [tensor.device]. *)
Inductive device : Type :=
  | cpu
  | cuda (index : nat).

(** [t.cuda(d)]: the tensor on the CUDA device [d]; a device that is not a
    CUDA device is refused with [RuntimeError]. *)
Definition to_cuda {A} (d : device) (t : A) : Res A :=
  match d with
  | cpu => Raise RuntimeError
  | cuda _ => Ok t
  end.

(** An elementwise operation on tensors of two devices: they must be the
    same device. *)
Definition same_device (d1 d2 : device) : Res unit :=
  match d1, d2 with
  | cpu, cpu => Ok tt
  | cuda i, cuda j => if bool_decide (i = j) then Ok tt else Raise RuntimeError
  | _, _ => Raise RuntimeError
  end.

(** A [for] loop that accumulates a value and may raise. *)
Fixpoint fold_res {A B} (f : A -> B -> Res A) (l : list B) (a : A) : Res A :=
  match l with
  | [] => Ok a
  | x :: l' => res_bind (f a x) (fun a' => fold_res f l' a')
  end.

(** ** [MarginRankingLoss] (lines 29-65) *)

Module MarginRankingLoss.

(** [get_loss(self, score, summary_score)], with [margin] for
    [self.margin], [score_device] for [score.device] and [summary_device]
    for the device of [summary_score]. Each label tensor is built with
    [torch.ones(...).cuda(score.device)]. *)
Definition get_loss (margin : Q) (score_device : device) (score : Tensor2)
    (summary_device : device) (summary_score : list Q) : Res scalar :=
  res_bind (to_cuda score_device (ones_like score)) (fun ones =>
  let TotalLoss :=
    torch_MarginRankingLoss 0 (view score) (view score) (view ones) in
  let n := size1 score in
  res_bind
    (fold_res
       (fun TotalLoss i =>
          let pos_score := view (cols_until_neg i score) in
          let neg_score := view (cols_from i score) in
          res_bind (to_cuda score_device (ones1 pos_score)) (fun ones =>
          Ok (scalar_add TotalLoss
                (torch_MarginRankingLoss (margin * Qnat i)
                   pos_score neg_score ones))))
       (seq 1 (n - 1)) TotalLoss) (fun TotalLoss =>
  res_bind (expand_as summary_score score) (fun pos =>
  let pos_score := view pos in
  let neg_score := view score in
  res_bind (to_cuda score_device (ones1 pos_score)) (fun ones =>
  res_bind (same_device summary_device score_device) (fun _ =>
  Ok (scalar_add TotalLoss
        (torch_MarginRankingLoss 0 pos_score neg_score ones))))))).

(** *** The loss as the specification words it *)

(** A margin-ranking term with all labels +1: the mean over the pairs of
    how far the positive falls short of exceeding the negative by the
    margin. *)
Definition spec_ranking_term (margin : Q) (pos neg : list Q) : scalar :=
  mean (map (fun pq => Qmax 0 (margin - (fst pq - snd pq))%Q) (zip pos neg)).

(** Columns [lo..hi) of the score matrix, flattened row by row. *)
Definition spec_columns (lo hi : nat) (score : Tensor2) : list Q :=
  concat (map (fun r => take (hi - lo) (drop lo r)) (rows score)).

Definition spec_seed_term (score : Tensor2) : scalar :=
  spec_ranking_term 0 (view score) (view score).

Definition spec_distance_term (margin : Q) (score : Tensor2) (i : nat)
  : scalar :=
  let n := size1 score in
  spec_ranking_term (margin * Qnat i)
    (spec_columns 0 (n - i) score) (spec_columns i n score).

Definition spec_gold_term (score : Tensor2) (summary_score : list Q)
  : scalar :=
  spec_ranking_term 0
    (concat (map (fun g => replicate (size1 score) g) summary_score))
    (view score).

Definition scalar_sum (l : list scalar) : scalar :=
  fold_right scalar_add (fin 0) l.

Definition spec_loss (margin : Q) (score : Tensor2) (summary_score : list Q)
  : scalar :=
  let n := size1 score in
  scalar_add
    (scalar_add (spec_seed_term score)
       (scalar_sum (map (spec_distance_term margin score) (seq 1 (n - 1)))))
    (spec_gold_term score summary_score).

(** The ordering constraints of the specification: at every rank distance
    [i >= 1] the earlier candidate exceeds the later one by at least
    [margin * i], and the gold score is at least every candidate score of
    its row. *)
Definition distance_ok (margin : Q) (score : Tensor2) : Prop :=
  forall (r : list Q) (i j : nat) (x y : Q),
    r ∈ rows score -> (1 <= i)%nat ->
    r !! j = Some x -> r !! (j + i)%nat = Some y ->
    (margin * Qnat i <= x - y)%Q.

Definition gold_ok (score : Tensor2) (summary_score : list Q) : Prop :=
  forall (k j : nat) (r : list Q) (g x : Q),
    rows score !! k = Some r -> summary_score !! k = Some g ->
    r !! j = Some x -> (x <= g)%Q.

Definition distance_violated (margin : Q) (score : Tensor2) : Prop :=
  exists (r : list Q) (i j : nat) (x y : Q),
    r ∈ rows score /\ (1 <= i)%nat /\
    r !! j = Some x /\ r !! (j + i)%nat = Some y /\
    (x - y < margin * Qnat i)%Q.

Definition gold_violated (score : Tensor2) (summary_score : list Q) : Prop :=
  exists (k j : nat) (r : list Q) (g x : Q),
    rows score !! k = Some r /\ summary_score !! k = Some g /\
    r !! j = Some x /\ (g < x)%Q.

(** A term of the loss that is a number, not negative, zero under [zero]
    and positive under [pos]. *)
Definition term_ok (zero pos : Prop) (v : scalar) : Prop :=
  exists q : Q,
    v = fin q /\ (0 <= q)%Q /\ (zero -> q == 0)%Q /\ (pos -> 0 < q)%Q.

End MarginRankingLoss.

(** ** The loss over IEEE binary32 *)

(** The same lines 37-65 with the tensor entries as binary32 numbers
    (round to nearest, ties to even), the default dtype of the scores.
    [self.margin] is a Python float, a binary64 number. *)
Module Float32.

Definition f32 : Type := SpecFloat.spec_float.

Definition add : f32 -> f32 -> f32 := SpecFloat.SFadd 24 128.
Definition sub : f32 -> f32 -> f32 := SpecFloat.SFsub 24 128.
Definition mul : f32 -> f32 -> f32 := SpecFloat.SFmul 24 128.
Definition div : f32 -> f32 -> f32 := SpecFloat.SFdiv 24 128.
Definition zero : f32 := SpecFloat.S754_zero false.
Definition one : f32 := SpecFloat.S754_finite false 8388608 (-23).

(** The integer [n] as a binary32 number. *)
Definition of_nat (n : nat) : f32 :=
  SpecFloat.binary_normalize 24 128 (Z.of_nat n) 0 false.

(** A binary64 number rounded to binary32, as a Python scalar is when it
    meets a float32 tensor. *)
Definition of_f64 (x : SpecFloat.spec_float) : f32 :=
  match x with
  | SpecFloat.S754_finite s m e =>
      SpecFloat.binary_normalize 24 128 (if s then Z.neg m else Z.pos m) e s
  | _ => x
  end.

(** [margin * i] in Python: a binary64 product. *)
Definition margin_times (margin : SpecFloat.spec_float) (i : nat)
  : SpecFloat.spec_float :=
  SpecFloat.SFmul 53 1024 margin
    (SpecFloat.binary_normalize 53 1024 (Z.of_nat i) 0 false).

(** [x.clamp_min(0)] *)
Definition clamp_min0 (x : f32) : f32 :=
  if SpecFloat.SFltb x zero then zero else x.

(** [torch.mean]: the sum, taken here from left to right, over the number
    of entries; [0 / 0] is [nan]. *)
Definition mean (l : list f32) : f32 :=
  div (fold_left add l zero) (of_nat (length l)).

Definition torch_MarginRankingLoss (margin : SpecFloat.spec_float)
    (x1 x2 y : list f32) : f32 :=
  mean (zip_with3
          (fun a b t =>
             clamp_min0 (add (mul (SpecFloat.SFopp t) (sub a b))
                           (of_f64 margin)))
          x1 x2 y).

(** A 2-D float32 tensor: the column count and the rows. *)
Record Tensor2 : Type := mkTensor2 { size1 : nat; rows : list (list f32) }.

Definition size0 (t : Tensor2) : nat := length (rows t).
Definition view (t : Tensor2) : list f32 := concat (rows t).
Definition ones_like (t : Tensor2) : Tensor2 :=
  {| size1 := size1 t; rows := replicate (size0 t) (replicate (size1 t) one) |}.
Definition ones1 (v : list f32) : list f32 := replicate (length v) one.
Definition cols_until_neg (i : nat) (t : Tensor2) : Tensor2 :=
  {| size1 := size1 t - i;
     rows := map (fun r => take (length r - i) r) (rows t) |}.
Definition cols_from (i : nat) (t : Tensor2) : Tensor2 :=
  {| size1 := size1 t - i; rows := map (drop i) (rows t) |}.
Definition expand_as (v : list f32) (t : Tensor2) : Res Tensor2 :=
  if bool_decide (length v = size0 t) then
    Ok {| size1 := size1 t; rows := map (fun x => replicate (size1 t) x) v |}
  else match v with
       | [x] => Ok {| size1 := size1 t;
                      rows := replicate (size0 t) (replicate (size1 t) x) |}
       | _ => Raise RuntimeError
       end.

Definition get_loss (margin : SpecFloat.spec_float)
    (score_device : device) (score : Tensor2)
    (summary_device : device) (summary_score : list f32) : Res f32 :=
  res_bind (to_cuda score_device (ones_like score)) (fun ones =>
  let TotalLoss :=
    torch_MarginRankingLoss zero (view score) (view score) (view ones) in
  let n := size1 score in
  res_bind
    (fold_res
       (fun TotalLoss i =>
          let pos_score := view (cols_until_neg i score) in
          let neg_score := view (cols_from i score) in
          res_bind (to_cuda score_device (ones1 pos_score)) (fun ones =>
          Ok (add TotalLoss
                (torch_MarginRankingLoss (margin_times margin i)
                   pos_score neg_score ones))))
       (seq 1 (n - 1)) TotalLoss) (fun TotalLoss =>
  res_bind (expand_as summary_score score) (fun pos =>
  let pos_score := view pos in
  let neg_score := view score in
  res_bind (to_cuda score_device (ones1 pos_score)) (fun ones =>
  res_bind (same_device summary_device score_device) (fun _ =>
  Ok (add TotalLoss
        (torch_MarginRankingLoss zero pos_score neg_score ones))))))).

(** The rational a finite binary32 number stands for. *)
Definition exact (x : f32) : Q :=
  match x with
  | SpecFloat.S754_finite s m e =>
      (inject_Z (if s then Z.neg m else Z.pos m) * Qpower 2 e)%Q
  | _ => 0%Q
  end.

(** 2^-60 *)
Definition tiny : f32 := SpecFloat.S754_finite false 8388608 (-83).


(** One row: the best candidate scores 1, the next 2^-60. *)
Definition close_scores : Tensor2 := {| size1 := 2; rows := [[one; tiny]] |}.

End Float32.

(** The matrix of the rationals a float32 matrix stands for. *)
Definition exact_scores (t : Float32.Tensor2) : Tensor2 :=
  {| size1 := Float32.size1 t;
     rows := map (map Float32.exact) (Float32.rows t) |}.

(** ** Examples, files and Python numbers *)

(** One example of the data set: the dict with keys ['text'], ['summary']
    and ['indices']. *)
Record Example : Type := mkExample {
  text : list string;
  summary : list string;
  indices : list (list Z)
}.

Definition set_indices (ex : Example) (ixs : list (list Z)) : Example :=
  {| text := text ex; summary := summary ex; indices := ixs |}.

Inductive pyval : Type :=
  | PyInt (z : Z)
  | PyFloat (q : Q).

(** The number a Python value stands for. *)
Definition pyval_num (v : pyval) : Q :=
  match v with
  | PyInt z => inject_Z z
  | PyFloat q => q
  end.

(** [a / b]: true division, [ZeroDivisionError] on a zero divisor. *)
Definition truediv (a b : Q) : Res Q :=
  if Qeq_bool b 0 then Raise ZeroDivisionError else Ok (a / b)%Q.

Definition nl : string := String (ascii_of_nat 10) EmptyString.

(** The text [print(sent, file=f)] writes for each sentence in turn. *)
Definition lines (sents : list string) : string :=
  fold_right (fun sent rest => sent +:+ nl +:+ rest) "" sents.

(** [enumerate(l)] *)
Definition enumerate {A} (l : list A) : list (nat * A) :=
  zip (seq 0 (length l)) l.

Definition count_if (p : nat -> bool) (l : list nat) : Z :=
  Z.of_nat (length (List.filter p l)).

(** ** [ValidMetric] (lines 67-132) *)

Module ValidMetric.

(** The attributes of [self], and the file system the object appends its
    log to. *)
Record state : Type := mkState {
  save_path : string;
  data : list Example;
  top1_correct : Z;
  top6_correct : Z;
  top10_correct : Z;
  ROUGE : Q;
  Error : Z;
  cur_idx : Z;
  fs : gmap string string
}.

(** [__init__(self, save_path, data)] *)
Definition init (save_path : string) (data : list Example)
    (fs : gmap string string) : state :=
  mkState save_path data 0 0 0 0%Q 0 0 fs.

Definition add_top1 (k : Z) (s : state) : state :=
  mkState (save_path s) (data s) (top1_correct s + k) (top6_correct s)
    (top10_correct s) (ROUGE s) (Error s) (cur_idx s) (fs s).
Definition add_top6 (k : Z) (s : state) : state :=
  mkState (save_path s) (data s) (top1_correct s) (top6_correct s + k)
    (top10_correct s) (ROUGE s) (Error s) (cur_idx s) (fs s).
Definition add_top10 (k : Z) (s : state) : state :=
  mkState (save_path s) (data s) (top1_correct s) (top6_correct s)
    (top10_correct s + k) (ROUGE s) (Error s) (cur_idx s) (fs s).
Definition add_ROUGE (r : Q) (s : state) : state :=
  mkState (save_path s) (data s) (top1_correct s) (top6_correct s)
    (top10_correct s) (ROUGE s + r)%Q (Error s) (cur_idx s) (fs s).
Definition add_Error (k : Z) (s : state) : state :=
  mkState (save_path s) (data s) (top1_correct s) (top6_correct s)
    (top10_correct s) (ROUGE s) (Error s + k) (cur_idx s) (fs s).
Definition add_cur_idx (k : Z) (s : state) : state :=
  mkState (save_path s) (data s) (top1_correct s) (top6_correct s)
    (top10_correct s) (ROUGE s) (Error s) (cur_idx s + k) (fs s).
Definition set_data (d : list Example) (s : state) : state :=
  mkState (save_path s) d (top1_correct s) (top6_correct s)
    (top10_correct s) (ROUGE s) (Error s) (cur_idx s) (fs s).
Definition set_fs (f : gmap string string) (s : state) : state :=
  mkState (save_path s) (data s) (top1_correct s) (top6_correct s)
    (top10_correct s) (ROUGE s) (Error s) (cur_idx s) f.
(** The six assignments under [if reset:]. *)
Definition reset_counters (s : state) : state :=
  mkState (save_path s) (data s) 0 0 0 0%Q 0 0 (fs s).

(** [open(path, 'a')] followed by one [print(line, file=f)]. *)
Definition append_line (path line : string) (s : state) : state :=
  set_fs (<[path := default "" (fs s !! path) +:+ line +:+ nl]> (fs s)) s.

Section Externals.

(** [self.rouge.get_scores(dec, ref)[0]]: the F-measures of ROUGE-1,
    ROUGE-2 and ROUGE-L of the [rouge] package, or the exception it
    raises. *)
Variable get_scores : string -> string -> Res (Q * Q * Q).

(** How [str.format] prints a float. *)
Variable format_float : Q -> string.

Definition fast_rouge (dec ref : string) : Res Q :=
  if bool_decide (dec = "") || bool_decide (ref = "") then Ok 0%Q
  else
    res_bind (get_scores dec ref) (fun scores =>
      let '(f1, f2, fl) := scores in
      Ok ((f1 + f2 + fl) / 3)%Q).

(** The body of [for i in range(batch_size)]. *)
Definition row_body (score : Tensor2) (i : nat) : M state unit :=
  (row <- lift (getitem (rows score) (Z.of_nat i)) ;;
   k <- lift (argmax row) ;;
   let max_idx := Z.of_nat k in
   s <- get ;;
   ex <- lift (getitem (data s) (cur_idx s)) ;;
   if Z.of_nat (length (indices ex)) <=? max_idx then
     modify (add_Error 1) ;;;
     modify (add_cur_idx 1)
   else
     ext_idx <- lift (getitem (indices ex) max_idx) ;;
     let ext_idx := merge_sort Z.le ext_idx in
     modify (set_data
               (setitem (data s) (cur_idx s)
                  (set_indices ex (setitem (indices ex) max_idx ext_idx)))) ;;;
     let ref := join_str " " (summary ex) in
     dec <- lift (map_res (getitem (text ex)) ext_idx) ;;
     let dec := join_str " " dec in
     r <- lift (fast_rouge dec ref) ;;
     modify (add_ROUGE r) ;;;
     modify (add_cur_idx 1))%py.

Definition evaluate (score : Tensor2) : M state unit :=
  let batch_size := size0 score in
  (idx <- lift (max_indices score) ;;
   modify (add_top1 (count_if (fun k => k =? 0)%nat idx)) ;;;
   idx <- lift (max_indices score) ;;
   modify (add_top6 (count_if (fun k => k <=? 5)%nat idx)) ;;;
   idx <- lift (max_indices score) ;;
   modify (add_top10 (count_if (fun k => k <=? 9)%nat idx)) ;;;
   for_each (seq 0 batch_size) (row_body score))%py.

Definition report_line (top1 top6 top10 : Q) (err : Z) (rouge : Q)
  : string :=
  "top1_accuracy = " +:+ format_float top1 +:+
  ", top6_accuracy = " +:+ format_float top6 +:+
  ", top10_accuracy = " +:+ format_float top10 +:+
  ", Error = " +:+ pretty err +:+
  ", ROUGE = " +:+ format_float rouge.

Definition get_metric (reset : bool) : M state (gmap string pyval) :=
  (s <- get ;;
   top1_accuracy <-
     lift (truediv (inject_Z (top1_correct s)) (inject_Z (cur_idx s))) ;;
   top6_accuracy <-
     lift (truediv (inject_Z (top6_correct s)) (inject_Z (cur_idx s))) ;;
   top10_accuracy <-
     lift (truediv (inject_Z (top10_correct s)) (inject_Z (cur_idx s))) ;;
   rouge <- lift (truediv (ROUGE s) (inject_Z (cur_idx s))) ;;
   let eval_result : gmap string pyval :=
     <["top1_accuracy" := PyFloat top1_accuracy]>
     (<["top6_accuracy" := PyFloat top6_accuracy]>
     (<["top10_accuracy" := PyFloat top10_accuracy]>
     (<["Error" := PyInt (Error s)]>
     (<["ROUGE" := PyFloat rouge]> ∅)))) in
   modify (append_line (join (save_path s) "train_info.txt")
             (report_line top1_accuracy top6_accuracy top10_accuracy
                (Error s) rouge)) ;;;
   (if reset then modify reset_counters else ret tt) ;;;
   ret eval_result)%py.

(** A run of [evaluate] calls, one per batch. *)
Definition evaluate_all (batches : list Tensor2) : M state unit :=
  for_each batches evaluate.

End Externals.

(** What the specification's wording of [reduce] gives for a counter:
    the accumulated value divided by the number of observed rows. *)
Definition spec_counter_over_rows (counter rows_seen : Z) : Q :=
  (inject_Z counter / inject_Z rows_seen)%Q.

(** The five keys of the report. *)
Definition report_keys : gset string :=
  {[ "top1_accuracy"; "top6_accuracy"; "top10_accuracy"; "Error"; "ROUGE" ]}.

(** An index set after scoring: left as it was, or sorted ascending. *)
Definition index_set_rel (old new : list Z) : Prop :=
  new = old \/ new = merge_sort Z.le old.

Definition example_rel (old new : Example) : Prop :=
  text new = text old /\ summary new = summary old /\
  Forall2 index_set_rel (indices old) (indices new).

Definition data_rel (old new : list Example) : Prop :=
  Forall2 example_rel old new.

(** Does the row select a candidate the example at cursor [cur] does not
    have (a padding column)? *)
Definition selects_padding (d : list Example) (cur : Z) (row : list Q)
  : bool :=
  match argmax row, getitem d cur with
  | Ok k, Ok ex => Z.of_nat (length (indices ex)) <=? Z.of_nat k
  | _, _ => false
  end.

(** The number of rows of a batch that select a padding column, the first
    row being paired with the example at [cur]. *)
Fixpoint count_padding (d : list Example) (cur : Z) (rs : list (list Q))
  : Z :=
  match rs with
  | [] => 0
  | r :: rs' =>
      (if selects_padding d cur r then 1 else 0) + count_padding d (cur + 1) rs'
  end.

(** What scoring rows never touches: the path, the three top-k counters
    and the files; the examples only up to [data_rel]. *)
Definition row_frame (s s' : state) : Prop :=
  save_path s' = save_path s /\ top1_correct s' = top1_correct s /\
  top6_correct s' = top6_correct s /\ top10_correct s' = top10_correct s /\
  fs s' = fs s /\ data_rel (data s) (data s').

Definition all_counters_zero (s : state) : Prop :=
  top1_correct s = 0 /\ top6_correct s = 0 /\ top10_correct s = 0 /\
  ROUGE s = 0%Q /\ Error s = 0 /\ cur_idx s = 0.

End ValidMetric.

(** ** [MatchRougeMetric] (lines 134-183) *)

Module MatchRougeMetric.

Record state : Type := mkState {
  data : list Example;
  dec_path : string;
  ref_path : string;
  n_total : Z;
  cur_idx : Z;
  ext : list Z;
  start : Q;
  fs : gmap string string
}.

(** [__init__(self, data, dec_path, ref_path, n_total)], at clock time
    [now]. *)
Definition init (data : list Example) (dec_path ref_path : string)
    (n_total : Z) (now : Q) (fs : gmap string string) : state :=
  mkState data dec_path ref_path n_total 0 [] now fs.

Definition append_ext (e : Z) (s : state) : state :=
  mkState (data s) (dec_path s) (ref_path s) (n_total s) (cur_idx s)
    (ext s ++ [e]) (start s) (fs s).
Definition add_cur_idx (k : Z) (s : state) : state :=
  mkState (data s) (dec_path s) (ref_path s) (n_total s) (cur_idx s + k)
    (ext s) (start s) (fs s).
Definition set_fs (f : gmap string string) (s : state) : state :=
  mkState (data s) (dec_path s) (ref_path s) (n_total s) (cur_idx s)
    (ext s) (start s) f.
(** The four assignments under [if reset == True:]. *)
Definition reset_state (now : Q) (s : state) : state :=
  mkState [] (dec_path s) (ref_path s) (n_total s) 0 [] now (fs s).

(** [open(path, 'w')] followed by one [print] per sentence. *)
Definition write_file (path : string) (sents : list string) (s : state)
  : state :=
  set_fs (<[path := lines sents]> (fs s)) s.

Definition dec_file (dir : string) (i : nat) : string :=
  join dir (pretty i +:+ ".dec").
Definition ref_file (dir : string) (i : nat) : string :=
  join dir (pretty i +:+ ".ref").

(** [evaluate(self, score)]: the progress line goes to the terminal and is
    not kept, but computing its percentage divides by [n_total]. *)
Definition evaluate (score : Tensor2) : M state unit :=
  (idx <- lift (max_indices score) ;;
   e <- lift (match idx with
              | [k] => Ok (Z.of_nat k)
              | _ => Raise ValueError
              end) ;;
   modify (append_ext e) ;;;
   modify (add_cur_idx 1) ;;;
   s <- get ;;
   _ <- lift (truediv (inject_Z (cur_idx s)) (inject_Z (n_total s))) ;;
   ret tt)%py.

(** The body of [for i, ext in enumerate(self.ext)]. *)
Definition write_example (ie : nat * Z) : M state unit :=
  (let '(i, e) := ie in
   s <- get ;;
   ex <- lift (getitem (data s) (Z.of_nat i)) ;;
   sent_ids <- lift (getitem (indices ex) e) ;;
   dec <- lift (map_res (getitem (text ex)) sent_ids) ;;
   let ref := summary ex in
   modify (write_file (dec_file (dec_path s) i) dec) ;;;
   modify (write_file (ref_file (ref_path s) i) ref))%py.

(** The file-writing loop of [get_metric] (lines 158-172). *)
Definition write_files : M state unit :=
  (s <- get ;;
   for_each (enumerate (ext s)) write_example)%py.

Section Externals.

(** [MatchRougeMetric.eval_rouge(dec_dir, ref_dir)]: the pyrouge
    conversion, the ROUGE-1.5.5 subprocess and the parsing of its
    report, as a function of the file system it reads and writes. *)
Variable eval_rouge :
  string -> string -> gmap string string ->
  Res (Q * Q * Q) * gmap string string.

Definition call_eval_rouge : M state (Q * Q * Q) :=
  fun s =>
    let '(r, fs') := eval_rouge (dec_path s) (ref_path s) (fs s) in
    (r, set_fs fs' s).

(** [get_metric(self, reset)], with [now] the reading of [time()]. *)
Definition get_metric (reset : bool) (now : Q)
  : M state (gmap string pyval) :=
  (write_files ;;;
   r <- call_eval_rouge ;;
   let '(R_1, R_2, R_L) := r in
   let eval_result : gmap string pyval :=
     <["ROUGE-1" := PyFloat R_1]>
     (<["ROUGE-2" := PyFloat R_2]>
     (<["ROUGE-L" := PyFloat R_L]> ∅)) in
   (if reset then modify (reset_state now) else ret tt) ;;;
   ret eval_result)%py.

End Externals.

(** *** The files the specification expects *)

(** The sentences of example [i] selected by the recorded arg-max [e], in
    the order of the index set. *)
Definition resolve (d : list Example) (i : nat) (e : Z)
  : Res (list string * list string) :=
  res_bind (getitem d (Z.of_nat i)) (fun ex =>
  res_bind (getitem (indices ex) e) (fun sent_ids =>
  res_bind (map_res (getitem (text ex)) sent_ids) (fun dec =>
  Ok (dec, summary ex)))).

End MatchRougeMetric.

(** ** Sample inputs *)

Module Samples.

(** The three F-measures of a perfect match, for any two texts. *)
Definition perfect_scores (dec ref : string) : Res (Q * Q * Q) :=
  Ok (1%Q, 1%Q, 1%Q).

Definition show_float (q : Q) : string :=
  pretty (Qnum q) +:+ "/" +:+ pretty (Zpos (Qden q)).

Definition no_rouge (dec_dir ref_dir : string) (fs : gmap string string)
  : Res (Q * Q * Q) * gmap string string :=
  (Ok (0%Q, 0%Q, 0%Q), fs).

(** One example whose only candidate lists its sentences out of order. *)
Definition unsorted_example : Example :=
  {| text := ["a"; "b"; "c"]; summary := ["a c"]; indices := [[2; 0]] |}.

Definition two_candidates : Example :=
  {| text := ["a"; "b"; "c"]; summary := ["a b"];
     indices := [[0; 1]; [1; 2]] |}.

(** A batch of one row whose largest score is in column 0. *)
Definition first_best : Tensor2 :=
  {| size1 := 3; rows := [[3; 2; 1]%Q] |}.

(** A batch of one row whose largest score is in column 2. *)
Definition third_best : Tensor2 :=
  {| size1 := 3; rows := [[1; 2; 3]%Q] |}.

(** Two observed rows, one of them counted as an error. *)
Definition after_two_rows : ValidMetric.state :=
  ValidMetric.mkState "out" [two_candidates; two_candidates]
    1 2 2 (1 # 2) 1 2 ∅.

(** A 2 x 3 score matrix whose columns are ordered with gaps of 1, and
    gold scores above every candidate. *)
Definition ordered_scores : Tensor2 :=
  {| size1 := 3; rows := [[3; 2; 1]%Q; [6; 5; 4]%Q] |}.
Definition gold_scores : list Q := [4; 7]%Q.

(** A batch with no rows, three candidates wide. *)
Definition empty_batch : Tensor2 := {| size1 := 3; rows := [] |}.

(** The same matrix with the first two columns of the first row swapped. *)
Definition swapped_scores : Tensor2 :=
  {| size1 := 3; rows := [[2; 3; 1]%Q; [6; 5; 4]%Q] |}.

Definition match_state : MatchRougeMetric.state :=
  MatchRougeMetric.mkState [two_candidates; unsorted_example]
    "dec" "ref" 2 2 [1; 0] 0%Q ∅.

End Samples.

(** ** [str.split] and the scorer's report (lines 185-215) *)

(** [s.split(sep)] for a one-character separator: every occurrence splits,
    so adjacent separators give empty strings and [''.split(sep)] is
    [['']]. *)
Fixpoint split_on (sep : ascii) (s : string) : list string :=
  match s with
  | EmptyString => [EmptyString]
  | String c s' =>
      if bool_decide (c = sep) then EmptyString :: split_on sep s'
      else match split_on sep s' with
           | w :: ws => String c w :: ws
           | [] => [String c EmptyString]
           end
  end.

Fixpoint count_char (c : ascii) (s : string) : nat :=
  match s with
  | EmptyString => 0
  | String a s' => (if bool_decide (a = c) then 1 else 0) + count_char c s'
  end.

Definition space : ascii := " "%char.
Definition newline : ascii := ascii_of_nat 10.

Module EvalRouge.

Section Externals.

(** The module-level [_ROUGE_PATH]. *)
Variable ROUGE_PATH : string.

(** The directory [tempfile.TemporaryDirectory()] creates; it is removed,
    with everything written below it, when the [with] block is left. *)
Variable tmp_dir : string.

(** The three pyrouge calls that fill [tmp_dir] from the two directories,
    followed by [sp.check_output(argv, universal_newlines=True)]: the text
    the scorer prints, or the exception raised on the way. *)
Variable check_output :
  list string -> string -> string -> gmap string string -> Res string.

(** [float(token)] *)
Variable float : string -> Res Q.

(** The command line before [cmd.split(' ')]. *)
Definition command : string :=
  join ROUGE_PATH "ROUGE-1.5.5.pl"
  +:+ (" -e " +:+ join ROUGE_PATH "data" +:+ " ")
  +:+ "-c 95 -r 1000 -n 2 -m"
  +:+ (" -a " +:+ join tmp_dir "settings.xml").

Definition argv : list string := split_on space command.

(** [float(output.split('\n')[line].split(' ')[3])] *)
Definition field (output : string) (line : Z) : Res Q :=
  res_bind (getitem (split_on newline output) line) (fun l =>
  res_bind (getitem (split_on space l) 3) (fun token =>
  float token)).

Definition parse_report (output : string) : Res (Q * Q * Q) :=
  res_bind (field output 3) (fun R_1 =>
  res_bind (field output 7) (fun R_2 =>
  res_bind (field output 11) (fun R_L =>
  Ok (R_1, R_2, R_L)))).

(** [eval_rouge(dec_dir, ref_dir, Print)] as a function of the file system:
    the raw report is written next to the decoded directory only after the
    three numbers have been parsed. *)
Definition eval_rouge (Print : bool) (dec_dir ref_dir : string)
    (fs : gmap string string) : Res (Q * Q * Q) * gmap string string :=
  match check_output argv dec_dir ref_dir fs with
  | Raise e => (Raise e, fs)
  | Ok output =>
      match parse_report output with
      | Raise e => (Raise e, fs)
      | Ok r =>
          (Ok r,
           if Print then <[join dec_dir "../ROUGE.txt" := output +:+ nl]> fs
           else fs)
      end
  end.

End Externals.

(** A line of the scorer's report whose fourth blank-separated token is
    [value]. *)
Definition report_line (w0 w1 w2 value rest : string) : string :=
  w0 +:+ " " +:+ w1 +:+ " " +:+ w2 +:+ " " +:+ value +:+ " " +:+ rest.

End EvalRouge.

(** ** Predicates used by the further properties *)

(** The scorer returns F-measures between 0 and 1. *)
Definition scores_in_unit (get_scores : string -> string -> Res (Q * Q * Q))
  : Prop :=
  forall dec ref f1 f2 fl,
    get_scores dec ref = Ok (f1, f2, fl) ->
    (0 <= f1 <= 1 /\ 0 <= f2 <= 1 /\ 0 <= fl <= 1)%Q.

Definition scalar_le (a b : scalar) : Prop :=
  match a, b with
  | nan, nan => True
  | fin x, fin y => (x <= y)%Q
  | _, _ => False
  end.

(** Two [ValidMetric] states that differ at most in index sets sorted in
    place. *)
Definition same_but_sorted (s s' : ValidMetric.state) : Prop :=
  ValidMetric.save_path s' = ValidMetric.save_path s /\
  ValidMetric.top1_correct s' = ValidMetric.top1_correct s /\
  ValidMetric.top6_correct s' = ValidMetric.top6_correct s /\
  ValidMetric.top10_correct s' = ValidMetric.top10_correct s /\
  ValidMetric.ROUGE s' = ValidMetric.ROUGE s /\
  ValidMetric.Error s' = ValidMetric.Error s /\
  ValidMetric.cur_idx s' = ValidMetric.cur_idx s /\
  ValidMetric.fs s' = ValidMetric.fs s /\
  ValidMetric.data_rel (ValidMetric.data s) (ValidMetric.data s').

(** The counters of a [ValidMetric] object after completed batches. *)
Definition counters_ordered (s : ValidMetric.state) : Prop :=
  0 <= ValidMetric.top1_correct s /\
  ValidMetric.top1_correct s <= ValidMetric.top6_correct s /\
  ValidMetric.top6_correct s <= ValidMetric.top10_correct s /\
  ValidMetric.top10_correct s <= ValidMetric.cur_idx s /\
  0 <= ValidMetric.Error s /\
  ValidMetric.Error s <= ValidMetric.cur_idx s.

Definition rouge_bounded (s : ValidMetric.state) : Prop :=
  (0 <= ValidMetric.ROUGE s)%Q /\
  (ValidMetric.ROUGE s
   <= inject_Z (ValidMetric.cur_idx s - ValidMetric.Error s))%Q /\
  0 <= ValidMetric.Error s.

Module MoreSamples.

Definition unit_scores (dec ref : string) : Res (Q * Q * Q) :=
  Ok ((1 # 2)%Q, (1 # 4)%Q, 1%Q).

Definition empty_candidate : Example :=
  {| text := ["a"; "b"]; summary := ["a"]; indices := [[]; [0]] |}.

Definition report_text : string :=
  String.concat nl
    [ "---------------------------------------------";
      "1 ROUGE-1 Average_R: 0.50 (95%-conf.int. 0.50 - 0.50)";
      "1 ROUGE-1 Average_P: 0.50 (95%-conf.int. 0.50 - 0.50)";
      "1 ROUGE-1 Average_F: 0.41 (95%-conf.int. 0.41 - 0.41)";
      "---------------------------------------------";
      "1 ROUGE-2 Average_R: 0.25 (95%-conf.int. 0.25 - 0.25)";
      "1 ROUGE-2 Average_P: 0.25 (95%-conf.int. 0.25 - 0.25)";
      "1 ROUGE-2 Average_F: 0.18 (95%-conf.int. 0.18 - 0.18)";
      "---------------------------------------------";
      "1 ROUGE-L Average_R: 0.40 (95%-conf.int. 0.40 - 0.40)";
      "1 ROUGE-L Average_P: 0.40 (95%-conf.int. 0.40 - 0.40)";
      "1 ROUGE-L Average_F: 0.37 (95%-conf.int. 0.37 - 0.37)";
      "" ].

(** A stand-in for [float] on the three tokens of [report_text]. *)
Definition read_float (token : string) : Res Q :=
  if bool_decide (token = "0.41") then Ok (41 # 100)%Q
  else if bool_decide (token = "0.18") then Ok (18 # 100)%Q
  else if bool_decide (token = "0.37") then Ok (37 # 100)%Q
  else Raise ValueError.

Definition print_report (argv : list string) (dec_dir ref_dir : string)
    (fs : gmap string string) : Res string :=
  Ok report_text.

Definition failing_scorer (dec_dir ref_dir : string)
    (fs : gmap string string) : Res (Q * Q * Q) * gmap string string :=
  (Raise (ExternalError "ROUGE-1.5.5.pl"), fs).

(** Example 1 has a single candidate, so the recorded arg-max 1 is a padding
    column. *)
Definition padded_state : MatchRougeMetric.state :=
  MatchRougeMetric.mkState [Samples.two_candidates; Samples.unsorted_example]
    "dec" "ref" 2 2 [0; 1] 0%Q ∅.

Definition two_rows : Tensor2 :=
  {| size1 := 2; rows := [[1; 2]%Q; [2; 1]%Q] |}.

End MoreSamples.

(** * Properties *)

(** ** Module level: the [ROUGE_PATH] lookup *)

Lemma os_is_not_bound :
  ModuleLoad.lookup_name ModuleLoad.module_globals "os" = Raise (NameError "os").
Proof. vm_compute. reflexivity. Qed.

(** Whatever the environment holds, resolving [os] fails before the
    environment is consulted, and [except KeyError] does not handle it. *)
Lemma load_module_always_NameError (environ : gmap string string) :
  ModuleLoad.load_module environ = ([], Raise (NameError "os")).
Proof.
  unfold ModuleLoad.load_module, ModuleLoad.load_with, ModuleLoad.try_body.
  rewrite os_is_not_bound. reflexivity.
Qed.

(** With [os] bound (an [import os] among the imports) the handler does what
    the specification describes. *)
Lemma load_with_os_bound (globals : list string) (environ : gmap string string) :
  "os" ∈ globals ->
  environ !! "ROUGE_PATH" = None ->
  ModuleLoad.load_with globals environ = ModuleLoad.please_set_and_exit.
Proof.
  intros Hos Henv.
  unfold ModuleLoad.load_with, ModuleLoad.try_body, ModuleLoad.lookup_name.
  rewrite bool_decide_eq_true_2 by (apply elem_of_app; left; exact Hos).
  simpl. rewrite Henv. reflexivity.
Qed.

(** C1: with [ROUGE_PATH] absent (here: the empty environment), loading the
    module as written does not print the 'Please set' message and does not
    exit with status 1: the name [os] was never imported, so the [try] body
    raises [NameError], which [except KeyError] lets through. *)
Theorem C1_missing_ROUGE_PATH_raises_NameError :
  ModuleLoad.load_module ∅ = ([], Raise (NameError "os")) /\
  ModuleLoad.load_module ∅ <> ModuleLoad.please_set_and_exit.
Proof.
  rewrite load_module_always_NameError. split; [reflexivity | discriminate].
Qed.

(** ** The state and exception monad *)

Ltac run_step :=
  unfold bind, get, lift, modify, ret, raise; simpl.

Lemma for_each_app {S A} (xs ys : list A) (body : A -> M S unit) (s : S) :
  for_each (xs ++ ys) body s =
  bind (for_each xs body) (fun _ => for_each ys body) s.
Proof.
  revert s. induction xs as [|x xs IH]; intros s; simpl.
  - reflexivity.
  - unfold bind in *. destruct (body x s) as [[[]|e] s1].
    + apply IH.
    + reflexivity.
Qed.

Lemma truediv_nonzero (a : Q) (c : Z) :
  c <> 0 -> truediv a (inject_Z c) = Ok (a / inject_Z c)%Q.
Proof.
  intros Hc. unfold truediv.
  destruct (Qeq_bool (inject_Z c) 0) eqn:E; [|reflexivity].
  apply Qeq_bool_eq in E. unfold Qeq in E. simpl in E. lia.
Qed.

Lemma truediv_zero (a : Q) : truediv a (inject_Z 0) = Raise ZeroDivisionError.
Proof. reflexivity. Qed.

(** ** [ValidMetric.get_metric] *)

Lemma get_metric_returns (format_float : Q -> string) (reset : bool)
    (s : ValidMetric.state) :
  ValidMetric.cur_idx s <> 0 ->
  exists rep s',
    ValidMetric.get_metric format_float reset s = (Ok rep, s') /\
    dom rep = ValidMetric.report_keys /\
    rep !! "top1_accuracy" =
      Some (PyFloat (inject_Z (ValidMetric.top1_correct s)
                     / inject_Z (ValidMetric.cur_idx s))) /\
    rep !! "top6_accuracy" =
      Some (PyFloat (inject_Z (ValidMetric.top6_correct s)
                     / inject_Z (ValidMetric.cur_idx s))) /\
    rep !! "top10_accuracy" =
      Some (PyFloat (inject_Z (ValidMetric.top10_correct s)
                     / inject_Z (ValidMetric.cur_idx s))) /\
    rep !! "ROUGE" =
      Some (PyFloat (ValidMetric.ROUGE s / inject_Z (ValidMetric.cur_idx s))) /\
    rep !! "Error" = Some (PyInt (ValidMetric.Error s)) /\
    (reset = true -> ValidMetric.all_counters_zero s') /\
    ValidMetric.data s' = ValidMetric.data s.
Proof.
  intros Hc. unfold ValidMetric.get_metric. run_step.
  rewrite !truediv_nonzero by exact Hc. simpl.
  destruct reset; simpl.
  all: eexists; eexists; split; [reflexivity|].
  all: split; [unfold ValidMetric.report_keys; rewrite !dom_insert_L; set_solver|].
  all: repeat split; try reflexivity; try discriminate.
Qed.

Lemma get_metric_empty (format_float : Q -> string) (reset : bool)
    (s : ValidMetric.state) :
  ValidMetric.cur_idx s = 0 ->
  ValidMetric.get_metric format_float reset s = (Raise ZeroDivisionError, s).
Proof.
  intros Hc. unfold ValidMetric.get_metric. run_step.
  rewrite Hc. reflexivity.
Qed.

(** C4 (as amended): with at least one observed row, [get_metric] returns a
    report with exactly the keys top1_accuracy, top6_accuracy,
    top10_accuracy, Error and ROUGE; the three top-k counters and the ROUGE
    accumulator are divided by the cursor, the Error count is reported as
    accumulated, undivided. *)
Theorem C4_get_metric_report (format_float : Q -> string) (reset : bool)
    (s : ValidMetric.state) :
  ValidMetric.cur_idx s <> 0 ->
  exists rep s',
    ValidMetric.get_metric format_float reset s = (Ok rep, s') /\
    dom rep = ValidMetric.report_keys /\
    rep !! "top1_accuracy" =
      Some (PyFloat (inject_Z (ValidMetric.top1_correct s)
                     / inject_Z (ValidMetric.cur_idx s))) /\
    rep !! "top6_accuracy" =
      Some (PyFloat (inject_Z (ValidMetric.top6_correct s)
                     / inject_Z (ValidMetric.cur_idx s))) /\
    rep !! "top10_accuracy" =
      Some (PyFloat (inject_Z (ValidMetric.top10_correct s)
                     / inject_Z (ValidMetric.cur_idx s))) /\
    rep !! "ROUGE" =
      Some (PyFloat (ValidMetric.ROUGE s / inject_Z (ValidMetric.cur_idx s))) /\
    rep !! "Error" = Some (PyInt (ValidMetric.Error s)).
Proof.
  intros Hc.
  destruct (get_metric_returns format_float reset s Hc)
    as (rep & s' & Hrun & Hdom & H1 & H6 & H10 & HR & HE & _).
  exists rep, s'. repeat split; assumption.
Qed.

Lemma C4_get_metric_report_witness :
  ValidMetric.cur_idx Samples.after_two_rows <> 0 /\
  exists rep s',
    ValidMetric.get_metric Samples.show_float true Samples.after_two_rows
      = (Ok rep, s') /\
    dom rep = ValidMetric.report_keys /\
    rep !! "top1_accuracy" = Some (PyFloat (inject_Z 1 / inject_Z 2)) /\
    rep !! "top6_accuracy" = Some (PyFloat (inject_Z 2 / inject_Z 2)) /\
    rep !! "top10_accuracy" = Some (PyFloat (inject_Z 2 / inject_Z 2)) /\
    rep !! "ROUGE" = Some (PyFloat ((1 # 2) / inject_Z 2)) /\
    rep !! "Error" = Some (PyInt 1).
Proof.
  split; [discriminate|].
  apply (C4_get_metric_report Samples.show_float true Samples.after_two_rows).
  discriminate.
Defined.

(** C4 as stated fails: after two rows with one error the report holds the
    Error count 1, not 1 divided by the 2 observed rows. *)
Lemma C4_Error_is_not_divided :
  exists rep s',
    ValidMetric.get_metric Samples.show_float true Samples.after_two_rows
      = (Ok rep, s') /\
    exists v,
      rep !! "Error" = Some v /\
      ~ (pyval_num v ==
         ValidMetric.spec_counter_over_rows
           (ValidMetric.Error Samples.after_two_rows)
           (ValidMetric.cur_idx Samples.after_two_rows))%Q.
Proof.
  destruct (get_metric_returns Samples.show_float true Samples.after_two_rows)
    as (rep & s' & Hrun & _ & _ & _ & _ & _ & HE & _); [discriminate|].
  exists rep, s'. split; [exact Hrun|].
  exists (PyInt 1). split; [exact HE|].
  unfold Qeq. simpl. discriminate.
Qed.

(** C7: [get_metric] on a fresh object raises [ZeroDivisionError]; and once
    a [get_metric(reset=True)] has returned, every counter and the cursor
    are zero, so the next [get_metric] raises [ZeroDivisionError] too,
    leaving the state as it is. *)
Theorem C7_empty_accumulation_raises (format_float : Q -> string) :
  (forall reset save_path data fs,
     ValidMetric.get_metric format_float reset
       (ValidMetric.init save_path data fs)
     = (Raise ZeroDivisionError, ValidMetric.init save_path data fs)) /\
  (forall s rep s' reset2,
     ValidMetric.get_metric format_float true s = (Ok rep, s') ->
     ValidMetric.all_counters_zero s' /\
     ValidMetric.get_metric format_float reset2 s'
     = (Raise ZeroDivisionError, s')).
Proof.
  split.
  - intros. apply get_metric_empty. reflexivity.
  - intros s rep s' reset2 Hrun.
    destruct (Z.eq_dec (ValidMetric.cur_idx s) 0) as [Hz|Hnz].
    + rewrite (get_metric_empty _ _ _ Hz) in Hrun. discriminate.
    + destruct (get_metric_returns format_float true s Hnz)
        as (rep0 & s0 & Hrun0 & _ & _ & _ & _ & _ & _ & Hzero & _).
      rewrite Hrun in Hrun0. injection Hrun0 as _ <-.
      specialize (Hzero eq_refl). split; [exact Hzero|].
      apply get_metric_empty. apply Hzero.
Qed.

Lemma C7_empty_accumulation_raises_witness :
  exists rep s',
    ValidMetric.get_metric Samples.show_float true Samples.after_two_rows
      = (Ok rep, s') /\
    ValidMetric.all_counters_zero s' /\
    ValidMetric.get_metric Samples.show_float false s'
      = (Raise ZeroDivisionError, s').
Proof.
  destruct (get_metric_returns Samples.show_float true Samples.after_two_rows)
    as (rep & s' & Hrun & _); [discriminate|].
  exists rep, s'. split; [exact Hrun|].
  exact (proj2 (C7_empty_accumulation_raises Samples.show_float)
           _ _ _ false Hrun).
Defined.

(** ** Python lists *)

Lemma getitem_inv {A} (l : list A) (i : Z) (a : A) :
  getitem l i = Ok a ->
  exists k, l !! k = Some a /\ forall x, setitem l i x = <[k := x]> l.
Proof.
  unfold getitem, setitem.
  destruct ((_ <? 0) || (_ <=? _)) eqn:E; [discriminate|].
  destruct (l !! _) as [b|] eqn:El; [|discriminate].
  intros [= ->]. eexists. split; [exact El|]. reflexivity.
Qed.

Lemma getitem_nat {A} (l : list A) (i : nat) :
  getitem l (Z.of_nat i) =
  match l !! i with Some a => Ok a | None => Raise IndexError end.
Proof.
  unfold getitem. cbv zeta.
  assert (Hlt : (Z.of_nat i <? 0) = false) by (apply Z.ltb_ge; lia).
  rewrite !Hlt. simpl. rewrite Nat2Z.id.
  destruct (Z.leb_spec (Z.of_nat (length l)) (Z.of_nat i)) as [Hge|_].
  - rewrite lookup_ge_None_2 by lia. reflexivity.
  - reflexivity.
Qed.

Lemma getitem_same_length {A B} (l : list A) (l' : list B) (i : Z) (a : A) :
  length l = length l' ->
  getitem l i = Ok a ->
  exists k b, l !! k = Some a /\ l' !! k = Some b /\ getitem l' i = Ok b.
Proof.
  intros Hlen. unfold getitem. rewrite <- Hlen.
  destruct ((_ <? 0) || (_ <=? _)) eqn:E; [discriminate|].
  destruct (l !! _) as [a'|] eqn:El; [|discriminate].
  intros [= ->].
  destruct (l' !! Z.to_nat (if i <? 0 then i + Z.of_nat (length l) else i))
    as [b|] eqn:El'.
  - eexists _, b. split; [exact El|]. split; [exact El'|]. reflexivity.
  - apply lookup_lt_Some in El. apply lookup_ge_None in El'. lia.
Qed.

Lemma getitem_raise_same_length {A B} (l : list A) (l' : list B) (i : Z) e :
  length l = length l' ->
  getitem l i = Raise e -> getitem l' i = Raise e.
Proof.
  intros Hlen. unfold getitem. rewrite <- Hlen.
  destruct ((_ <? 0) || (_ <=? _)) eqn:E; [intros [= <-]; reflexivity|].
  apply orb_false_iff in E as [E1 E2].
  apply Z.ltb_ge in E1. apply Z.leb_gt in E2.
  destruct (l !! _) as [a'|] eqn:El; [discriminate|].
  apply lookup_ge_None in El. lia.
Qed.

Lemma map_res_length {A B} (f : A -> Res B) (l : list A) (l' : list B) :
  map_res f l = Ok l' -> length l' = length l.
Proof.
  revert l'. induction l as [|x l IH]; intros l'; simpl.
  - intros [= <-]. reflexivity.
  - destruct (f x) as [y|e]; simpl; [|discriminate].
    destruct (map_res f l) as [ys|e]; simpl; [|discriminate].
    intros [= <-]. simpl. f_equal. apply IH. reflexivity.
Qed.


(** ** Sorting an index set *)

Lemma merge_sort_idemp (l : list Z) :
  merge_sort Z.le (merge_sort Z.le l) = merge_sort Z.le l.
Proof.
  apply (Sorted_unique Z.le).
  - apply Sorted_merge_sort; apply _.
  - apply Sorted_merge_sort; apply _.
  - apply merge_sort_Permutation.
Qed.

Lemma index_set_rel_refl (l : list Z) : ValidMetric.index_set_rel l l.
Proof. left. reflexivity. Qed.

Lemma index_set_rel_trans (a b c : list Z) :
  ValidMetric.index_set_rel a b -> ValidMetric.index_set_rel b c ->
  ValidMetric.index_set_rel a c.
Proof.
  unfold ValidMetric.index_set_rel. intros [->| ->] [->| ->]; auto.
  right. apply merge_sort_idemp.
Qed.

Lemma example_rel_refl (ex : Example) : ValidMetric.example_rel ex ex.
Proof.
  repeat split. apply Forall2_same_length_lookup. split; [reflexivity|].
  intros i x y Hx Hy. rewrite Hx in Hy. injection Hy as <-.
  apply index_set_rel_refl.
Qed.

Lemma example_rel_trans (a b c : Example) :
  ValidMetric.example_rel a b -> ValidMetric.example_rel b c ->
  ValidMetric.example_rel a c.
Proof.
  intros (Ht1 & Hs1 & Hi1) (Ht2 & Hs2 & Hi2).
  split; [congruence|]. split; [congruence|].
  eapply Forall2_trans; [|exact Hi1|exact Hi2].
  intros x y z. apply index_set_rel_trans.
Qed.

Lemma data_rel_refl (d : list Example) : ValidMetric.data_rel d d.
Proof.
  apply Forall2_same_length_lookup. split; [reflexivity|].
  intros i x y Hx Hy. rewrite Hx in Hy. injection Hy as <-.
  apply example_rel_refl.
Qed.

Lemma data_rel_trans (a b c : list Example) :
  ValidMetric.data_rel a b -> ValidMetric.data_rel b c ->
  ValidMetric.data_rel a c.
Proof.
  intros H1 H2. eapply Forall2_trans; [|exact H1|exact H2].
  intros x y z. apply example_rel_trans.
Qed.

Lemma row_frame_refl (s : ValidMetric.state) : ValidMetric.row_frame s s.
Proof. repeat split. apply data_rel_refl. Qed.

Lemma row_frame_trans (a b c : ValidMetric.state) :
  ValidMetric.row_frame a b -> ValidMetric.row_frame b c ->
  ValidMetric.row_frame a c.
Proof.
  intros (?&?&?&?&?&?) (?&?&?&?&?&?).
  repeat split; try congruence. eapply data_rel_trans; eassumption.
Qed.

(** Sorting the selected index set in place relates the data to itself. *)
Lemma data_rel_sort_in_place (d : list Example) (c k : Z) (ex : Example)
    (ids : list Z) :
  getitem d c = Ok ex ->
  getitem (indices ex) k = Ok ids ->
  ValidMetric.data_rel d
    (setitem d c
       (set_indices ex (setitem (indices ex) k (merge_sort Z.le ids)))).
Proof.
  intros Hex Hids.
  apply getitem_inv in Hex as (p & Hp & ->).
  apply getitem_inv in Hids as (q & Hq & ->).
  rewrite <- (list_insert_id d p ex Hp) at 1.
  apply Forall2_insert; [apply data_rel_refl|].
  split; [reflexivity|]. split; [reflexivity|]. simpl.
  rewrite <- (list_insert_id (indices ex) q ids Hq) at 1.
  apply Forall2_insert.
  - apply Forall2_same_length_lookup. split; [reflexivity|].
    intros i x y Hx Hy. rewrite Hx in Hy. injection Hy as <-. left. reflexivity.
  - right. reflexivity.
Qed.

(** The padding test only looks at the number of examples and of index
    sets, which scoring keeps. *)
Lemma selects_padding_data_rel (d d' : list Example) (c : Z) (row : list Q) :
  ValidMetric.data_rel d d' ->
  ValidMetric.selects_padding d' c row = ValidMetric.selects_padding d c row.
Proof.
  intros Hrel. unfold ValidMetric.selects_padding.
  destruct (argmax row) as [k|e]; [|reflexivity].
  pose proof (Forall2_length _ _ _ Hrel) as Hlen.
  destruct (getitem d c) as [ex|e] eqn:Hd.
  - destruct (getitem_same_length d d' c ex Hlen Hd) as (p & ex' & Hp & Hp' & ->).
    pose proof (Forall2_lookup_lr _ _ _ _ _ _ Hrel Hp Hp') as (_ & _ & Hix).
    rewrite (Forall2_length _ _ _ Hix). reflexivity.
  - rewrite (getitem_raise_same_length d d' c e Hlen Hd). reflexivity.
Qed.

Lemma count_padding_data_rel (d d' : list Example) (c : Z)
    (rs : list (list Q)) :
  ValidMetric.data_rel d d' ->
  ValidMetric.count_padding d' c rs = ValidMetric.count_padding d c rs.
Proof.
  intros Hrel. revert c. induction rs as [|r rs IH]; intros c; simpl.
  - reflexivity.
  - rewrite (selects_padding_data_rel d d' c r Hrel), IH. reflexivity.
Qed.

(** ** [ValidMetric.evaluate]: one row *)

Lemma row_body_padding (get_scores : string -> string -> Res (Q * Q * Q))
    (score : Tensor2) (i : nat) (s : ValidMetric.state)
    (row : list Q) (k : nat) (ex : Example) :
  rows score !! i = Some row ->
  argmax row = Ok k ->
  getitem (ValidMetric.data s) (ValidMetric.cur_idx s) = Ok ex ->
  (length (indices ex) <= k)%nat ->
  ValidMetric.row_body get_scores score i s
  = (Ok tt, ValidMetric.add_cur_idx 1 (ValidMetric.add_Error 1 s)).
Proof.
  intros Hrow Hk Hex Hlen.
  unfold ValidMetric.row_body. run_step.
  rewrite getitem_nat, Hrow, Hk, Hex.
  destruct (Z.leb_spec (Z.of_nat (length (indices ex))) (Z.of_nat k)); [|lia].
  reflexivity.
Qed.

Lemma row_body_spec (get_scores : string -> string -> Res (Q * Q * Q))
    (score : Tensor2) (i : nat) (s : ValidMetric.state) :
  exists r s',
    ValidMetric.row_body get_scores score i s = (r, s') /\
    ValidMetric.row_frame s s' /\
    (r = Ok tt ->
     ValidMetric.cur_idx s' = ValidMetric.cur_idx s + 1 /\
     exists row,
       rows score !! i = Some row /\
       ValidMetric.Error s' = ValidMetric.Error s +
         (if ValidMetric.selects_padding (ValidMetric.data s)
               (ValidMetric.cur_idx s) row then 1 else 0)).
Proof.
  unfold ValidMetric.row_body. run_step.
  rewrite getitem_nat.
  destruct (rows score !! i) as [row|] eqn:Hrow;
    [|eexists _, _; split; [reflexivity|];
      split; [apply row_frame_refl|discriminate]].
  destruct (argmax row) as [k|e] eqn:Hk;
    [|eexists _, _; split; [reflexivity|];
      split; [apply row_frame_refl|discriminate]].
  destruct (getitem (ValidMetric.data s) (ValidMetric.cur_idx s)) as [ex|e]
    eqn:Hex;
    [|eexists _, _; split; [reflexivity|];
      split; [apply row_frame_refl|discriminate]].
  assert (Hpad : ValidMetric.selects_padding (ValidMetric.data s)
                   (ValidMetric.cur_idx s) row
                 = (Z.of_nat (length (indices ex)) <=? Z.of_nat k)).
  { unfold ValidMetric.selects_padding. rewrite Hk, Hex. reflexivity. }
  destruct (Z.of_nat (length (indices ex)) <=? Z.of_nat k) eqn:Hle.
  - eexists _, _. split; [reflexivity|].
    split; [repeat split; apply data_rel_refl|]. intros _. simpl.
    split; [reflexivity|]. exists row. rewrite Hpad. auto.
  - destruct (getitem (indices ex) (Z.of_nat k)) as [ids|e] eqn:Hids;
      [|eexists _, _; split; [reflexivity|];
        split; [apply row_frame_refl|discriminate]].
    pose proof (data_rel_sort_in_place _ _ _ _ _ Hex Hids) as Hrel.
    destruct (map_res (getitem (text ex)) (merge_sort Z.le ids)) as [dec|e];
      [|eexists _, _; split; [reflexivity|]; split; [|discriminate];
        repeat split; exact Hrel].
    destruct (ValidMetric.fast_rouge get_scores _ _) as [q|e];
      [|eexists _, _; split; [reflexivity|]; split; [|discriminate];
        repeat split; exact Hrel].
    eexists _, _. split; [reflexivity|].
    split; [repeat split; exact Hrel|]. intros _. simpl.
    split; [reflexivity|]. exists row. rewrite Hpad. split; [reflexivity|lia].
Qed.

(** ** [ValidMetric.evaluate]: the loop over the rows and the whole batch *)

Lemma rows_loop_spec (get_scores : string -> string -> Res (Q * Q * Q))
    (score : Tensor2) (rs : list (list Q)) :
  forall (k : nat) (s : ValidMetric.state),
    drop k (rows score) = rs ->
    exists r s',
      for_each (seq k (length rs)) (ValidMetric.row_body get_scores score) s
        = (r, s') /\
      ValidMetric.row_frame s s' /\
      (r = Ok tt ->
       ValidMetric.cur_idx s' = ValidMetric.cur_idx s + Z.of_nat (length rs) /\
       ValidMetric.Error s' = ValidMetric.Error s +
         ValidMetric.count_padding (ValidMetric.data s)
           (ValidMetric.cur_idx s) rs).
Proof.
  induction rs as [|r0 rs IH]; intros k s Hdrop.
  - exists (Ok tt), s. split; [reflexivity|].
    split; [apply row_frame_refl|]. intros _. simpl. split; lia.
  - assert (Hk : rows score !! k = Some r0).
    { rewrite <- (Nat.add_0_r k), <- lookup_drop, Hdrop. reflexivity. }
    assert (Hrest : drop (S k) (rows score) = rs).
    { replace (S k) with (k + 1)%nat by lia.
      rewrite <- drop_drop, Hdrop. reflexivity. }
    destruct (row_body_spec get_scores score k s)
      as (r & s1 & Hrun & Hframe & Hok).
    simpl. unfold bind. rewrite Hrun.
    destruct r as [[]|e].
    + destruct (Hok eq_refl) as (Hcur & row & Hrow & Herr).
      rewrite Hk in Hrow. injection Hrow as <-.
      destruct (IH (S k) s1 Hrest) as (r' & s' & Hrun' & Hframe' & Hok').
      exists r', s'. split; [exact Hrun'|].
      split; [eapply row_frame_trans; eassumption|].
      intros Hr'. destruct (Hok' Hr') as (Hcur' & Herr').
      rewrite Hcur', Herr', Hcur, Herr.
      rewrite (count_padding_data_rel (ValidMetric.data s) (ValidMetric.data s1))
        by apply Hframe.
      split; lia.
    + exists (Raise e), s1. split; [reflexivity|].
      split; [exact Hframe|discriminate].
Qed.

Lemma max_indices_length (score : Tensor2) (idx : list nat) :
  max_indices score = Ok idx -> length idx = size0 score.
Proof.
  unfold max_indices. case_bool_decide; [discriminate|].
  intros Hm. apply map_res_length in Hm. exact Hm.
Qed.

Lemma evaluate_raises (get_scores : string -> string -> Res (Q * Q * Q))
    (score : Tensor2) (s : ValidMetric.state) (e : exn) :
  max_indices score = Raise e ->
  ValidMetric.evaluate get_scores score s = (Raise e, s).
Proof.
  intros H. unfold ValidMetric.evaluate. run_step. rewrite H. reflexivity.
Qed.

Lemma evaluate_spec (get_scores : string -> string -> Res (Q * Q * Q))
    (score : Tensor2) (s : ValidMetric.state) (idx : list nat) :
  max_indices score = Ok idx ->
  exists r s',
    ValidMetric.evaluate get_scores score s = (r, s') /\
    ValidMetric.save_path s' = ValidMetric.save_path s /\
    ValidMetric.fs s' = ValidMetric.fs s /\
    ValidMetric.data_rel (ValidMetric.data s) (ValidMetric.data s') /\
    ValidMetric.top1_correct s' =
      ValidMetric.top1_correct s + count_if (fun k => k =? 0)%nat idx /\
    ValidMetric.top6_correct s' =
      ValidMetric.top6_correct s + count_if (fun k => k <=? 5)%nat idx /\
    ValidMetric.top10_correct s' =
      ValidMetric.top10_correct s + count_if (fun k => k <=? 9)%nat idx /\
    (r = Ok tt ->
     ValidMetric.cur_idx s' =
       ValidMetric.cur_idx s + Z.of_nat (size0 score) /\
     ValidMetric.Error s' = ValidMetric.Error s +
       ValidMetric.count_padding (ValidMetric.data s)
         (ValidMetric.cur_idx s) (rows score)).
Proof.
  intros Hidx. unfold ValidMetric.evaluate. run_step. rewrite Hidx.
  set (s0 := ValidMetric.add_top10 _ (ValidMetric.add_top6 _
               (ValidMetric.add_top1 _ s))).
  destruct (rows_loop_spec get_scores score (rows score) 0 s0 eq_refl)
    as (r & s' & Hrun & (Hp & H1 & H6 & H10 & Hfs & Hrel) & Hok).
  exists r, s'. unfold size0. split; [exact Hrun|].
  split; [exact Hp|]. split; [exact Hfs|]. split; [exact Hrel|].
  split; [exact H1|]. split; [exact H6|]. split; [exact H10|]. exact Hok.
Qed.



(** C5: a row whose arg-max is not below the number of candidate index sets
    of the example at the cursor adds exactly 1 to [Error], leaves [ROUGE]
    as it is and advances the cursor by 1; every row that completes, in
    either branch, advances the cursor by exactly 1; and a batch that
    completes has advanced the cursor by its number of rows and [Error] by
    its number of padding-selecting rows. *)
Theorem C5_padding_rows_count_as_errors
    (get_scores : string -> string -> Res (Q * Q * Q)) (score : Tensor2) :
  (forall i st row k ex,
     rows score !! i = Some row ->
     argmax row = Ok k ->
     getitem (ValidMetric.data st) (ValidMetric.cur_idx st) = Ok ex ->
     (length (indices ex) <= k)%nat ->
     exists st',
       ValidMetric.row_body get_scores score i st = (Ok tt, st') /\
       ValidMetric.Error st' = ValidMetric.Error st + 1 /\
       ValidMetric.ROUGE st' = ValidMetric.ROUGE st /\
       ValidMetric.cur_idx st' = ValidMetric.cur_idx st + 1) /\
  (forall i st st',
     ValidMetric.row_body get_scores score i st = (Ok tt, st') ->
     ValidMetric.cur_idx st' = ValidMetric.cur_idx st + 1) /\
  (forall s s',
     ValidMetric.evaluate get_scores score s = (Ok tt, s') ->
     ValidMetric.cur_idx s' = ValidMetric.cur_idx s + Z.of_nat (size0 score) /\
     ValidMetric.Error s' = ValidMetric.Error s +
       ValidMetric.count_padding (ValidMetric.data s)
         (ValidMetric.cur_idx s) (rows score)).
Proof.
  split; [|split].
  - intros i st row k ex Hrow Hk Hex Hlen.
    eexists. split; [eapply row_body_padding; eassumption|].
    simpl. repeat split.
  - intros i st st' Hrun.
    destruct (row_body_spec get_scores score i st) as (r & s1 & Hrun1 & _ & Hok).
    rewrite Hrun in Hrun1. injection Hrun1 as <- <-.
    apply (Hok eq_refl).
  - intros s s' Hrun.
    destruct (max_indices score) as [idx|e] eqn:Hidx.
    + destruct (evaluate_spec get_scores score s idx Hidx)
        as (r & s1 & Hrun1 & _ & _ & _ & _ & _ & _ & Hok).
      rewrite Hrun in Hrun1. injection Hrun1 as <- <-.
      apply (Hok eq_refl).
    + rewrite (evaluate_raises get_scores score s e Hidx) in Hrun. discriminate.
Qed.

Lemma C5_padding_rows_count_as_errors_witness :
  exists st',
    ValidMetric.row_body Samples.perfect_scores Samples.third_best 0
      (ValidMetric.init "out" [Samples.two_candidates] ∅) = (Ok tt, st') /\
    ValidMetric.Error st' = 0 + 1 /\
    ValidMetric.ROUGE st' = 0%Q /\
    ValidMetric.cur_idx st' = 0 + 1.
Proof.
  apply (proj1 (C5_padding_rows_count_as_errors Samples.perfect_scores
                  Samples.third_best)
           0%nat (ValidMetric.init "out" [Samples.two_candidates] ∅)
           [1; 2; 3]%Q 2%nat Samples.two_candidates).
  - reflexivity.
  - reflexivity.
  - reflexivity.
  - simpl. lia.
Defined.




(** ** Top-k counters *)








(** ** File names *)

Lemma chars_app (a b : string) :
  list_ascii_of_string (a +:+ b)
  = list_ascii_of_string a ++ list_ascii_of_string b.
Proof.
  induction a as [|c a IH].
  - reflexivity.
  - change (String c a +:+ b) with (String c (a +:+ b)).
    simpl. rewrite IH. reflexivity.
Qed.

Lemma chars_inj (a b : string) :
  list_ascii_of_string a = list_ascii_of_string b -> a = b.
Proof.
  intros H. rewrite <- (string_of_list_ascii_of_string a),
    <- (string_of_list_ascii_of_string b), H. reflexivity.
Qed.

Lemma join_prefix (a : string) :
  exists pre : list ascii,
    forall b, starts_with_sep b = false ->
      list_ascii_of_string (join a b) = pre ++ list_ascii_of_string b.
Proof.
  unfold join.
  destruct (bool_decide (a = "") || ends_with_sep a).
  - exists (list_ascii_of_string a). intros b ->. apply chars_app.
  - exists (list_ascii_of_string a ++ ["/"%char]). intros b ->.
    rewrite !chars_app, <- app_assoc. reflexivity.
Qed.

Lemma pretty_N_go_head (x : N) :
  forall s, digit_head s -> digit_head (pretty_N_go x s).
Proof.
  induction (N.lt_wf_0 x) as [x _ IH]; intros s Hs.
  assert (x = 0 \/ 0 < x)%N as [->|Hpos] by lia.
  - rewrite pretty_N_go_0. exact Hs.
  - rewrite pretty_N_go_step by exact Hpos. apply IH.
    + apply N.div_lt; lia.
    + eexists _, _. split; [reflexivity|].
      unfold pretty_N_char. repeat case_match; discriminate.
Qed.

Lemma pretty_nat_head (i : nat) : digit_head (pretty i).
Proof.
  unfold pretty, pretty_nat, pretty, pretty_N.
  destruct (decide (N.of_nat i = 0%N)) as [_|Hne].
  - eexists _, _. split; [reflexivity|discriminate].
  - rewrite pretty_N_go_step by lia. apply pretty_N_go_head.
    eexists _, _. split; [reflexivity|].
    unfold pretty_N_char. repeat case_match; discriminate.
Qed.

Lemma file_name_no_sep (i : nat) (suffix : string) :
  starts_with_sep (pretty i +:+ suffix) = false.
Proof.
  destruct (pretty_nat_head i) as (c & s' & -> & Hc).
  change (String c s' +:+ suffix) with (String c (s' +:+ suffix)).
  simpl. apply bool_decide_eq_false_2. exact Hc.
Qed.

Lemma file_name_chars (dir suffix : string) :
  exists pre : list ascii,
    forall i : nat,
      list_ascii_of_string (join dir (pretty i +:+ suffix))
      = pre ++ list_ascii_of_string (pretty i) ++ list_ascii_of_string suffix.
Proof.
  destruct (join_prefix dir) as (pre & Hpre).
  exists pre. intros i.
  rewrite Hpre by apply file_name_no_sep. rewrite chars_app. reflexivity.
Qed.

Lemma file_name_inj (dir suffix : string) (i j : nat) :
  join dir (pretty i +:+ suffix) = join dir (pretty j +:+ suffix) -> i = j.
Proof.
  intros Heq. destruct (file_name_chars dir suffix) as (pre & Hpre).
  apply (f_equal list_ascii_of_string) in Heq. rewrite !Hpre in Heq.
  apply app_inv_head in Heq. apply app_inv_tail in Heq.
  apply chars_inj in Heq. apply (inj pretty) in Heq. exact Heq.
Qed.

Lemma dec_file_inj (dir : string) (i j : nat) :
  MatchRougeMetric.dec_file dir i = MatchRougeMetric.dec_file dir j -> i = j.
Proof. apply file_name_inj. Qed.

Lemma ref_file_inj (dir : string) (i j : nat) :
  MatchRougeMetric.ref_file dir i = MatchRougeMetric.ref_file dir j -> i = j.
Proof. apply file_name_inj. Qed.

Lemma dec_file_ne_ref_file (dir dir' : string) (i j : nat) :
  MatchRougeMetric.dec_file dir i <> MatchRougeMetric.ref_file dir' j.
Proof.
  unfold MatchRougeMetric.dec_file, MatchRougeMetric.ref_file. intros Heq.
  destruct (file_name_chars dir ".dec") as (pre & Hpre).
  destruct (file_name_chars dir' ".ref") as (pre' & Hpre').
  apply (f_equal list_ascii_of_string) in Heq. rewrite Hpre, Hpre' in Heq.
  rewrite !app_assoc in Heq.
  apply app_inj_2 in Heq as [_ Heq]; [|reflexivity].
  discriminate Heq.
Qed.

(** ** [MatchRougeMetric.get_metric]: the files written *)

Lemma write_example_run (i : nat) (e : Z) (s : MatchRougeMetric.state) :
  MatchRougeMetric.write_example (i, e) s =
  match MatchRougeMetric.resolve (MatchRougeMetric.data s) i e with
  | Ok (dec, ref) =>
      (Ok tt,
       MatchRougeMetric.write_file
         (MatchRougeMetric.ref_file (MatchRougeMetric.ref_path s) i) ref
         (MatchRougeMetric.write_file
            (MatchRougeMetric.dec_file (MatchRougeMetric.dec_path s) i) dec s))
  | Raise err => (Raise err, s)
  end.
Proof.
  unfold MatchRougeMetric.write_example, MatchRougeMetric.resolve. run_step.
  destruct (getitem (MatchRougeMetric.data s) (Z.of_nat i)) as [ex|err];
    [|reflexivity]. simpl.
  destruct (getitem (indices ex) e) as [ids|err]; [|reflexivity]. simpl.
  destruct (map_res (getitem (text ex)) ids) as [dec|err]; reflexivity.
Qed.

Lemma write_loop_spec (es : list Z) :
  forall (k : nat) (s : MatchRougeMetric.state),
    (forall j e, es !! j = Some e ->
       exists dec ref,
         MatchRougeMetric.resolve (MatchRougeMetric.data s) (k + j) e
         = Ok (dec, ref)) ->
    exists fs' : gmap string string,
      for_each (zip (seq k (length es)) es) MatchRougeMetric.write_example s
        = (Ok tt, MatchRougeMetric.set_fs fs' s) /\
      (forall j e dec ref,
         es !! j = Some e ->
         MatchRougeMetric.resolve (MatchRougeMetric.data s) (k + j) e
           = Ok (dec, ref) ->
         fs' !! MatchRougeMetric.dec_file (MatchRougeMetric.dec_path s) (k + j)
           = Some (lines dec) /\
         fs' !! MatchRougeMetric.ref_file (MatchRougeMetric.ref_path s) (k + j)
           = Some (lines ref)) /\
      (forall p,
         (forall j, (j < length es)%nat ->
            p <> MatchRougeMetric.dec_file (MatchRougeMetric.dec_path s) (k + j) /\
            p <> MatchRougeMetric.ref_file (MatchRougeMetric.ref_path s) (k + j)) ->
         fs' !! p = MatchRougeMetric.fs s !! p).
Proof.
  induction es as [|e0 es IH]; intros k s Hres.
  - exists (MatchRougeMetric.fs s). split; [destruct s; reflexivity|].
    split; [intros j e dec ref Hj; inversion Hj|]. reflexivity.
  - destruct (Hres 0%nat e0 eq_refl) as (dec0 & ref0 & Hres0).
    rewrite Nat.add_0_r in Hres0.
    cbn [for_each zip_with seq length]. unfold bind.
    rewrite write_example_run, Hres0.
    set (s1 := MatchRougeMetric.write_file _ ref0 _).
    destruct (IH (S k) s1) as (fs' & Hrun & Hfiles & Hframe).
    { intros j e Hj. replace (S k + j)%nat with (k + S j)%nat by lia.
      apply (Hres (S j) e Hj). }
    exists fs'. split; [rewrite Hrun; reflexivity|]. split.
    + intros [|j] e dec ref Hj Hr.
      * injection Hj as <-. rewrite Nat.add_0_r in *.
        rewrite Hres0 in Hr. injection Hr as <- <-.
        rewrite !Hframe.
        -- subst s1. simpl. split.
           ++ rewrite lookup_insert_ne by (intros H; symmetry in H;
                revert H; apply dec_file_ne_ref_file).
              apply lookup_insert_eq.
           ++ apply lookup_insert_eq.
        -- intros j _. simpl. split.
           ++ intros H. symmetry in H. revert H. apply dec_file_ne_ref_file.
           ++ intros H. apply ref_file_inj in H. lia.
        -- intros j _. simpl. split.
           ++ intros H. apply dec_file_inj in H. lia.
           ++ apply dec_file_ne_ref_file.
      * replace (k + S j)%nat with (S k + j)%nat in * by lia.
        apply (Hfiles j e dec ref Hj Hr).
    + intros p Hp. rewrite Hframe.
      * subst s1. simpl.
        destruct (Hp 0%nat) as (Hd & Hr); [simpl; lia|].
        rewrite Nat.add_0_r in Hd, Hr.
        rewrite !lookup_insert_ne by congruence. reflexivity.
      * intros j Hj. replace (S k + j)%nat with (k + S j)%nat by lia.
        apply Hp. simpl. lia.
Qed.


Lemma write_files_unfold (s : MatchRougeMetric.state) :
  MatchRougeMetric.write_files s =
  for_each (zip (seq 0 (length (MatchRougeMetric.ext s))) (MatchRougeMetric.ext s))
    MatchRougeMetric.write_example s.
Proof. reflexivity. Qed.



(** ** [MatchRougeMetric]: reset *)

Lemma match_evaluate_appends (score : Tensor2) (s s1 : MatchRougeMetric.state) :
  MatchRougeMetric.evaluate score s = (Ok tt, s1) ->
  MatchRougeMetric.data s1 = MatchRougeMetric.data s /\
  exists e, MatchRougeMetric.ext s1 = MatchRougeMetric.ext s ++ [e].
Proof.
  unfold MatchRougeMetric.evaluate. run_step.
  destruct (max_indices score) as [[|k [|k' idx]]|err]; try discriminate.
  simpl.
  destruct (truediv _ _) as [q|err]; [|discriminate].
  intros [= <-]. simpl. split; [reflexivity|]. eexists. reflexivity.
Qed.

Lemma match_evaluate_all_appends (scores : list Tensor2) :
  forall s s1 : MatchRougeMetric.state,
    for_each scores MatchRougeMetric.evaluate s = (Ok tt, s1) ->
    MatchRougeMetric.data s1 = MatchRougeMetric.data s /\
    (length (MatchRougeMetric.ext s1)
     = length (MatchRougeMetric.ext s) + length scores)%nat.
Proof.
  induction scores as [|score scores IH]; intros s s1 Hrun; simpl in Hrun.
  - injection Hrun as <-. split; [reflexivity|simpl; lia].
  - unfold bind in Hrun.
    destruct (MatchRougeMetric.evaluate score s) as [[[]|err] s0] eqn:Hfirst;
      [|discriminate].
    apply match_evaluate_appends in Hfirst as (Hd & e & He).
    apply IH in Hrun as (Hd' & Hlen).
    split; [congruence|]. rewrite Hlen, He, length_app. simpl. lia.
Qed.

Lemma write_files_without_data (s : MatchRougeMetric.state) :
  MatchRougeMetric.data s = [] ->
  MatchRougeMetric.ext s <> [] ->
  MatchRougeMetric.write_files s = (Raise IndexError, s).
Proof.
  intros Hd He. rewrite write_files_unfold.
  destruct (MatchRougeMetric.ext s) as [|e es]; [congruence|].
  cbn [for_each zip_with seq length]. unfold bind.
  rewrite write_example_run. unfold MatchRougeMetric.resolve.
  rewrite Hd. reflexivity.
Qed.

Lemma match_get_metric_reset
    (eval_rouge : string -> string -> gmap string string ->
                  Res (Q * Q * Q) * gmap string string)
    (now : Q) (s s' : MatchRougeMetric.state) (rep : gmap string pyval) :
  MatchRougeMetric.get_metric eval_rouge true now s = (Ok rep, s') ->
  exists s0, s' = MatchRougeMetric.reset_state now s0.
Proof.
  unfold MatchRougeMetric.get_metric, bind.
  destruct (MatchRougeMetric.write_files s) as [[[]|err] s1]; [|discriminate].
  unfold MatchRougeMetric.call_eval_rouge.
  destruct (eval_rouge _ _ _) as [[[[R1 R2] RL]|err] fs2]; [|discriminate].
  run_step. intros [= _ <-]. eexists. reflexivity.
Qed.

(** C10: once [get_metric(reset=True)] has returned, the selected-index
    list is empty, the cursor is 0, the timer is restarted, and the example
    collection itself is the empty list; after that, any further pass of
    one or more [evaluate] calls followed by [get_metric] raises
    [IndexError] on the first example, before any file is written. *)
Theorem C10_reset_discards_the_examples
    (eval_rouge : string -> string -> gmap string string ->
                  Res (Q * Q * Q) * gmap string string)
    (now : Q) (s s' : MatchRougeMetric.state) (rep : gmap string pyval) :
  MatchRougeMetric.get_metric eval_rouge true now s = (Ok rep, s') ->
  MatchRougeMetric.data s' = [] /\
  MatchRougeMetric.ext s' = [] /\
  MatchRougeMetric.cur_idx s' = 0 /\
  MatchRougeMetric.start s' = now /\
  forall scores s1 reset now',
    scores <> [] ->
    for_each scores MatchRougeMetric.evaluate s' = (Ok tt, s1) ->
    MatchRougeMetric.get_metric eval_rouge reset now' s1
    = (Raise IndexError, s1).
Proof.
  intros Hrun. apply match_get_metric_reset in Hrun as (s0 & ->).
  repeat split.
  intros scores s1 reset now' Hne Hpass.
  apply match_evaluate_all_appends in Hpass as (Hd & Hlen).
  simpl in Hd, Hlen.
  unfold MatchRougeMetric.get_metric, bind.
  rewrite write_files_without_data; [reflexivity|exact Hd|].
  destruct scores; [congruence|].
  destruct (MatchRougeMetric.ext s1); [simpl in Hlen; lia|discriminate].
Qed.

Lemma C10_reset_discards_the_examples_witness :
  let out :=
    MatchRougeMetric.get_metric Samples.no_rouge true 5 Samples.match_state in
  let s' := snd out in
  let s1 := snd (for_each [Samples.first_best] MatchRougeMetric.evaluate s') in
  (exists rep, out = (Ok rep, s')) /\
  MatchRougeMetric.data s' = [] /\
  for_each [Samples.first_best] MatchRougeMetric.evaluate s' = (Ok tt, s1) /\
  MatchRougeMetric.ext s1 = [0] /\
  MatchRougeMetric.get_metric Samples.no_rouge true 6 s1
  = (Raise IndexError, s1).
Proof.
  intros out s' s1.
  assert (Hrun : out = (Ok (match fst out with Ok r => r | Raise _ => ∅ end), s'))
    by (vm_compute; reflexivity).
  assert (Hpass : for_each [Samples.first_best] MatchRougeMetric.evaluate s'
                  = (Ok tt, s1)) by (vm_compute; reflexivity).
  destruct (C10_reset_discards_the_examples Samples.no_rouge 5
              Samples.match_state s' _ Hrun) as (Hd & _ & _ & _ & Hnext).
  split; [eexists; exact Hrun|]. split; [exact Hd|].
  split; [exact Hpass|]. split; [vm_compute; reflexivity|].
  apply (Hnext [Samples.first_best] s1 true 6%Q); [discriminate|exact Hpass].
Defined.

(** ** Scalars up to equality of rationals *)

Lemma scalar_equiv_refl (a : scalar) : scalar_equiv a a.
Proof. destruct a; simpl; [exact I|reflexivity]. Qed.

Lemma scalar_equiv_sym (a b : scalar) : scalar_equiv a b -> scalar_equiv b a.
Proof. destruct a, b; simpl; auto. intros H. symmetry. exact H. Qed.

Lemma scalar_equiv_trans (a b c : scalar) :
  scalar_equiv a b -> scalar_equiv b c -> scalar_equiv a c.
Proof.
  destruct a, b, c; simpl; auto; try contradiction.
  intros H1 H2. rewrite H1. exact H2.
Qed.

Lemma scalar_add_equiv (a a' b b' : scalar) :
  scalar_equiv a a' -> scalar_equiv b b' ->
  scalar_equiv (scalar_add a b) (scalar_add a' b').
Proof.
  destruct a, a', b, b'; simpl; auto; try contradiction.
  intros H1 H2. rewrite H1, H2. reflexivity.
Qed.

Lemma scalar_add_assoc (a b c : scalar) :
  scalar_equiv (scalar_add (scalar_add a b) c) (scalar_add a (scalar_add b c)).
Proof. destruct a, b, c; simpl; auto. ring. Qed.

Lemma scalar_add_0_r (a : scalar) : scalar_equiv (scalar_add a (fin 0)) a.
Proof. destruct a; simpl; auto. ring. Qed.

Lemma fold_left_scalar_sum {A} (f g : A -> scalar) (l : list A) :
  forall a : scalar,
    (forall i, i ∈ l -> scalar_equiv (f i) (g i)) ->
    scalar_equiv
      (fold_left (fun T i => scalar_add T (f i)) l a)
      (scalar_add a (MarginRankingLoss.scalar_sum (map g l))).
Proof.
  induction l as [|i l IH]; intros a Hfg; simpl.
  - apply scalar_equiv_sym, scalar_add_0_r.
  - eapply scalar_equiv_trans.
    + apply IH. intros j Hj. apply Hfg. right. exact Hj.
    + eapply scalar_equiv_trans; [apply scalar_add_assoc|].
      apply scalar_add_equiv; [apply scalar_equiv_refl|].
      apply scalar_add_equiv; [|apply scalar_equiv_refl].
      apply Hfg. left.
Qed.

(** ** Means and margin-ranking terms *)

Lemma Qsum_equiv (l l' : list Q) :
  Forall2 Qeq l l' -> (Qsum l == Qsum l')%Q.
Proof.
  induction 1 as [|x y l l' Hxy _ IH]; simpl.
  - reflexivity.
  - rewrite Hxy, IH. reflexivity.
Qed.

Lemma mean_equiv (l l' : list Q) :
  Forall2 Qeq l l' -> scalar_equiv (mean l) (mean l').
Proof.
  intros H. pose proof (Forall2_length _ _ _ H) as Hlen.
  pose proof (Qsum_equiv _ _ H) as Hsum.
  destruct H as [|x y l l' Hxy Hrest]; simpl; [exact I|].
  simpl in Hlen, Hsum. unfold Qnat. rewrite Hsum.
  injection Hlen as ->. reflexivity.
Qed.

Lemma zip_with3_ones {D} (f : Q -> Q -> Q -> D) (x1 : list Q) :
  forall x2 : list Q,
    zip_with3 f x1 x2 (replicate (length x1) 1%Q)
    = map (fun pq => f (fst pq) (snd pq) 1%Q) (zip x1 x2).
Proof.
  induction x1 as [|a x1 IH]; intros [|b x2]; simpl; try reflexivity.
  rewrite IH. reflexivity.
Qed.

Lemma hinge_all_ones (margin a b : Q) :
  (Qmax 0 (- (1) * (a - b) + margin) == Qmax 0 (margin - (a - b)))%Q.
Proof.
  apply Q.max_compat; [reflexivity|ring].
Qed.

Lemma loss_is_ranking_term (margin : Q) (x1 x2 : list Q) :
  scalar_equiv
    (torch_MarginRankingLoss margin x1 x2 (ones1 x1))
    (MarginRankingLoss.spec_ranking_term margin x1 x2).
Proof.
  unfold torch_MarginRankingLoss, ones1, MarginRankingLoss.spec_ranking_term.
  rewrite zip_with3_ones. apply mean_equiv.
  induction (zip x1 x2) as [|pq l IH]; simpl; constructor.
  - apply hinge_all_ones.
  - exact IH.
Qed.

Lemma ranking_term_margin_equiv (m m' : Q) (pos neg : list Q) :
  (m == m')%Q ->
  scalar_equiv (MarginRankingLoss.spec_ranking_term m pos neg)
    (MarginRankingLoss.spec_ranking_term m' pos neg).
Proof.
  intros Hm. unfold MarginRankingLoss.spec_ranking_term. apply mean_equiv.
  induction (zip pos neg) as [|pq l IH]; simpl; constructor.
  - apply Q.max_compat; [reflexivity|]. rewrite Hm. reflexivity.
  - exact IH.
Qed.

(** ** Shapes and slices *)

Lemma concat_replicate {A} (b n : nat) (x : A) :
  concat (replicate b (replicate n x)) = replicate (b * n) x.
Proof.
  induction b as [|b IH]; simpl.
  - reflexivity.
  - rewrite IH, replicate_add. reflexivity.
Qed.

Lemma view_length (t : Tensor2) :
  wf_tensor t -> length (view t) = (size0 t * size1 t)%nat.
Proof.
  unfold wf_tensor, view, size0. generalize (size1 t). intros n.
  induction 1 as [|r rs Hr _ IH]; simpl.
  - reflexivity.
  - rewrite length_app, IH, Hr. reflexivity.
Qed.

Lemma view_ones_like (t : Tensor2) :
  wf_tensor t -> view (ones_like t) = ones1 (view t).
Proof.
  intros Hwf. unfold ones1. rewrite (view_length t Hwf).
  unfold view, ones_like. simpl. apply concat_replicate.
Qed.

Lemma view_cols_until_neg (i : nat) (t : Tensor2) :
  wf_tensor t ->
  view (cols_until_neg i t) = MarginRankingLoss.spec_columns 0 (size1 t - i) t.
Proof.
  unfold wf_tensor, view, cols_until_neg, MarginRankingLoss.spec_columns.
  simpl. generalize (size1 t). intros n.
  induction 1 as [|r rs Hr _ IH]; simpl.
  - reflexivity.
  - rewrite IH, Hr, Nat.sub_0_r. reflexivity.
Qed.

Lemma view_cols_from (i : nat) (t : Tensor2) :
  wf_tensor t ->
  view (cols_from i t) = MarginRankingLoss.spec_columns i (size1 t) t.
Proof.
  unfold wf_tensor, view, cols_from, MarginRankingLoss.spec_columns.
  simpl. generalize (size1 t). intros n.
  induction 1 as [|r rs Hr _ IH]; simpl.
  - reflexivity.
  - rewrite IH, take_ge by (rewrite length_drop; lia). reflexivity.
Qed.

(** ** [get_loss] computes the loss of the specification *)

Lemma fold_res_ok {A B} (f : A -> B -> Res A) (g : A -> B -> A) (l : list B) :
  (forall a x, f a x = Ok (g a x)) ->
  forall a, fold_res f l a = Ok (fold_left g l a).
Proof.
  intros Hfg. induction l as [|x l IH]; intros a; simpl.
  - reflexivity.
  - rewrite Hfg. simpl. apply IH.
Qed.

Lemma same_device_refl (d : device) : same_device d d = Ok tt.
Proof.
  destruct d as [|i]; simpl; [reflexivity|].
  rewrite bool_decide_eq_true_2 by reflexivity. reflexivity.
Qed.

(** On a CUDA device, with the gold scores on the same device, the calls
    to [.cuda] pass and [get_loss] is the accumulation of its terms. *)
Lemma get_loss_on_cuda (margin : Q) (k : nat) (score : Tensor2)
    (summary_score : list Q) :
  MarginRankingLoss.get_loss margin (cuda k) score (cuda k) summary_score =
  res_bind (expand_as summary_score score) (fun pos =>
    Ok (scalar_add
          (fold_left
             (fun TotalLoss i =>
                scalar_add TotalLoss
                  (torch_MarginRankingLoss (margin * Qnat i)
                     (view (cols_until_neg i score)) (view (cols_from i score))
                     (ones1 (view (cols_until_neg i score)))))
             (seq 1 (size1 score - 1))
             (torch_MarginRankingLoss 0 (view score) (view score)
                (view (ones_like score))))
          (torch_MarginRankingLoss 0 (view pos) (view score)
             (ones1 (view pos))))).
Proof.
  unfold MarginRankingLoss.get_loss. simpl to_cuda. cbn [res_bind].
  rewrite (fold_res_ok _
             (fun TotalLoss i =>
                scalar_add TotalLoss
                  (torch_MarginRankingLoss (margin * Qnat i)
                     (view (cols_until_neg i score)) (view (cols_from i score))
                     (ones1 (view (cols_until_neg i score))))))
    by reflexivity.
  cbn [res_bind]. rewrite same_device_refl.
  destruct (expand_as summary_score score); reflexivity.
Qed.

Lemma get_loss_refines (margin : Q) (k : nat) (score : Tensor2)
    (summary_score : list Q) :
  wf_tensor score ->
  length summary_score = size0 score ->
  exists v,
    MarginRankingLoss.get_loss margin (cuda k) score (cuda k) summary_score
      = Ok v /\
    scalar_equiv v (MarginRankingLoss.spec_loss margin score summary_score).
Proof.
  intros Hwf Hlen. rewrite get_loss_on_cuda. unfold expand_as.
  rewrite bool_decide_eq_true_2 by exact Hlen. simpl.
  eexists. split; [reflexivity|].
  unfold MarginRankingLoss.spec_loss.
  apply scalar_add_equiv.
  - eapply scalar_equiv_trans.
    + apply (fold_left_scalar_sum _
               (MarginRankingLoss.spec_distance_term margin score)).
      intros i _. unfold MarginRankingLoss.spec_distance_term.
      rewrite view_cols_until_neg, view_cols_from by exact Hwf.
      apply loss_is_ranking_term.
    + apply scalar_add_equiv; [|apply scalar_equiv_refl].
      rewrite view_ones_like by exact Hwf. apply loss_is_ranking_term.
  - apply loss_is_ranking_term.
Qed.

(** ** Sign of a margin-ranking term *)

Lemma Qsum_nonneg (l : list Q) :
  Forall (fun x => 0 <= x)%Q l -> (0 <= Qsum l)%Q.
Proof.
  induction 1 as [|x l Hx _ IH]; simpl; [apply Qle_refl|lra].
Qed.

Lemma Qsum_zero (l : list Q) :
  Forall (fun x => x == 0)%Q l -> (Qsum l == 0)%Q.
Proof.
  induction 1 as [|x l Hx _ IH]; simpl; [reflexivity|lra].
Qed.

Lemma Qsum_pos (l : list Q) :
  Forall (fun x => 0 <= x)%Q l -> Exists (fun x => 0 < x)%Q l ->
  (0 < Qsum l)%Q.
Proof.
  intros Hnn Hex. induction Hex as [x l Hx|x l _ IH]; simpl.
  - inversion Hnn as [|? ? _ Hl]; subst.
    pose proof (Qsum_nonneg l Hl). lra.
  - inversion Hnn as [|? ? Hx Hl]; subst. specialize (IH Hl). lra.
Qed.

Lemma Qnat_pos (n : nat) : (0 < n)%nat -> (0 < Qnat n)%Q.
Proof.
  intros Hn. unfold Qnat, Qlt. simpl. lia.
Qed.

Lemma mean_term_ok (l : list Q) :
  l <> [] ->
  Forall (fun x => 0 <= x)%Q l ->
  MarginRankingLoss.term_ok
    (Forall (fun x => x == 0)%Q l) (Exists (fun x => 0 < x)%Q l) (mean l).
Proof.
  intros Hne Hnn.
  assert (Hlen : (0 < Qnat (length l))%Q).
  { apply Qnat_pos. destruct l; [congruence|simpl; lia]. }
  exists (Qsum l / Qnat (length l))%Q.
  split; [destruct l; [congruence|reflexivity]|].
  split; [|split].
  - apply Qle_shift_div_l; [exact Hlen|].
    pose proof (Qsum_nonneg l Hnn). lra.
  - intros Hz. unfold Qdiv. rewrite (Qsum_zero l Hz). ring.
  - intros Hp. apply Qlt_shift_div_l; [exact Hlen|].
    pose proof (Qsum_pos l Hnn Hp). lra.
Qed.

Lemma ranking_term_ok (margin : Q) (pos neg : list Q) :
  zip pos neg <> [] ->
  MarginRankingLoss.term_ok
    (forall p q, (p, q) ∈ zip pos neg -> margin <= p - q)%Q
    (exists p q, (p, q) ∈ zip pos neg /\ p - q < margin)%Q
    (MarginRankingLoss.spec_ranking_term margin pos neg).
Proof.
  intros Hne. unfold MarginRankingLoss.spec_ranking_term.
  set (h := fun pq : Q * Q => Qmax 0 (margin - (fst pq - snd pq))%Q).
  destruct (mean_term_ok (map h (zip pos neg))) as (v & Hv & Hnn & Hz & Hp).
  - destruct (zip pos neg); [congruence|discriminate].
  - apply Forall_forall. intros x Hx.
    apply list_elem_of_In, in_map_iff in Hx as (pq & <- & _).
    apply Q.le_max_l.
  - exists v. split; [exact Hv|]. split; [exact Hnn|]. split.
    + intros Hall. apply Hz. apply Forall_forall. intros x Hx.
      apply list_elem_of_In, in_map_iff in Hx as ([p q] & <- & Hin).
      apply list_elem_of_In in Hin. specialize (Hall p q Hin).
      unfold h. simpl.
      destruct (Q.max_spec 0 (margin - (p - q))) as [[Hlt _]|[_ ->]];
        [lra|reflexivity].
    + intros (p & q & Hin & Hlt). apply Hp. apply Exists_exists.
      exists (h (p, q)). split.
      * apply list_elem_of_In, in_map. apply list_elem_of_In. exact Hin.
      * unfold h. simpl. pose proof (Q.le_max_r 0 (margin - (p - q))). lra.
Qed.

Lemma term_ok_add (Z1 P1 Z2 P2 : Prop) (a b : scalar) :
  MarginRankingLoss.term_ok Z1 P1 a ->
  MarginRankingLoss.term_ok Z2 P2 b ->
  MarginRankingLoss.term_ok (Z1 /\ Z2) (P1 \/ P2) (scalar_add a b).
Proof.
  intros (x & -> & Hx & Hzx & Hpx) (y & -> & Hy & Hzy & Hpy).
  exists (x + y)%Q. split; [reflexivity|]. split; [lra|]. split.
  - intros [H1 H2]. specialize (Hzx H1). specialize (Hzy H2). lra.
  - intros [H|H]; [specialize (Hpx H)|specialize (Hpy H)]; lra.
Qed.

Lemma term_ok_weaken (Z P Z' P' : Prop) (v : scalar) :
  (Z' -> Z) -> (P' -> P) ->
  MarginRankingLoss.term_ok Z P v -> MarginRankingLoss.term_ok Z' P' v.
Proof.
  intros HZ HP (q & -> & Hq & Hz & Hp).
  exists q. repeat split; auto.
Qed.

Lemma term_ok_equiv (Z P : Prop) (v v' : scalar) :
  scalar_equiv v v' ->
  MarginRankingLoss.term_ok Z P v' -> MarginRankingLoss.term_ok Z P v.
Proof.
  intros Heq (q & -> & Hq & Hz & Hp).
  destruct v as [|q']; simpl in Heq; [contradiction|].
  exists q'. split; [reflexivity|]. split; [lra|].
  split; intros H; [specialize (Hz H)|specialize (Hp H)]; lra.
Qed.

Lemma term_ok_sum {A} (Z P : A -> Prop) (t : A -> scalar) (l : list A) :
  (forall i, i ∈ l -> MarginRankingLoss.term_ok (Z i) (P i) (t i)) ->
  MarginRankingLoss.term_ok
    (forall i, i ∈ l -> Z i) (exists i, i ∈ l /\ P i)
    (MarginRankingLoss.scalar_sum (map t l)).
Proof.
  induction l as [|i l IH]; intros Hall; simpl.
  - exists 0%Q. split; [reflexivity|]. split; [lra|]. split.
    + reflexivity.
    + intros (i & Hin & _). inversion Hin.
  - eapply term_ok_weaken;
      [| |apply term_ok_add;
           [apply (Hall i); left
           |apply IH; intros j Hj; apply Hall; right; exact Hj]].
    + intros H. split; [apply H; left|]. intros j Hj. apply H. right. exact Hj.
    + intros (j & Hj & HP). apply elem_of_cons in Hj as [->|Hj].
      * left. exact HP.
      * right. exists j. auto.
Qed.

(** ** Which pairs a term compares *)

Lemma pair_in_row (n i : nat) (r : list Q) (p q : Q) :
  length r = n ->
  (p, q) ∈ zip (take (n - i - 0) (drop 0 r)) (take (n - i) (drop i r)) <->
  exists j, r !! j = Some p /\ r !! (j + i)%nat = Some q.
Proof.
  intros Hlen. rewrite Nat.sub_0_r, drop_0. split.
  - intros Hin. apply elem_of_lookup_zip_with in Hin
      as (j & x & y & [= -> ->] & Hx & Hy).
    apply lookup_take_Some in Hx as (Hx & _).
    apply lookup_take_Some in Hy as (Hy & _).
    rewrite lookup_drop in Hy. exists j. split; [exact Hx|].
    rewrite Nat.add_comm. exact Hy.
  - intros (j & Hp & Hq).
    apply elem_of_lookup_zip_with. exists j, p, q.
    pose proof (lookup_lt_Some _ _ _ Hq) as Hlt.
    split; [reflexivity|]. split.
    + apply lookup_take_Some. split; [exact Hp|lia].
    + apply lookup_take_Some. split; [|lia].
      rewrite lookup_drop, Nat.add_comm. exact Hq.
Qed.

Lemma distance_pairs (i : nat) (score : Tensor2) (p q : Q) :
  wf_tensor score ->
  (p, q) ∈ zip (MarginRankingLoss.spec_columns 0 (size1 score - i) score)
             (MarginRankingLoss.spec_columns i (size1 score) score) <->
  exists r j, r ∈ rows score /\ r !! j = Some p /\ r !! (j + i)%nat = Some q.
Proof.
  unfold wf_tensor, MarginRankingLoss.spec_columns.
  generalize (size1 score). intros n.
  induction 1 as [|r rs Hr _ IH]; simpl.
  - split; [intros Hin; inversion Hin|].
    intros (r & j & Hin & _). inversion Hin.
  - rewrite zip_with_app
      by (rewrite !length_take, !length_drop; lia).
    rewrite elem_of_app, IH, (pair_in_row n i r p q Hr). split.
    + intros [(j & Hp & Hq)|(r' & j & Hin & Hp & Hq)].
      * exists r, j. split; [left|auto].
      * exists r', j. split; [right; exact Hin|auto].
    + intros (r' & j & Hin & Hp & Hq).
      apply elem_of_cons in Hin as [->|Hin].
      * left. exists j. auto.
      * right. exists r', j. auto.
Qed.

Lemma gold_pair_in_row (n : nat) (g : Q) (r : list Q) (g' x : Q) :
  length r = n ->
  (g', x) ∈ zip (replicate n g) r <-> g' = g /\ exists j, r !! j = Some x.
Proof.
  intros Hlen. split.
  - intros Hin. apply elem_of_lookup_zip_with in Hin
      as (j & a & b & [= -> ->] & Ha & Hb).
    apply lookup_replicate in Ha as (-> & _). split; [reflexivity|].
    exists j. exact Hb.
  - intros (-> & j & Hx).
    apply elem_of_lookup_zip_with. exists j, g, x.
    split; [reflexivity|]. split; [|exact Hx].
    apply lookup_replicate_2. apply lookup_lt_Some in Hx. lia.
Qed.

Lemma gold_pairs (n : nat) (ss : list Q) :
  forall (rs : list (list Q)) (g x : Q),
    Forall (fun r => length r = n) rs ->
    length ss = length rs ->
    (g, x) ∈ zip (concat (map (fun g => replicate n g) ss)) (concat rs) <->
    exists k j r,
      rs !! k = Some r /\ ss !! k = Some g /\ r !! j = Some x.
Proof.
  induction ss as [|g0 ss IH]; intros [|r rs] g x Hwf Hlen;
    try discriminate; simpl.
  - split; [intros Hin; inversion Hin|].
    intros (k & j & r & Hk & _). destruct k; discriminate.
  - inversion Hwf as [|? ? Hr Hrs]; subst.
    rewrite zip_with_app by (rewrite length_replicate; reflexivity).
    rewrite elem_of_app, (gold_pair_in_row (length r) g0 r g x eq_refl).
    rewrite (IH rs g x Hrs) by (simpl in Hlen; lia). split.
    + intros [(-> & j & Hx)|(k & j & r' & Hk & Hg & Hx)].
      * exists 0%nat, j, r. auto.
      * exists (S k), j, r'. auto.
    + intros ([|k] & j & r' & Hk & Hg & Hx); simpl in Hk, Hg.
      * injection Hk as <-. injection Hg as <-. left. split; [reflexivity|].
        exists j. exact Hx.
      * right. exists k, j, r'. auto.
Qed.

Lemma seed_pairs (l : list Q) (p q : Q) : (p, q) ∈ zip l l -> p = q.
Proof.
  intros Hin. apply elem_of_lookup_zip_with in Hin
    as (j & a & b & [= -> ->] & Ha & Hb).
  congruence.
Qed.

Lemma nonempty_of_elem {A} (x : A) (l : list A) : x ∈ l -> l <> [].
Proof. intros Hin ->. inversion Hin. Qed.

(** ** Sign of the three parts of the loss *)

Lemma seed_term_ok (score : Tensor2) :
  wf_tensor score -> (1 <= size0 score)%nat -> (1 <= size1 score)%nat ->
  MarginRankingLoss.term_ok True False (MarginRankingLoss.spec_seed_term score).
Proof.
  intros Hwf Hb Hn. unfold MarginRankingLoss.spec_seed_term.
  eapply term_ok_weaken; [| |apply ranking_term_ok].
  - intros _ p q Hin. apply seed_pairs in Hin as ->. lra.
  - contradiction.
  - pose proof (view_length score Hwf) as Hlen.
    destruct (view score) as [|x l]; [simpl in Hlen; nia|discriminate].
Qed.

Lemma distance_term_ok (margin : Q) (score : Tensor2) (i : nat) :
  wf_tensor score -> (1 <= size0 score)%nat -> (i < size1 score)%nat ->
  MarginRankingLoss.term_ok
    (forall r j x y, r ∈ rows score ->
       r !! j = Some x -> r !! (j + i)%nat = Some y ->
       margin * Qnat i <= x - y)%Q
    (exists r j x y, r ∈ rows score /\
       r !! j = Some x /\ r !! (j + i)%nat = Some y /\
       x - y < margin * Qnat i)%Q
    (MarginRankingLoss.spec_distance_term margin score i).
Proof.
  intros Hwf Hb Hi. unfold MarginRankingLoss.spec_distance_term.
  eapply term_ok_weaken; [| |apply ranking_term_ok].
  - intros Hall p q Hin.
    apply (distance_pairs i score p q Hwf) in Hin as (r & j & Hr & Hp & Hq).
    eapply Hall; eassumption.
  - intros (r & j & x & y & Hr & Hx & Hy & Hlt). exists x, y.
    split; [|exact Hlt].
    apply (distance_pairs i score x y Hwf). exists r, j. auto.
  - unfold size0 in Hb. destruct (rows score) as [|r rs] eqn:Hrows;
      [simpl in Hb; lia|].
    assert (Hlen : length r = size1 score).
    { unfold wf_tensor in Hwf. rewrite Hrows in Hwf.
      inversion Hwf; assumption. }
    destruct (lookup_lt_is_Some_2 r 0) as (x & Hx); [lia|].
    destruct (lookup_lt_is_Some_2 r (0 + i)) as (y & Hy); [lia|].
    apply (nonempty_of_elem (x, y)).
    apply (distance_pairs i score x y Hwf). exists r, 0%nat.
    rewrite Hrows. split; [left|auto].
Qed.

Lemma gold_term_ok (score : Tensor2) (summary_score : list Q) :
  wf_tensor score -> (1 <= size0 score)%nat -> (1 <= size1 score)%nat ->
  length summary_score = size0 score ->
  MarginRankingLoss.term_ok
    (MarginRankingLoss.gold_ok score summary_score)
    (MarginRankingLoss.gold_violated score summary_score)
    (MarginRankingLoss.spec_gold_term score summary_score).
Proof.
  intros Hwf Hb Hn Hlen. unfold MarginRankingLoss.spec_gold_term, view.
  eapply term_ok_weaken; [| |apply ranking_term_ok].
  - intros Hok g x Hin.
    apply (gold_pairs (size1 score) summary_score (rows score) g x Hwf Hlen)
      in Hin as (k & j & r & Hk & Hg & Hx).
    specialize (Hok k j r g x Hk Hg Hx). lra.
  - intros (k & j & r & g & x & Hk & Hg & Hx & Hlt). exists g, x.
    split; [|lra].
    apply (gold_pairs (size1 score) summary_score (rows score) g x Hwf Hlen).
    exists k, j, r. auto.
  - unfold size0 in Hb, Hlen.
    destruct (lookup_lt_is_Some_2 (rows score) 0) as (r & Hr); [lia|].
    destruct (lookup_lt_is_Some_2 summary_score 0) as (g & Hg); [lia|].
    assert (Hrl : length r = size1 score).
    { unfold wf_tensor in Hwf. rewrite Forall_lookup in Hwf.
      apply (Hwf 0%nat r Hr). }
    destruct (lookup_lt_is_Some_2 r 0) as (x & Hx); [lia|].
    apply (nonempty_of_elem (g, x)).
    apply (gold_pairs (size1 score) summary_score (rows score) g x Hwf Hlen).
    exists 0%nat, 0%nat, r. auto.
Qed.

Lemma spec_loss_ok (margin : Q) (score : Tensor2) (summary_score : list Q) :
  wf_tensor score -> (1 <= size0 score)%nat -> (1 <= size1 score)%nat ->
  length summary_score = size0 score ->
  MarginRankingLoss.term_ok
    (MarginRankingLoss.distance_ok margin score /\
     MarginRankingLoss.gold_ok score summary_score)
    (MarginRankingLoss.distance_violated margin score \/
     MarginRankingLoss.gold_violated score summary_score)
    (MarginRankingLoss.spec_loss margin score summary_score).
Proof.
  intros Hwf Hb Hn Hlen. unfold MarginRankingLoss.spec_loss.
  pose proof (seed_term_ok score Hwf Hb Hn) as Hseed.
  assert (Hsum :
    MarginRankingLoss.term_ok
      (forall i, i ∈ seq 1 (size1 score - 1) ->
         forall r j x y, r ∈ rows score ->
           r !! j = Some x -> r !! (j + i)%nat = Some y ->
           (margin * Qnat i <= x - y)%Q)
      (exists i, i ∈ seq 1 (size1 score - 1) /\
         exists r j x y, r ∈ rows score /\
           r !! j = Some x /\ r !! (j + i)%nat = Some y /\
           (x - y < margin * Qnat i)%Q)
      (MarginRankingLoss.scalar_sum
         (map (MarginRankingLoss.spec_distance_term margin score)
            (seq 1 (size1 score - 1))))).
  { apply (term_ok_sum
             (fun i => forall r j x y, r ∈ rows score ->
                r !! j = Some x -> r !! (j + i)%nat = Some y ->
                (margin * Qnat i <= x - y)%Q)
             (fun i => exists r j x y, r ∈ rows score /\
                r !! j = Some x /\ r !! (j + i)%nat = Some y /\
                (x - y < margin * Qnat i)%Q)).
    intros i Hi. apply elem_of_seq in Hi.
    apply (distance_term_ok margin score i Hwf Hb). lia. }
  pose proof (gold_term_ok score summary_score Hwf Hb Hn Hlen) as Hgold.
  pose proof (term_ok_add _ _ _ _ _ _
                (term_ok_add _ _ _ _ _ _ Hseed Hsum) Hgold) as Htotal.
  eapply term_ok_weaken; [| |exact Htotal].
  - intros [Hd Hg]. split; [split; [exact I|]|exact Hg].
    intros i Hi r j x y Hr Hx Hy. apply elem_of_seq in Hi.
    apply (Hd r i j x y Hr); [lia|exact Hx|exact Hy].
  - intros [(r & i & j & x & y & Hr & Hi & Hx & Hy & Hlt)|Hg];
      [left; right|right; exact Hg].
    exists i. split.
    + apply elem_of_seq. apply lookup_lt_Some in Hy.
      unfold wf_tensor in Hwf. rewrite Forall_forall in Hwf.
      specialize (Hwf r Hr). lia.
    + exists r, j, x, y. auto.
Qed.





Lemma swapped_scores_wf : wf_tensor Samples.swapped_scores.
Proof. repeat constructor. Qed.








Lemma close_scores_gold_ok :
  MarginRankingLoss.gold_ok (exact_scores Float32.close_scores)
    [Float32.exact Float32.one].
Proof.
  intros k j r g x Hk Hg Hx.
  destruct k as [|k]; [|discriminate Hk].
  simpl in Hk, Hg. injection Hk as <-. injection Hg as <-.
  destruct j as [|[|j]]; try discriminate Hx.
  all: simpl in Hx; injection Hx as <-; vm_compute; discriminate.
Qed.




(** The loss of the two sample matrices, evaluated. *)
Example ordered_scores_loss :
  exists q,
    MarginRankingLoss.get_loss 1 (cuda 0) Samples.ordered_scores (cuda 0)
      Samples.gold_scores = Ok (fin q) /\ Qred q = 0%Q.
Proof. eexists. split; [reflexivity|]. vm_compute. reflexivity. Qed.

Example swapped_scores_loss :
  exists q,
    MarginRankingLoss.get_loss 1 (cuda 0) Samples.swapped_scores (cuda 0)
      Samples.gold_scores = Ok (fin q) /\ Qred q = 1%Q.
Proof. eexists. split; [reflexivity|]. vm_compute. reflexivity. Qed.

(** In exact arithmetic the close scores give a positive loss (the mean of
    the hinge [2^-60] of the one pair at distance 1); in float32 they give
    zero. *)
Example close_scores_exact_loss :
  exists q,
    MarginRankingLoss.get_loss 1 (cuda 0) (exact_scores Float32.close_scores)
      (cuda 0) [Float32.exact Float32.one] = Ok (fin q) /\
    Qred q = (1 # 1152921504606846976)%Q.
Proof. eexists. split; [reflexivity|]. vm_compute. reflexivity. Qed.

(** With no rows every term is the mean of an empty tensor. *)
Example empty_batch_loss_is_nan :
  MarginRankingLoss.get_loss 1 (cuda 0) Samples.empty_batch (cuda 0) []
  = Ok nan.
Proof. reflexivity. Qed.

(** The devices of the score matrix and of the gold scores must agree. *)
Example gold_scores_on_another_device :
  MarginRankingLoss.get_loss 1 (cuda 0) Samples.ordered_scores (cuda 1)
    Samples.gold_scores = Raise RuntimeError.
Proof. reflexivity. Qed.

(** ** The model on small inputs *)

Example join_plain : join "dec" "0.dec" = "dec/0.dec".
Proof. reflexivity. Qed.

Example join_trailing_sep : join "dec/" "0.dec" = "dec/0.dec".
Proof. reflexivity. Qed.

Example join_empty_dir : join "" "0.dec" = "0.dec".
Proof. reflexivity. Qed.

Example getitem_negative : getitem ["a"; "b"; "c"] (-1) = Ok "c".
Proof. reflexivity. Qed.

Example getitem_out_of_range : getitem ["a"; "b"; "c"] 3 = Raise IndexError.
Proof. reflexivity. Qed.

Example argmax_first_of_ties : argmax [1; 3; 3; 2]%Q = Ok 1%nat.
Proof. reflexivity. Qed.

(** One scored row: the three counters, the cursor and the ROUGE
    accumulator each grow, and no error is counted. *)
Example evaluate_scored_row :
  let s := snd (ValidMetric.evaluate Samples.perfect_scores Samples.first_best
                  (ValidMetric.init "out" [Samples.two_candidates] ∅)) in
  ValidMetric.top1_correct s = 1 /\ ValidMetric.top6_correct s = 1 /\
  ValidMetric.top10_correct s = 1 /\ ValidMetric.cur_idx s = 1 /\
  ValidMetric.Error s = 0 /\ Qred (ValidMetric.ROUGE s) = 1%Q.
Proof. vm_compute. repeat split. Qed.

(** One padding row: only the top-10 counter, the error count and the
    cursor grow. *)
Example evaluate_padding_row :
  let s := snd (ValidMetric.evaluate Samples.perfect_scores Samples.third_best
                  (ValidMetric.init "out" [Samples.two_candidates] ∅)) in
  ValidMetric.top1_correct s = 0 /\ ValidMetric.top6_correct s = 1 /\
  ValidMetric.top10_correct s = 1 /\ ValidMetric.cur_idx s = 1 /\
  ValidMetric.Error s = 1 /\ ValidMetric.ROUGE s = 0%Q.
Proof. vm_compute. repeat split. Qed.

(** A cursor past the last example raises [IndexError]; the top-k counters
    were already updated. *)
Example evaluate_past_the_data :
  ValidMetric.evaluate Samples.perfect_scores Samples.first_best
    (ValidMetric.init "out" [] ∅)
  = (Raise IndexError,
     ValidMetric.mkState "out" [] 1 1 1 0%Q 0 0 ∅).
Proof. vm_compute. reflexivity. Qed.

(** The log line of a report. *)
Example get_metric_log_line :
  ValidMetric.fs
    (snd (ValidMetric.get_metric Samples.show_float false
            Samples.after_two_rows)) !! "out/train_info.txt"
  = Some ("top1_accuracy = 1/2, top6_accuracy = 2/2, top10_accuracy = 2/2, "
          +:+ "Error = 1, ROUGE = 1/4" +:+ nl).
Proof. vm_compute. reflexivity. Qed.

(** * Further properties *)

(** ** The loss is a number, and not negative *)

(** X1: on a score matrix with at least one row and one column on a CUDA
    device, with a gold score per row on the same device, [get_loss]
    returns a number (never [nan]) that is not negative. *)
Theorem X1_get_loss_is_nonnegative (margin : Q) (k : nat) (score : Tensor2)
    (summary_score : list Q) :
  wf_tensor score ->
  (1 <= size0 score)%nat -> (1 <= size1 score)%nat ->
  length summary_score = size0 score ->
  exists q : Q,
    MarginRankingLoss.get_loss margin (cuda k) score (cuda k) summary_score
      = Ok (fin q) /\
    (0 <= q)%Q.
Proof.
  intros Hwf Hb Hn Hlen.
  destruct (get_loss_refines margin k score summary_score Hwf Hlen)
    as (v & Hrun & Hv).
  pose proof (spec_loss_ok margin score summary_score Hwf Hb Hn Hlen) as Hok.
  apply (term_ok_equiv _ _ v _ Hv) in Hok as (q & -> & Hq & _).
  exists q. split; [exact Hrun|exact Hq].
Qed.

Lemma X1_get_loss_is_nonnegative_witness :
  exists q : Q,
    MarginRankingLoss.get_loss (-3) (cuda 0) Samples.swapped_scores (cuda 0)
      Samples.gold_scores = Ok (fin q) /\ (0 <= q)%Q.
Proof.
  apply (X1_get_loss_is_nonnegative (-3) 0 Samples.swapped_scores
           Samples.gold_scores swapped_scores_wf).
  - unfold size0. simpl. lia.
  - simpl. lia.
  - reflexivity.
Defined.

Lemma fold_left_nan {A} (f : A -> scalar) (l : list A) :
  fold_left (fun T i => scalar_add T (f i)) l nan = nan.
Proof. induction l as [|i l IH]; simpl; [reflexivity|exact IH]. Qed.

(** X2: on a batch with no rows (and no gold scores) on a CUDA device
    [get_loss] returns [nan], whatever the margin and the number of
    columns. *)
Theorem X2_get_loss_of_empty_batch_is_nan (margin : Q) (k : nat)
    (score : Tensor2) :
  rows score = [] ->
  MarginRankingLoss.get_loss margin (cuda k) score (cuda k) [] = Ok nan.
Proof.
  intros Hrows. destruct score as [n rs]. simpl in Hrows. subst rs.
  rewrite get_loss_on_cuda. simpl.
  unfold torch_MarginRankingLoss at 2. simpl.
  rewrite fold_left_nan. reflexivity.
Qed.

Lemma X2_get_loss_of_empty_batch_is_nan_witness :
  MarginRankingLoss.get_loss (1 # 100) (cuda 0)
    {| size1 := 20; rows := [] |} (cuda 0) []
  = Ok nan.
Proof.
  apply (X2_get_loss_of_empty_batch_is_nan (1 # 100) 0
           {| size1 := 20; rows := [] |}).
  reflexivity.
Defined.

(** ** The loss grows with the margin *)

Lemma scalar_le_equiv (a a' b b' : scalar) :
  scalar_equiv a a' -> scalar_equiv b b' ->
  scalar_le a' b' -> scalar_le a b.
Proof.
  destruct a, a', b, b'; simpl; auto; try contradiction.
  intros H1 H2 H3. rewrite H1, H2. exact H3.
Qed.

Lemma scalar_add_le (a a' b b' : scalar) :
  scalar_le a a' -> scalar_le b b' ->
  scalar_le (scalar_add a b) (scalar_add a' b').
Proof.
  destruct a, a', b, b'; simpl; auto; try contradiction.
  intros H1 H2. lra.
Qed.

Lemma scalar_sum_le {A} (f g : A -> scalar) (l : list A) :
  (forall i, i ∈ l -> scalar_le (f i) (g i)) ->
  scalar_le (MarginRankingLoss.scalar_sum (map f l))
    (MarginRankingLoss.scalar_sum (map g l)).
Proof.
  induction l as [|i l IH]; intros Hfg; simpl.
  - apply Qle_refl.
  - apply scalar_add_le; [apply Hfg; left|].
    apply IH. intros j Hj. apply Hfg. right. exact Hj.
Qed.

Lemma Qsum_le (l l' : list Q) :
  Forall2 Qle l l' -> (Qsum l <= Qsum l')%Q.
Proof.
  induction 1 as [|x y l l' Hxy _ IH]; simpl; [apply Qle_refl|lra].
Qed.

Lemma mean_le (l l' : list Q) :
  Forall2 Qle l l' -> scalar_le (mean l) (mean l').
Proof.
  intros H. pose proof (Forall2_length _ _ _ H) as Hlen.
  pose proof (Qsum_le _ _ H) as Hsum.
  destruct H as [|x y l l' Hxy Hrest]; simpl; [exact I|].
  simpl in Hlen, Hsum. injection Hlen as ->.
  unfold Qdiv. apply Qmult_le_compat_r; [exact Hsum|].
  apply Qinv_le_0_compat. unfold Qnat, Qle. simpl. lia.
Qed.

Lemma ranking_term_le (m m' : Q) (pos neg : list Q) :
  (m <= m')%Q ->
  scalar_le (MarginRankingLoss.spec_ranking_term m pos neg)
    (MarginRankingLoss.spec_ranking_term m' pos neg).
Proof.
  intros Hm. unfold MarginRankingLoss.spec_ranking_term. apply mean_le.
  induction (zip pos neg) as [|pq l IH]; simpl; constructor; [|exact IH].
  apply Q.max_le_compat_l. lra.
Qed.

Lemma spec_loss_le (m m' : Q) (score : Tensor2) (ss : list Q) :
  (m <= m')%Q ->
  scalar_le (MarginRankingLoss.spec_loss m score ss)
    (MarginRankingLoss.spec_loss m' score ss).
Proof.
  intros Hm. unfold MarginRankingLoss.spec_loss.
  apply scalar_add_le; [apply scalar_add_le|].
  - apply ranking_term_le. apply Qle_refl.
  - apply scalar_sum_le. intros i _.
    unfold MarginRankingLoss.spec_distance_term. apply ranking_term_le.
    apply Qmult_le_compat_r; [exact Hm|]. unfold Qnat, Qle. simpl. lia.
  - apply ranking_term_le. apply Qle_refl.
Qed.

(** X4: on the same scores on a CUDA device, a larger base margin never
    gives a smaller loss. *)
Theorem X4_get_loss_is_monotone_in_the_margin (m m' : Q) (k : nat)
    (score : Tensor2) (summary_score : list Q) :
  wf_tensor score ->
  length summary_score = size0 score ->
  (m <= m')%Q ->
  exists v v',
    MarginRankingLoss.get_loss m (cuda k) score (cuda k) summary_score
      = Ok v /\
    MarginRankingLoss.get_loss m' (cuda k) score (cuda k) summary_score
      = Ok v' /\
    scalar_le v v'.
Proof.
  intros Hwf Hlen Hm.
  destruct (get_loss_refines m k score summary_score Hwf Hlen)
    as (v & Hrun & Hv).
  destruct (get_loss_refines m' k score summary_score Hwf Hlen)
    as (v' & Hrun' & Hv').
  exists v, v'. split; [exact Hrun|]. split; [exact Hrun'|].
  eapply scalar_le_equiv; [exact Hv|exact Hv'|].
  apply spec_loss_le. exact Hm.
Qed.

Lemma X4_get_loss_is_monotone_in_the_margin_witness :
  exists v v',
    MarginRankingLoss.get_loss (1 # 2) (cuda 0) Samples.swapped_scores
      (cuda 0) Samples.gold_scores = Ok v /\
    MarginRankingLoss.get_loss 2 (cuda 0) Samples.swapped_scores
      (cuda 0) Samples.gold_scores = Ok v' /\
    scalar_le v v'.
Proof.
  apply (X4_get_loss_is_monotone_in_the_margin (1 # 2) 2 0
           Samples.swapped_scores Samples.gold_scores
           swapped_scores_wf eq_refl).
  unfold Qle. simpl. lia.
Defined.

(** ** Loops: invariants and related runs *)

Lemma for_each_invariant {S A} (I : S -> Prop) (body : A -> M S unit)
    (xs : list A) :
  (forall x s s', x ∈ xs -> body x s = (Ok tt, s') -> I s -> I s') ->
  forall s s', for_each xs body s = (Ok tt, s') -> I s -> I s'.
Proof.
  induction xs as [|x xs IH]; intros Hbody s s' Hrun HI; simpl in Hrun.
  - injection Hrun as <-. exact HI.
  - unfold bind in Hrun.
    destruct (body x s) as [[[]|e] s1] eqn:Hx; [|discriminate].
    apply (IH (fun y a b Hy => Hbody y a b (list_elem_of_further _ _ _ Hy))
             s1 s' Hrun).
    apply (Hbody x s s1); [left|exact Hx|exact HI].
Qed.

Lemma for_each_related {S A} (R : S -> S -> Prop) (body : A -> M S unit)
    (xs : list A) :
  (forall x s t, R s t ->
     exists r s1 t1, body x s = (r, s1) /\ body x t = (r, t1) /\ R s1 t1) ->
  forall s t, R s t ->
    exists r s1 t1,
      for_each xs body s = (r, s1) /\ for_each xs body t = (r, t1) /\ R s1 t1.
Proof.
  intros Hbody. induction xs as [|x xs IH]; intros s t HR; simpl.
  - exists (Ok tt), s, t. auto.
  - destruct (Hbody x s t HR) as (r & s1 & t1 & Hs & Ht & HR1).
    unfold bind. rewrite Hs, Ht. destruct r as [[]|e].
    + apply IH. exact HR1.
    + exists (Raise e), s1, t1. auto.
Qed.

(** ** [ValidMetric]: what a completed row adds *)

Lemma row_body_outcome (get_scores : string -> string -> Res (Q * Q * Q))
    (score : Tensor2) (i : nat) (s s' : ValidMetric.state) :
  ValidMetric.row_body get_scores score i s = (Ok tt, s') ->
  ValidMetric.cur_idx s' = ValidMetric.cur_idx s + 1 /\
  ((ValidMetric.Error s' = ValidMetric.Error s + 1 /\
    ValidMetric.ROUGE s' = ValidMetric.ROUGE s) \/
   (ValidMetric.Error s' = ValidMetric.Error s /\
    exists dec ref r,
      ValidMetric.fast_rouge get_scores dec ref = Ok r /\
      ValidMetric.ROUGE s' = (ValidMetric.ROUGE s + r)%Q)).
Proof.
  unfold ValidMetric.row_body. run_step. rewrite getitem_nat.
  destruct (rows score !! i) as [row|]; [|discriminate].
  destruct (argmax row) as [k|e]; [|discriminate].
  destruct (getitem (ValidMetric.data s) (ValidMetric.cur_idx s)) as [ex|e];
    [|discriminate].
  destruct (Z.of_nat (length (indices ex)) <=? Z.of_nat k).
  - intros [= <-]. simpl. split; [reflexivity|]. left. auto.
  - destruct (getitem (indices ex) (Z.of_nat k)) as [ids|e]; [|discriminate].
    destruct (map_res (getitem (text ex)) (merge_sort Z.le ids)) as [dec|e];
      [|discriminate].
    destruct (ValidMetric.fast_rouge get_scores _ _) as [r|e] eqn:Hr;
      [|discriminate].
    intros [= <-]. simpl. split; [reflexivity|]. right.
    split; [reflexivity|]. eexists _, _, r. split; [exact Hr|reflexivity].
Qed.

Lemma fast_rouge_in_unit (get_scores : string -> string -> Res (Q * Q * Q))
    (dec ref : string) (r : Q) :
  scores_in_unit get_scores ->
  ValidMetric.fast_rouge get_scores dec ref = Ok r ->
  (0 <= r <= 1)%Q.
Proof.
  intros Hunit. unfold ValidMetric.fast_rouge.
  destruct (bool_decide (dec = "") || bool_decide (ref = "")).
  - intros [= <-]. split; [apply Qle_refl|unfold Qle; simpl; lia].
  - destruct (get_scores dec ref) as [[[f1 f2] fl]|e] eqn:Hs; [|discriminate].
    simpl. intros [= <-].
    destruct (Hunit dec ref f1 f2 fl Hs) as ((?&?) & (?&?) & (?&?)).
    split.
    + apply Qle_shift_div_l; [reflexivity|]. lra.
    + apply Qle_shift_div_r; [reflexivity|]. lra.
Qed.

Lemma count_if_bounds (p : nat -> bool) (idx : list nat) :
  0 <= count_if p idx <= Z.of_nat (length idx).
Proof.
  unfold count_if. induction idx as [|k idx IH]; simpl; [lia|].
  destruct (p k); simpl; lia.
Qed.

Lemma count_if_mono (p q : nat -> bool) (idx : list nat) :
  (forall k, p k = true -> q k = true) ->
  count_if p idx <= count_if q idx.
Proof.
  intros Hpq. unfold count_if. induction idx as [|k idx IH]; simpl; [lia|].
  destruct (p k) eqn:Hp.
  - rewrite (Hpq k Hp). simpl. lia.
  - destruct (q k); simpl; lia.
Qed.

Lemma count_padding_bounds (d : list Example) (rs : list (list Q)) :
  forall c : Z,
    0 <= ValidMetric.count_padding d c rs <= Z.of_nat (length rs).
Proof.
  induction rs as [|r rs IH]; intros c; simpl; [lia|].
  specialize (IH (c + 1)).
  destruct (ValidMetric.selects_padding d c r); lia.
Qed.

Lemma evaluate_keeps_order (get_scores : string -> string -> Res (Q * Q * Q))
    (score : Tensor2) (s s' : ValidMetric.state) :
  ValidMetric.evaluate get_scores score s = (Ok tt, s') ->
  counters_ordered s -> counters_ordered s'.
Proof.
  intros Hrun (H0 & H16 & H610 & H10c & He0 & Hec).
  destruct (max_indices score) as [idx|e] eqn:Hidx.
  - destruct (evaluate_spec get_scores score s idx Hidx)
      as (r & s1 & Hrun1 & _ & _ & _ & H1 & H6 & H10 & Hok).
    rewrite Hrun in Hrun1. injection Hrun1 as <- <-.
    destruct (Hok eq_refl) as (Hcur & Herr).
    pose proof (max_indices_length score idx Hidx) as Hlen.
    pose proof (count_if_bounds (fun k => k =? 0)%nat idx).
    pose proof (count_if_bounds (fun k => k <=? 9)%nat idx).
    pose proof (count_if_mono (fun k => k =? 0)%nat (fun k => k <=? 5)%nat idx)
      as Hm1.
    pose proof (count_if_mono (fun k => k <=? 5)%nat (fun k => k <=? 9)%nat idx)
      as Hm2.
    pose proof (count_padding_bounds (ValidMetric.data s) (rows score)
                  (ValidMetric.cur_idx s)) as Hpad.
    unfold size0 in *.
    assert (count_if (fun k => k =? 0)%nat idx
            <= count_if (fun k => k <=? 5)%nat idx).
    { apply Hm1. intros k Hk. apply Nat.eqb_eq in Hk. subst k. reflexivity. }
    assert (count_if (fun k => k <=? 5)%nat idx
            <= count_if (fun k => k <=? 9)%nat idx).
    { apply Hm2. intros k Hk. apply Nat.leb_le in Hk. apply Nat.leb_le. lia. }
    unfold counters_ordered. rewrite H1, H6, H10, Hcur, Herr. lia.
  - rewrite (evaluate_raises get_scores score s e Hidx) in Hrun. discriminate.
Qed.

(** X5: over any run of completed [evaluate] calls the counters stay
    ordered: 0 <= top1 <= top6 <= top10 <= cursor and 0 <= Error <= cursor
    (they are so on a fresh object); the reported accuracies therefore
    satisfy top1 <= top6 <= top10 <= 1. *)
Theorem X5_counters_stay_ordered
    (get_scores : string -> string -> Res (Q * Q * Q))
    (batches : list Tensor2) (s s' : ValidMetric.state) :
  counters_ordered s ->
  ValidMetric.evaluate_all get_scores batches s = (Ok tt, s') ->
  counters_ordered s'.
Proof.
  intros Hord Hrun. unfold ValidMetric.evaluate_all in Hrun.
  apply (for_each_invariant counters_ordered
           (ValidMetric.evaluate get_scores) batches
           (fun score a b _ Hab => evaluate_keeps_order get_scores score a b Hab)
           s s' Hrun Hord).
Qed.

Lemma X5_counters_stay_ordered_witness :
  counters_ordered
    (snd (ValidMetric.evaluate_all Samples.perfect_scores
            [Samples.third_best; Samples.first_best]
            (ValidMetric.init "out"
               [Samples.two_candidates; Samples.unsorted_example] ∅))).
Proof.
  apply (X5_counters_stay_ordered Samples.perfect_scores
           [Samples.third_best; Samples.first_best]
           (ValidMetric.init "out"
              [Samples.two_candidates; Samples.unsorted_example] ∅)).
  - unfold counters_ordered. simpl. lia.
  - vm_compute. reflexivity.
Defined.

(** ** The approximate ROUGE stays an average of numbers in [0, 1] *)

Lemma evaluate_unfold (get_scores : string -> string -> Res (Q * Q * Q))
    (score : Tensor2) (s : ValidMetric.state) (idx : list nat) :
  max_indices score = Ok idx ->
  ValidMetric.evaluate get_scores score s =
  for_each (seq 0 (size0 score)) (ValidMetric.row_body get_scores score)
    (ValidMetric.add_top10 (count_if (fun k => k <=? 9)%nat idx)
       (ValidMetric.add_top6 (count_if (fun k => k <=? 5)%nat idx)
          (ValidMetric.add_top1 (count_if (fun k => k =? 0)%nat idx) s))).
Proof.
  intros Hidx. unfold ValidMetric.evaluate. run_step. rewrite Hidx.
  reflexivity.
Qed.

Lemma row_body_keeps_rouge_bounded
    (get_scores : string -> string -> Res (Q * Q * Q))
    (score : Tensor2) (i : nat) (s s' : ValidMetric.state) :
  scores_in_unit get_scores ->
  ValidMetric.row_body get_scores score i s = (Ok tt, s') ->
  rouge_bounded s -> rouge_bounded s'.
Proof.
  intros Hunit Hrun (H0 & Hle & He).
  destruct (row_body_outcome get_scores score i s s' Hrun)
    as (Hcur & [(Herr & Hr)|(Herr & dec & ref & r & Hfr & Hr)]).
  - unfold rouge_bounded. rewrite Hcur, Herr, Hr.
    replace (ValidMetric.cur_idx s + 1 - (ValidMetric.Error s + 1))
      with (ValidMetric.cur_idx s - ValidMetric.Error s) by lia.
    split; [exact H0|]. split; [exact Hle|lia].
  - pose proof (fast_rouge_in_unit get_scores dec ref r Hunit Hfr) as (Hr0 & Hr1).
    unfold rouge_bounded. rewrite Hcur, Herr, Hr.
    replace (ValidMetric.cur_idx s + 1 - ValidMetric.Error s)
      with ((ValidMetric.cur_idx s - ValidMetric.Error s) + 1) by lia.
    rewrite inject_Z_plus.
    split; [lra|]. split; [|exact He].
    change (inject_Z 1) with 1%Q. lra.
Qed.

Lemma evaluate_keeps_rouge_bounded
    (get_scores : string -> string -> Res (Q * Q * Q))
    (score : Tensor2) (s s' : ValidMetric.state) :
  scores_in_unit get_scores ->
  ValidMetric.evaluate get_scores score s = (Ok tt, s') ->
  rouge_bounded s -> rouge_bounded s'.
Proof.
  intros Hunit Hrun Hb.
  destruct (max_indices score) as [idx|e] eqn:Hidx.
  - rewrite (evaluate_unfold get_scores score s idx Hidx) in Hrun.
    apply (for_each_invariant rouge_bounded _ _
             (fun i a b _ Hab =>
                row_body_keeps_rouge_bounded get_scores score i a b Hunit Hab)
             _ _ Hrun).
    exact Hb.
  - rewrite (evaluate_raises get_scores score s e Hidx) in Hrun. discriminate.
Qed.

(** X6: if the scorer's three F-measures lie between 0 and 1, then over any
    run of completed [evaluate] calls the ROUGE accumulator stays between 0
    and the number of rows that were scored (cursor minus errors), as it is
    on a fresh object; the ROUGE value [get_metric] then reports lies
    between 0 and 1. *)
Theorem X6_reported_rouge_is_in_unit_interval
    (get_scores : string -> string -> Res (Q * Q * Q))
    (format_float : Q -> string)
    (batches : list Tensor2) (s s' : ValidMetric.state) :
  scores_in_unit get_scores ->
  rouge_bounded s ->
  ValidMetric.evaluate_all get_scores batches s = (Ok tt, s') ->
  rouge_bounded s' /\
  (ValidMetric.cur_idx s' <> 0 ->
   forall reset, exists rep s'' q,
     ValidMetric.get_metric format_float reset s' = (Ok rep, s'') /\
     rep !! "ROUGE" = Some (PyFloat q) /\ (0 <= q <= 1)%Q).
Proof.
  intros Hunit Hb Hrun. unfold ValidMetric.evaluate_all in Hrun.
  assert (Hb' : rouge_bounded s').
  { apply (for_each_invariant rouge_bounded
             (ValidMetric.evaluate get_scores) batches
             (fun score a b _ Hab =>
                evaluate_keeps_rouge_bounded get_scores score a b Hunit Hab)
             s s' Hrun Hb). }
  split; [exact Hb'|].
  intros Hnz reset. destruct Hb' as (H0 & Hle & He).
  destruct (get_metric_returns format_float reset s' Hnz)
    as (rep & s'' & Hget & _ & _ & _ & _ & HR & _).
  exists rep, s''. eexists. split; [exact Hget|]. split; [exact HR|].
  assert (Hdiff : (0 <= inject_Z (ValidMetric.cur_idx s' - ValidMetric.Error s'))%Q)
    by lra.
  assert (Hpos : 0 < ValidMetric.cur_idx s').
  { unfold Qle in Hdiff. simpl in Hdiff. lia. }
  assert (HposQ : (0 < inject_Z (ValidMetric.cur_idx s'))%Q).
  { unfold Qlt. simpl. lia. }
  assert (Hcur : (inject_Z (ValidMetric.cur_idx s' - ValidMetric.Error s')
                  <= inject_Z (ValidMetric.cur_idx s'))%Q).
  { unfold Qle. simpl. lia. }
  split.
  - apply Qle_shift_div_l; [exact HposQ|]. lra.
  - apply Qle_shift_div_r; [exact HposQ|]. lra.
Qed.

Lemma unit_scores_in_unit : scores_in_unit MoreSamples.unit_scores.
Proof.
  intros dec ref f1 f2 fl [= <- <- <-]. unfold Qle. simpl. lia.
Qed.

Lemma X6_reported_rouge_is_in_unit_interval_witness :
  let s' := snd (ValidMetric.evaluate_all MoreSamples.unit_scores
                   [Samples.first_best; Samples.third_best]
                   (ValidMetric.init "out"
                      [Samples.two_candidates; Samples.two_candidates] ∅)) in
  rouge_bounded s' /\
  (ValidMetric.cur_idx s' <> 0 ->
   forall reset, exists rep s'' q,
     ValidMetric.get_metric Samples.show_float reset s' = (Ok rep, s'') /\
     rep !! "ROUGE" = Some (PyFloat q) /\ (0 <= q <= 1)%Q).
Proof.
  intros s'.
  apply (X6_reported_rouge_is_in_unit_interval MoreSamples.unit_scores
           Samples.show_float [Samples.first_best; Samples.third_best]
           (ValidMetric.init "out"
              [Samples.two_candidates; Samples.two_candidates] ∅) s').
  - exact unit_scores_in_unit.
  - unfold rouge_bounded. simpl. split; [apply Qle_refl|].
    split; [apply Qle_refl|lia].
  - vm_compute. reflexivity.
Defined.

(** ** [ValidMetric.get_metric] without reset *)

Lemma get_metric_no_reset_run (format_float : Q -> string)
    (s : ValidMetric.state) :
  ValidMetric.cur_idx s <> 0 ->
  exists rep,
    ValidMetric.get_metric format_float false s =
    (Ok rep,
     ValidMetric.append_line
       (join (ValidMetric.save_path s) "train_info.txt")
       (ValidMetric.report_line format_float
          (inject_Z (ValidMetric.top1_correct s) / inject_Z (ValidMetric.cur_idx s))
          (inject_Z (ValidMetric.top6_correct s) / inject_Z (ValidMetric.cur_idx s))
          (inject_Z (ValidMetric.top10_correct s) / inject_Z (ValidMetric.cur_idx s))
          (ValidMetric.Error s)
          (ValidMetric.ROUGE s / inject_Z (ValidMetric.cur_idx s)))
       s).
Proof.
  intros Hc. unfold ValidMetric.get_metric. run_step.
  rewrite !truediv_nonzero by exact Hc. simpl.
  eexists. reflexivity.
Qed.

(** X7: [get_metric(reset=False)] on an object with observed rows changes
    nothing but the log file: it appends one line to
    [save_path/train_info.txt], keeping what the file held and every other
    file; a second call returns the same report and appends the same line
    again. *)
Theorem X7_get_metric_without_reset_only_appends_to_the_log
    (format_float : Q -> string) (s : ValidMetric.state) :
  ValidMetric.cur_idx s <> 0 ->
  let path := join (ValidMetric.save_path s) "train_info.txt" in
  let old := default "" (ValidMetric.fs s !! path) in
  exists rep line s1 s2,
    ValidMetric.get_metric format_float false s = (Ok rep, s1) /\
    ValidMetric.get_metric format_float false s1 = (Ok rep, s2) /\
    s1 = ValidMetric.set_fs (ValidMetric.fs s1) s /\
    s2 = ValidMetric.set_fs (ValidMetric.fs s2) s /\
    ValidMetric.fs s1 !! path = Some (old +:+ line +:+ nl) /\
    ValidMetric.fs s2 !! path = Some ((old +:+ line +:+ nl) +:+ line +:+ nl) /\
    (forall p, p <> path ->
       ValidMetric.fs s1 !! p = ValidMetric.fs s !! p /\
       ValidMetric.fs s2 !! p = ValidMetric.fs s !! p).
Proof.
  intros Hc path old.
  destruct (get_metric_no_reset_run format_float s Hc) as (rep & Hrun).
  set (line := ValidMetric.report_line format_float _ _ _ _ _) in Hrun.
  set (s1 := ValidMetric.append_line _ line s) in Hrun.
  destruct (get_metric_no_reset_run format_float s1 Hc) as (rep' & Hrun').
  assert (Hrep : rep' = rep).
  { unfold ValidMetric.get_metric in Hrun, Hrun'. revert Hrun Hrun'. run_step.
    rewrite !truediv_nonzero by exact Hc. simpl.
    intros [= <-] [= <-]. reflexivity. }
  subst rep'.
  exists rep, line, s1. eexists.
  split; [exact Hrun|]. split; [exact Hrun'|].
  split; [reflexivity|]. split; [reflexivity|].
  simpl. fold path. rewrite !lookup_insert_eq. simpl.
  split; [reflexivity|]. split; [reflexivity|].
  intros p Hp. rewrite !lookup_insert_ne by congruence. auto.
Qed.

Lemma X7_get_metric_without_reset_only_appends_to_the_log_witness :
  exists rep line s1 s2,
    ValidMetric.get_metric Samples.show_float false Samples.after_two_rows
      = (Ok rep, s1) /\
    ValidMetric.get_metric Samples.show_float false s1 = (Ok rep, s2) /\
    s1 = ValidMetric.set_fs (ValidMetric.fs s1) Samples.after_two_rows /\
    s2 = ValidMetric.set_fs (ValidMetric.fs s2) Samples.after_two_rows /\
    ValidMetric.fs s1 !! "out/train_info.txt" = Some ("" +:+ line +:+ nl) /\
    ValidMetric.fs s2 !! "out/train_info.txt"
      = Some (("" +:+ line +:+ nl) +:+ line +:+ nl) /\
    (forall p, p <> "out/train_info.txt" ->
       ValidMetric.fs s1 !! p = ValidMetric.fs Samples.after_two_rows !! p /\
       ValidMetric.fs s2 !! p = ValidMetric.fs Samples.after_two_rows !! p).
Proof.
  apply (X7_get_metric_without_reset_only_appends_to_the_log
           Samples.show_float Samples.after_two_rows).
  discriminate.
Defined.

(** ** [ValidMetric.evaluate] writes no file *)

Lemma evaluate_frame (get_scores : string -> string -> Res (Q * Q * Q))
    (score : Tensor2) (s : ValidMetric.state) :
  let s' := snd (ValidMetric.evaluate get_scores score s) in
  ValidMetric.fs s' = ValidMetric.fs s /\
  ValidMetric.save_path s' = ValidMetric.save_path s.
Proof.
  destruct (max_indices score) as [idx|e] eqn:Hidx.
  - destruct (evaluate_spec get_scores score s idx Hidx)
      as (r & s1 & -> & Hp & Hfs & _). simpl. auto.
  - rewrite (evaluate_raises get_scores score s e Hidx). simpl. auto.
Qed.

(** X8: whatever a run of [evaluate] calls does, and also when one of them
    raises, it leaves every file and [save_path] as they were: only
    [get_metric] writes. *)
Theorem X8_evaluate_never_writes_files
    (get_scores : string -> string -> Res (Q * Q * Q))
    (batches : list Tensor2) (s : ValidMetric.state) :
  let s' := snd (ValidMetric.evaluate_all get_scores batches s) in
  ValidMetric.fs s' = ValidMetric.fs s /\
  ValidMetric.save_path s' = ValidMetric.save_path s.
Proof.
  unfold ValidMetric.evaluate_all. revert s.
  induction batches as [|score batches IH]; intros s; simpl.
  - auto.
  - pose proof (evaluate_frame get_scores score s) as Hfirst.
    unfold bind.
    destruct (ValidMetric.evaluate get_scores score s) as [[[]|e] s1];
      simpl in *.
    + destruct (IH s1) as (H1 & H2). destruct Hfirst as (H3 & H4).
      split; congruence.
    + exact Hfirst.
Qed.

(** ** [ValidMetric.evaluate] past the last example *)

Lemma getitem_past_the_end {A} (l : list A) (i : Z) :
  Z.of_nat (length l) <= i -> getitem l i = Raise IndexError.
Proof.
  intros Hi. unfold getitem. cbv zeta.
  assert (Hlt : (i <? 0) = false) by (apply Z.ltb_ge; lia).
  rewrite !Hlt. simpl.
  destruct (Z.leb_spec (Z.of_nat (length l)) i); [reflexivity|lia].
Qed.

Lemma row_body_without_example
    (get_scores : string -> string -> Res (Q * Q * Q))
    (score : Tensor2) (i : nat) (s : ValidMetric.state)
    (row : list Q) (k : nat) (e : exn) :
  rows score !! i = Some row ->
  argmax row = Ok k ->
  getitem (ValidMetric.data s) (ValidMetric.cur_idx s) = Raise e ->
  ValidMetric.row_body get_scores score i s = (Raise e, s).
Proof.
  intros Hrow Hk Hex. unfold ValidMetric.row_body. run_step.
  rewrite getitem_nat, Hrow, Hk, Hex. reflexivity.
Qed.

(** X9: once the cursor has reached the number of examples, an [evaluate]
    call on a batch with at least one row raises [IndexError] on its first
    row; the cursor, the error count, the ROUGE accumulator and the
    examples are as before, but the three top-k counters have already been
    increased for the whole batch. *)
Theorem X9_evaluate_past_the_last_example_raises
    (get_scores : string -> string -> Res (Q * Q * Q))
    (score : Tensor2) (s : ValidMetric.state) (idx : list nat) :
  Z.of_nat (length (ValidMetric.data s)) <= ValidMetric.cur_idx s ->
  max_indices score = Ok idx ->
  rows score <> [] ->
  ValidMetric.evaluate get_scores score s =
  (Raise IndexError,
   ValidMetric.add_top10 (count_if (fun k => k <=? 9)%nat idx)
     (ValidMetric.add_top6 (count_if (fun k => k <=? 5)%nat idx)
        (ValidMetric.add_top1 (count_if (fun k => k =? 0)%nat idx) s))).
Proof.
  intros Hcur Hidx Hrows.
  rewrite (evaluate_unfold get_scores score s idx Hidx).
  unfold size0. destruct (rows score) as [|r rs] eqn:Hr; [congruence|].
  assert (Hk : exists k, argmax r = Ok k).
  { unfold max_indices in Hidx. rewrite Hr in Hidx.
    case_bool_decide; [discriminate|]. simpl in Hidx.
    destruct (argmax r) as [k|e]; [eauto|discriminate]. }
  destruct Hk as (k & Hk).
  cbn [length seq for_each]. unfold bind.
  rewrite (row_body_without_example get_scores score 0 _ r k IndexError).
  - reflexivity.
  - rewrite Hr. reflexivity.
  - exact Hk.
  - apply getitem_past_the_end. exact Hcur.
Qed.

Lemma X9_evaluate_past_the_last_example_raises_witness :
  ValidMetric.evaluate Samples.perfect_scores MoreSamples.two_rows
    (ValidMetric.mkState "out" [Samples.two_candidates] 1 1 1 1%Q 0 1 ∅)
  = (Raise IndexError,
     ValidMetric.mkState "out" [Samples.two_candidates] 2 3 3 1%Q 0 1 ∅).
Proof.
  apply (X9_evaluate_past_the_last_example_raises Samples.perfect_scores
           MoreSamples.two_rows
           (ValidMetric.mkState "out" [Samples.two_candidates] 1 1 1 1%Q 0 1 ∅)
           [1%nat; 0%nat]).
  - simpl. lia.
  - reflexivity.
  - discriminate.
Defined.

(** ** A candidate with no sentences *)

(** X11: a row that selects an empty index set completes without consulting
    the scorer: the decoded text is empty, so it adds exactly 0 to the ROUGE
    accumulator, counts no error and advances the cursor by 1. *)
Theorem X11_empty_candidate_contributes_zero
    (get_scores : string -> string -> Res (Q * Q * Q))
    (score : Tensor2) (i : nat) (s : ValidMetric.state)
    (row : list Q) (k : nat) (ex : Example) :
  rows score !! i = Some row ->
  argmax row = Ok k ->
  getitem (ValidMetric.data s) (ValidMetric.cur_idx s) = Ok ex ->
  indices ex !! k = Some [] ->
  exists s',
    ValidMetric.row_body get_scores score i s = (Ok tt, s') /\
    ValidMetric.ROUGE s' = (ValidMetric.ROUGE s + 0)%Q /\
    ValidMetric.Error s' = ValidMetric.Error s /\
    ValidMetric.cur_idx s' = ValidMetric.cur_idx s + 1 /\
    ValidMetric.data s' = ValidMetric.data s.
Proof.
  intros Hrow Hk Hex Hids.
  unfold ValidMetric.row_body. run_step.
  rewrite getitem_nat, Hrow, Hk, Hex.
  pose proof (lookup_lt_Some _ _ _ Hids) as Hlt.
  destruct (Z.leb_spec (Z.of_nat (length (indices ex))) (Z.of_nat k)); [lia|].
  rewrite getitem_nat, Hids.
  change (merge_sort Z.le []) with (@nil Z). simpl.
  eexists. split; [reflexivity|]. simpl.
  split; [reflexivity|]. split; [reflexivity|]. split; [reflexivity|].
  apply getitem_inv in Hex as (p & Hp & ->).
  rewrite <- (list_insert_id (ValidMetric.data s) p ex Hp) at 2.
  f_equal. destruct ex as [t sm ix]. unfold set_indices. simpl in *.
  f_equal. unfold setitem. cbv zeta.
  assert (Hlt0 : (Z.of_nat k <? 0) = false) by (apply Z.ltb_ge; lia).
  rewrite !Hlt0. simpl.
  destruct (Z.leb_spec (Z.of_nat (length ix)) (Z.of_nat k)); [lia|].
  rewrite Nat2Z.id. apply list_insert_id. exact Hids.
Qed.

Lemma X11_empty_candidate_contributes_zero_witness :
  exists s',
    ValidMetric.row_body
      (fun _ _ => Raise (ExternalError "rouge")) Samples.first_best 0
      (ValidMetric.init "out" [MoreSamples.empty_candidate] ∅) = (Ok tt, s') /\
    ValidMetric.ROUGE s' = (0 + 0)%Q /\
    ValidMetric.Error s' = 0 /\
    ValidMetric.cur_idx s' = 0 + 1 /\
    ValidMetric.data s' = [MoreSamples.empty_candidate].
Proof.
  apply (X11_empty_candidate_contributes_zero
           (fun _ _ => Raise (ExternalError "rouge")) Samples.first_best 0%nat
           (ValidMetric.init "out" [MoreSamples.empty_candidate] ∅)
           [3; 2; 1]%Q 0%nat MoreSamples.empty_candidate);
    reflexivity.
Defined.

(** ** Sorting in place does not change any later score *)

Lemma getitem_Forall2 {A B} (R : A -> B -> Prop) (l : list A) (l' : list B)
    (i : Z) :
  Forall2 R l l' ->
  (exists k a b,
     l !! k = Some a /\ l' !! k = Some b /\ R a b /\
     getitem l i = Ok a /\ getitem l' i = Ok b /\
     (forall x, setitem l i x = <[k := x]> l) /\
     (forall y, setitem l' i y = <[k := y]> l')) \/
  (getitem l i = Raise IndexError /\ getitem l' i = Raise IndexError).
Proof.
  intros HR. pose proof (Forall2_length _ _ _ HR) as Hlen.
  unfold getitem, setitem. rewrite <- Hlen. cbv zeta.
  set (n := if i <? 0 then i + Z.of_nat (length l) else i).
  destruct ((n <? 0) || (Z.of_nat (length l) <=? n)) eqn:E.
  - right. auto.
  - apply orb_false_iff in E as [E1 E2].
    apply Z.ltb_ge in E1. apply Z.leb_gt in E2.
    destruct (lookup_lt_is_Some_2 l (Z.to_nat n)) as (a & Ha); [lia|].
    destruct (lookup_lt_is_Some_2 l' (Z.to_nat n)) as (b & Hb); [lia|].
    left. exists (Z.to_nat n), a, b. rewrite Ha, Hb.
    split; [reflexivity|]. split; [reflexivity|].
    split; [exact (Forall2_lookup_lr _ _ _ _ _ _ HR Ha Hb)|].
    repeat split.
Qed.

Lemma index_set_rel_same_sort (ids ids' : list Z) :
  ValidMetric.index_set_rel ids ids' ->
  merge_sort Z.le ids' = merge_sort Z.le ids.
Proof.
  intros [->| ->]; [reflexivity|apply merge_sort_idemp].
Qed.

Lemma row_body_related (get_scores : string -> string -> Res (Q * Q * Q))
    (score : Tensor2) (i : nat) (s t : ValidMetric.state) :
  same_but_sorted s t ->
  exists r s1 t1,
    ValidMetric.row_body get_scores score i s = (r, s1) /\
    ValidMetric.row_body get_scores score i t = (r, t1) /\
    same_but_sorted s1 t1.
Proof.
  destruct s as [sp d c1 c6 c10 R E cu f], t as [sp' d' c1' c6' c10' R' E' cu' f'].
  intros (Hsp & H1 & H6 & H10 & HRo & HE & Hcu & Hf & Hd).
  simpl in Hsp, H1, H6, H10, HRo, HE, Hcu, Hf, Hd. subst.
  unfold ValidMetric.row_body. run_step. rewrite getitem_nat.
  destruct (rows score !! i) as [row|];
    [|eexists _, _, _; split; [reflexivity|];
      split; [reflexivity|repeat split; exact Hd]].
  destruct (argmax row) as [k|e];
    [|eexists _, _, _; split; [reflexivity|];
      split; [reflexivity|repeat split; exact Hd]].
  destruct (getitem_Forall2 _ d d' cu Hd)
    as [(p & ex & ex' & Hp & Hp' & (Ht & Hs & Hix) & -> & -> & Hset & Hset')
       |(-> & ->)];
    [|eexists _, _, _; split; [reflexivity|];
      split; [reflexivity|repeat split; exact Hd]].
  rewrite <- (Forall2_length _ _ _ Hix).
  destruct (Z.of_nat (length (indices ex)) <=? Z.of_nat k).
  { eexists _, _, _. split; [reflexivity|].
    split; [reflexivity|repeat split; exact Hd]. }
  destruct (getitem_Forall2 _ (indices ex) (indices ex') (Z.of_nat k) Hix)
    as [(q & ids & ids' & Hq & Hq' & Hrel & -> & -> & Hsi & Hsi')
       |(-> & ->)];
    [|eexists _, _, _; split; [reflexivity|];
      split; [reflexivity|repeat split; exact Hd]].
  rewrite (index_set_rel_same_sort ids ids' Hrel), Ht, Hs.
  rewrite Hset, Hset', Hsi, Hsi'.
  assert (Hd1 : ValidMetric.data_rel
            (<[p := set_indices ex (<[q := merge_sort Z.le ids]> (indices ex))]> d)
            (<[p := set_indices ex'
                      (<[q := merge_sort Z.le ids]> (indices ex'))]> d')).
  { apply Forall2_insert; [exact Hd|].
    split; [exact Ht|]. split; [exact Hs|]. simpl.
    apply Forall2_insert; [exact Hix|]. left. reflexivity. }
  destruct (map_res (getitem (text ex)) (merge_sort Z.le ids)) as [dec|e];
    [|eexists _, _, _; split; [reflexivity|];
      split; [reflexivity|repeat split; exact Hd1]].
  destruct (ValidMetric.fast_rouge get_scores _ _) as [r|e];
    eexists _, _, _; (split; [reflexivity|]);
    (split; [reflexivity|repeat split; exact Hd1]).
Qed.

Lemma evaluate_related (get_scores : string -> string -> Res (Q * Q * Q))
    (score : Tensor2) (s t : ValidMetric.state) :
  same_but_sorted s t ->
  exists r s1 t1,
    ValidMetric.evaluate get_scores score s = (r, s1) /\
    ValidMetric.evaluate get_scores score t = (r, t1) /\
    same_but_sorted s1 t1.
Proof.
  intros Hst. destruct (max_indices score) as [idx|e] eqn:Hidx.
  - rewrite !(evaluate_unfold get_scores score _ idx Hidx).
    apply (for_each_related same_but_sorted).
    + intros i a b Hab. apply row_body_related. exact Hab.
    + destruct Hst as (Hsp & H1 & H6 & H10 & HRo & HE & Hcu & Hf & Hd).
      repeat split; simpl; congruence.
  - rewrite !(evaluate_raises get_scores score _ e Hidx).
    exists (Raise e), s, t. auto.
Qed.

(** X10: scoring over examples in which index sets have already been sorted
    in place gives the same outcome and the same counters, cursor, error
    count and ROUGE accumulator as scoring over the original examples, and
    leaves the two collections again differing by sorted index sets only;
    the in-place sort of one pass therefore never changes what a later pass
    over the same data computes. *)
Theorem X10_sorted_index_sets_score_the_same
    (get_scores : string -> string -> Res (Q * Q * Q))
    (batches : list Tensor2) (s t : ValidMetric.state) :
  same_but_sorted s t ->
  exists r s1 t1,
    ValidMetric.evaluate_all get_scores batches s = (r, s1) /\
    ValidMetric.evaluate_all get_scores batches t = (r, t1) /\
    same_but_sorted s1 t1.
Proof.
  unfold ValidMetric.evaluate_all.
  apply (for_each_related same_but_sorted).
  intros score a b Hab. apply evaluate_related. exact Hab.
Qed.

Lemma X10_sorted_index_sets_score_the_same_witness :
  let s := ValidMetric.init "out" [Samples.unsorted_example] ∅ in
  let t := ValidMetric.init "out"
             [ {| text := ["a"; "b"; "c"]; summary := ["a c"];
                  indices := [[0; 2]] |} ] ∅ in
  exists r s1 t1,
    ValidMetric.evaluate_all Samples.perfect_scores [Samples.first_best] s
      = (r, s1) /\
    ValidMetric.evaluate_all Samples.perfect_scores [Samples.first_best] t
      = (r, t1) /\
    same_but_sorted s1 t1.
Proof.
  intros s t.
  apply (X10_sorted_index_sets_score_the_same Samples.perfect_scores
           [Samples.first_best] s t).
  repeat split. constructor; [|constructor].
  split; [reflexivity|]. split; [reflexivity|].
  constructor; [|constructor]. right. vm_compute. reflexivity.
Defined.

(** ** [MatchRougeMetric.evaluate] *)

Lemma max_indices_wf (score : Tensor2) :
  wf_tensor score -> (1 <= size1 score)%nat ->
  exists idx, max_indices score = Ok idx /\ length idx = size0 score.
Proof.
  intros Hwf Hn. unfold max_indices, wf_tensor, size0 in *.
  rewrite bool_decide_eq_false_2 by lia.
  revert Hwf. generalize (rows score). intros rs Hwf.
  induction Hwf as [|r rs Hr _ IH]; simpl.
  - exists []. auto.
  - destruct IH as (idx & -> & Hlen).
    destruct r as [|x r]; [simpl in Hr; lia|]. simpl.
    eexists. split; [reflexivity|]. simpl. lia.
Qed.

Lemma match_evaluate_any_outcome (score : Tensor2)
    (s : MatchRougeMetric.state) :
  let s' := snd (MatchRougeMetric.evaluate score s) in
  MatchRougeMetric.data s' = MatchRougeMetric.data s /\
  MatchRougeMetric.fs s' = MatchRougeMetric.fs s /\
  (MatchRougeMetric.cur_idx s = Z.of_nat (length (MatchRougeMetric.ext s)) ->
   MatchRougeMetric.cur_idx s' = Z.of_nat (length (MatchRougeMetric.ext s'))).
Proof.
  unfold MatchRougeMetric.evaluate. run_step.
  destruct (max_indices score) as [[|k [|k' idx]]|err]; simpl; auto.
  destruct (truediv _ _) as [q|err]; simpl.
  all: split; [reflexivity|]; split; [reflexivity|].
  all: intros ->; rewrite length_app; simpl; lia.
Qed.

(** X12: over any run of [MatchRougeMetric.evaluate] calls, completed or
    cut short by an exception, the cursor equals the number of recorded
    arg-max indices (as on a fresh object), and neither the examples nor any
    file is touched. *)
Theorem X12_cursor_counts_the_recorded_indices (scores : list Tensor2)
    (s : MatchRougeMetric.state) :
  MatchRougeMetric.cur_idx s = Z.of_nat (length (MatchRougeMetric.ext s)) ->
  let s' := snd (for_each scores MatchRougeMetric.evaluate s) in
  MatchRougeMetric.cur_idx s' = Z.of_nat (length (MatchRougeMetric.ext s')) /\
  MatchRougeMetric.data s' = MatchRougeMetric.data s /\
  MatchRougeMetric.fs s' = MatchRougeMetric.fs s.
Proof.
  revert s. induction scores as [|score scores IH]; intros s Hinv; simpl.
  - auto.
  - pose proof (match_evaluate_any_outcome score s) as (Hd & Hf & Hc).
    specialize (Hc Hinv). unfold bind.
    destruct (MatchRougeMetric.evaluate score s) as [[[]|e] s1]; simpl in *.
    + destruct (IH s1 Hc) as (Hc' & Hd' & Hf').
      split; [exact Hc'|]. split; congruence.
    + auto.
Qed.

Lemma X12_cursor_counts_the_recorded_indices_witness :
  let s' := snd (for_each [Samples.first_best; MoreSamples.two_rows;
                           Samples.third_best]
                   MatchRougeMetric.evaluate
                   (MatchRougeMetric.init [Samples.two_candidates]
                      "dec" "ref" 1 0 ∅)) in
  MatchRougeMetric.cur_idx s' = Z.of_nat (length (MatchRougeMetric.ext s')) /\
  MatchRougeMetric.data s' = [Samples.two_candidates] /\
  MatchRougeMetric.fs s' = ∅.
Proof.
  apply (X12_cursor_counts_the_recorded_indices
           [Samples.first_best; MoreSamples.two_rows; Samples.third_best]
           (MatchRougeMetric.init [Samples.two_candidates] "dec" "ref" 1 0 ∅)).
  reflexivity.
Defined.

(** X13: with [n_total = 0], [evaluate] on a one-row batch raises
    [ZeroDivisionError] while formatting the progress line, after the
    arg-max has been recorded and the cursor advanced. *)
Theorem X13_zero_total_raises_after_recording (score : Tensor2)
    (s : MatchRougeMetric.state) (k : nat) :
  max_indices score = Ok [k] ->
  MatchRougeMetric.n_total s = 0 ->
  MatchRougeMetric.evaluate score s =
  (Raise ZeroDivisionError,
   MatchRougeMetric.add_cur_idx 1
     (MatchRougeMetric.append_ext (Z.of_nat k) s)).
Proof.
  intros Hidx Hn. unfold MatchRougeMetric.evaluate. run_step.
  rewrite Hidx. simpl. rewrite Hn. reflexivity.
Qed.

Lemma X13_zero_total_raises_after_recording_witness :
  MatchRougeMetric.evaluate Samples.third_best
    (MatchRougeMetric.init [Samples.two_candidates] "dec" "ref" 0 0 ∅)
  = (Raise ZeroDivisionError,
     MatchRougeMetric.mkState [Samples.two_candidates] "dec" "ref"
       0 1 [2] 0%Q ∅).
Proof.
  apply (X13_zero_total_raises_after_recording Samples.third_best
           (MatchRougeMetric.init [Samples.two_candidates] "dec" "ref" 0 0 ∅)
           2%nat); reflexivity.
Defined.

(** X14: [evaluate] on a batch whose number of rows is not 1 raises and
    leaves the object as it was (no index is recorded); a one-row batch with
    [n_total <> 0] records the arg-max of that row and advances the
    cursor. *)
Theorem X14_batch_size_must_be_one (score : Tensor2)
    (s : MatchRougeMetric.state) :
  (size0 score <> 1%nat ->
   exists e, MatchRougeMetric.evaluate score s = (Raise e, s)) /\
  (forall row k,
     rows score = [row] -> (1 <= size1 score)%nat -> argmax row = Ok k ->
     MatchRougeMetric.n_total s <> 0 ->
     MatchRougeMetric.evaluate score s =
     (Ok tt,
      MatchRougeMetric.add_cur_idx 1
        (MatchRougeMetric.append_ext (Z.of_nat k) s))).
Proof.
  split.
  - intros Hb. unfold MatchRougeMetric.evaluate. run_step.
    destruct (max_indices score) as [idx|err] eqn:Hidx.
    + apply max_indices_length in Hidx.
      destruct idx as [|k [|k' idx]]; simpl in Hidx.
      * eexists. reflexivity.
      * congruence.
      * eexists. reflexivity.
    + eexists. reflexivity.
  - intros row k Hrows Hn Hk Hnt.
    unfold MatchRougeMetric.evaluate. run_step.
    unfold max_indices. rewrite bool_decide_eq_false_2 by lia.
    rewrite Hrows. simpl. rewrite Hk. simpl.
    rewrite truediv_nonzero by exact Hnt. reflexivity.
Qed.

Lemma X14_batch_size_must_be_one_witness :
  (exists e,
     MatchRougeMetric.evaluate MoreSamples.two_rows
       (MatchRougeMetric.init [Samples.two_candidates] "dec" "ref" 1 0 ∅)
     = (Raise e,
        MatchRougeMetric.init [Samples.two_candidates] "dec" "ref" 1 0 ∅)) /\
  MatchRougeMetric.evaluate Samples.third_best
    (MatchRougeMetric.init [Samples.two_candidates] "dec" "ref" 1 0 ∅)
  = (Ok tt,
     MatchRougeMetric.mkState [Samples.two_candidates] "dec" "ref"
       1 1 [2] 0%Q ∅).
Proof.
  split.
  - apply (proj1 (X14_batch_size_must_be_one MoreSamples.two_rows
                    (MatchRougeMetric.init [Samples.two_candidates]
                       "dec" "ref" 1 0 ∅))).
    discriminate.
  - apply (proj2 (X14_batch_size_must_be_one Samples.third_best
                    (MatchRougeMetric.init [Samples.two_candidates]
                       "dec" "ref" 1 0 ∅))
             [1; 2; 3]%Q 2%nat).
    + reflexivity.
    + simpl. lia.
    + reflexivity.
    + discriminate.
Defined.

(** ** [MatchRougeMetric.get_metric]: partial output and repeated calls *)

Lemma zip_seq_app {A} (a b : list A) (k : nat) :
  zip (seq k (length (a ++ b))) (a ++ b)
  = zip (seq k (length a)) a ++ zip (seq (k + length a) (length b)) b.
Proof.
  rewrite length_app, seq_app.
  apply zip_with_app. rewrite length_seq. reflexivity.
Qed.

Lemma write_loop_frame (l : list (nat * Z)) :
  forall s : MatchRougeMetric.state,
    exists fs',
      snd (for_each l MatchRougeMetric.write_example s)
      = MatchRougeMetric.set_fs fs' s.
Proof.
  induction l as [|[i e] l IH]; intros s; cbn [for_each].
  - exists (MatchRougeMetric.fs s). destruct s; reflexivity.
  - unfold bind. rewrite write_example_run.
    destruct (MatchRougeMetric.resolve _ i e) as [[dec ref]|err].
    + destruct (IH (MatchRougeMetric.write_file
                      (MatchRougeMetric.ref_file (MatchRougeMetric.ref_path s) i)
                      ref
                      (MatchRougeMetric.write_file
                         (MatchRougeMetric.dec_file
                            (MatchRougeMetric.dec_path s) i) dec s)))
        as (fs' & ->).
      exists fs'. reflexivity.
    + exists (MatchRougeMetric.fs s). destruct s; reflexivity.
Qed.

Lemma write_loop_success_inv (es : list Z) :
  forall (k : nat) (s s1 : MatchRougeMetric.state),
    for_each (zip (seq k (length es)) es) MatchRougeMetric.write_example s
      = (Ok tt, s1) ->
    forall j e, es !! j = Some e ->
      exists dec ref,
        MatchRougeMetric.resolve (MatchRougeMetric.data s) (k + j) e
        = Ok (dec, ref).
Proof.
  induction es as [|e0 es IH]; intros k s s1 Hrun j e Hj.
  - inversion Hj.
  - cbn [for_each zip_with seq length] in Hrun. unfold bind in Hrun.
    rewrite write_example_run in Hrun.
    destruct (MatchRougeMetric.resolve (MatchRougeMetric.data s) k e0)
      as [[dec0 ref0]|err] eqn:Hres; [|discriminate].
    destruct j as [|j]; simpl in Hj.
    + injection Hj as <-. rewrite Nat.add_0_r. eauto.
    + replace (k + S j)%nat with (S k + j)%nat by lia.
      apply (IH (S k) _ s1 Hrun j e Hj).
Qed.

(** X15: [get_metric] has no guard against a padding column: if the
    recorded arg-max of some example is not below its number of index sets
    (all earlier examples resolving), it raises [IndexError] there; the
    files of the earlier examples have been written, no other file is
    touched, the scorer is not run and nothing is reset, whatever [reset]
    says. *)
Theorem X15_padding_index_aborts_the_reduction
    (eval_rouge : string -> string -> gmap string string ->
                  Res (Q * Q * Q) * gmap string string)
    (reset : bool) (now : Q) (s : MatchRougeMetric.state)
    (pre post : list Z) (e : Z) (ex : Example) :
  MatchRougeMetric.ext s = pre ++ e :: post ->
  (forall j e', pre !! j = Some e' ->
     exists dec ref,
       MatchRougeMetric.resolve (MatchRougeMetric.data s) j e' = Ok (dec, ref)) ->
  MatchRougeMetric.data s !! length pre = Some ex ->
  Z.of_nat (length (indices ex)) <= e ->
  exists fs' : gmap string string,
    MatchRougeMetric.get_metric eval_rouge reset now s
      = (Raise IndexError, MatchRougeMetric.set_fs fs' s) /\
    (forall j e' dec ref,
       pre !! j = Some e' ->
       MatchRougeMetric.resolve (MatchRougeMetric.data s) j e' = Ok (dec, ref) ->
       fs' !! MatchRougeMetric.dec_file (MatchRougeMetric.dec_path s) j
         = Some (lines dec) /\
       fs' !! MatchRougeMetric.ref_file (MatchRougeMetric.ref_path s) j
         = Some (lines ref)) /\
    (forall p,
       (forall j, (j < length pre)%nat ->
          p <> MatchRougeMetric.dec_file (MatchRougeMetric.dec_path s) j /\
          p <> MatchRougeMetric.ref_file (MatchRougeMetric.ref_path s) j) ->
       fs' !! p = MatchRougeMetric.fs s !! p).
Proof.
  intros Hext Hpre Hex Hpad.
  destruct (write_loop_spec pre 0 s) as (fs' & Hrun & Hfiles & Hframe).
  { intros j e' Hj. simpl. apply (Hpre j e' Hj). }
  exists fs'. split; [|split].
  - unfold MatchRougeMetric.get_metric, bind.
    rewrite write_files_unfold, Hext, zip_seq_app, for_each_app.
    unfold bind. rewrite Hrun.
    cbn [for_each zip_with seq length]. unfold bind.
    rewrite write_example_run. unfold MatchRougeMetric.resolve. simpl.
    rewrite getitem_nat, Hex. simpl.
    rewrite getitem_past_the_end by exact Hpad. reflexivity.
  - intros j e' dec ref Hj Hr. apply (Hfiles j e' dec ref Hj). exact Hr.
  - intros p Hp. apply Hframe. intros j Hj. simpl. apply Hp. exact Hj.
Qed.

Lemma X15_padding_index_aborts_the_reduction_witness :
  exists fs' : gmap string string,
    MatchRougeMetric.get_metric Samples.no_rouge true 7 MoreSamples.padded_state
      = (Raise IndexError,
         MatchRougeMetric.set_fs fs' MoreSamples.padded_state) /\
    fs' !! "dec/0.dec" = Some (lines ["a"; "b"]) /\
    fs' !! "ref/0.ref" = Some (lines ["a b"]) /\
    fs' !! "dec/1.dec" = None.
Proof.
  destruct (X15_padding_index_aborts_the_reduction Samples.no_rouge true 7
              MoreSamples.padded_state [0] [] 1 Samples.unsorted_example)
    as (fs' & Hrun & Hfiles & Hframe).
  - reflexivity.
  - intros [|j] e'; simpl; intros [= <-].
    exists ["a"; "b"], ["a b"]. reflexivity.
  - reflexivity.
  - simpl. lia.
  - exists fs'. split; [exact Hrun|].
    destruct (Hfiles 0%nat 0 ["a"; "b"] ["a b"] eq_refl eq_refl) as (Hd & Hr).
    split; [exact Hd|]. split; [exact Hr|].
    rewrite Hframe; [reflexivity|].
    intros [|j] Hj; [|simpl in Hj; lia].
    split; discriminate.
Defined.

(** X16: a [get_metric(reset=False)] that returns keeps the examples, the
    recorded indices, the cursor, the timer and the paths; only files may
    have changed. *)
Theorem X16_get_metric_without_reset_keeps_the_pass
    (eval_rouge : string -> string -> gmap string string ->
                  Res (Q * Q * Q) * gmap string string)
    (now : Q) (s s1 : MatchRougeMetric.state) (rep : gmap string pyval) :
  MatchRougeMetric.get_metric eval_rouge false now s = (Ok rep, s1) ->
  s1 = MatchRougeMetric.set_fs (MatchRougeMetric.fs s1) s /\
  dom rep = {[ "ROUGE-1"; "ROUGE-2"; "ROUGE-L" ]}.
Proof.
  unfold MatchRougeMetric.get_metric, bind.
  rewrite write_files_unfold.
  destruct (write_loop_frame
              (zip (seq 0 (length (MatchRougeMetric.ext s)))
                 (MatchRougeMetric.ext s)) s) as (fs' & Hfs).
  destruct (for_each _ MatchRougeMetric.write_example s) as [[[]|err] sw];
    [|discriminate].
  simpl in Hfs. subst sw.
  unfold MatchRougeMetric.call_eval_rouge. simpl.
  destruct (eval_rouge _ _ fs') as [[[[R1 R2] RL]|err] fs2]; [|discriminate].
  run_step. intros [= <- <-]. simpl. split; [reflexivity|].
  rewrite !dom_insert_L. set_solver.
Qed.

Lemma X16_get_metric_without_reset_keeps_the_pass_witness :
  let out := MatchRougeMetric.get_metric Samples.no_rouge false 3
               Samples.match_state in
  snd out = MatchRougeMetric.set_fs (MatchRougeMetric.fs (snd out))
              Samples.match_state.
Proof.
  intros out.
  assert (Hrun : out = (Ok (match fst out with Ok r => r | Raise _ => ∅ end),
                        snd out)) by (vm_compute; reflexivity).
  exact (proj1 (X16_get_metric_without_reset_keeps_the_pass Samples.no_rouge 3
                  Samples.match_state (snd out) _ Hrun)).
Defined.

Lemma name_or_not (dec_dir ref_dir : string) (n : nat) (p : string) :
  (exists j, (j < n)%nat /\
     (p = MatchRougeMetric.dec_file dec_dir j \/
      p = MatchRougeMetric.ref_file ref_dir j)) \/
  (forall j, (j < n)%nat ->
     p <> MatchRougeMetric.dec_file dec_dir j /\
     p <> MatchRougeMetric.ref_file ref_dir j).
Proof.
  induction n as [|n IH].
  - right. intros j Hj. lia.
  - destruct IH as [(j & Hj & Hp)|Hnone].
    + left. exists j. split; [lia|exact Hp].
    + destruct (decide (p = MatchRougeMetric.dec_file dec_dir n)) as [Hd|Hd].
      { left. exists n. split; [lia|left; exact Hd]. }
      destruct (decide (p = MatchRougeMetric.ref_file ref_dir n)) as [Hr|Hr].
      { left. exists n. split; [lia|right; exact Hr]. }
      right. intros j Hj.
      destruct (decide (j = n)) as [->|Hne]; [auto|apply Hnone; lia].
Qed.

(** X17: writing the files is idempotent: after a writing loop that
    completed, running it again completes and leaves every file as it
    is. *)
Theorem X17_writing_the_files_twice_changes_nothing
    (s s1 : MatchRougeMetric.state) :
  MatchRougeMetric.write_files s = (Ok tt, s1) ->
  MatchRougeMetric.write_files s1 = (Ok tt, s1).
Proof.
  rewrite !write_files_unfold. intros Hrun.
  pose proof (write_loop_success_inv (MatchRougeMetric.ext s) 0 s s1 Hrun)
    as Hres.
  destruct (write_loop_spec (MatchRougeMetric.ext s) 0 s)
    as (fs1 & Hrun1 & Hfiles1 & Hframe1).
  { intros j e Hj. apply (Hres j e Hj). }
  rewrite Hrun in Hrun1. injection Hrun1 as ->.
  change (MatchRougeMetric.ext (MatchRougeMetric.set_fs fs1 s))
    with (MatchRougeMetric.ext s).
  destruct (write_loop_spec (MatchRougeMetric.ext s) 0
              (MatchRougeMetric.set_fs fs1 s))
    as (fs2 & Hrun2 & Hfiles2 & Hframe2).
  { intros j e Hj. apply (Hres j e Hj). }
  rewrite Hrun2. f_equal. unfold MatchRougeMetric.set_fs. simpl. f_equal.
  apply map_eq. intros p.
  destruct (name_or_not (MatchRougeMetric.dec_path s)
              (MatchRougeMetric.ref_path s)
              (length (MatchRougeMetric.ext s)) p)
    as [(j & Hj & Hp)|Hnone].
  - destruct (lookup_lt_is_Some_2 (MatchRougeMetric.ext s) j Hj) as (e & He).
    destruct (Hres j e He) as (dec & ref & Hr).
    destruct (Hfiles1 j e dec ref He Hr) as (Hd1 & Hr1).
    destruct (Hfiles2 j e dec ref He Hr) as (Hd2 & Hr2).
    simpl in Hd1, Hr1, Hd2, Hr2.
    destruct Hp as [-> | ->]; congruence.
  - rewrite (Hframe2 p); [reflexivity|].
    intros j Hj. simpl. apply Hnone. exact Hj.
Qed.

Lemma X17_writing_the_files_twice_changes_nothing_witness :
  let s1 := snd (MatchRougeMetric.write_files Samples.match_state) in
  MatchRougeMetric.write_files s1 = (Ok tt, s1).
Proof.
  intros s1.
  apply (X17_writing_the_files_twice_changes_nothing Samples.match_state s1).
  vm_compute. reflexivity.
Defined.

(** ** [str.split] *)

Lemma append_cons (c : ascii) (a b : string) :
  String c a +:+ b = String c (a +:+ b).
Proof. reflexivity. Qed.

Lemma append_assoc (a b c : string) : (a +:+ b) +:+ c = a +:+ (b +:+ c).
Proof.
  induction a as [|x a IH]; [reflexivity|].
  rewrite !append_cons, IH. reflexivity.
Qed.

Lemma count_char_app (c : ascii) (a b : string) :
  count_char c (a +:+ b) = (count_char c a + count_char c b)%nat.
Proof.
  induction a as [|x a IH]; [reflexivity|].
  rewrite append_cons. simpl. rewrite IH. lia.
Qed.

Lemma split_on_nonempty (sep : ascii) (s : string) : split_on sep s <> [].
Proof.
  destruct s as [|c s]; simpl; [discriminate|].
  case_bool_decide; [discriminate|].
  destruct (split_on sep s); discriminate.
Qed.

Lemma length_split_on (sep : ascii) (s : string) :
  length (split_on sep s) = S (count_char sep s).
Proof.
  induction s as [|c s IH]; simpl; [reflexivity|].
  case_bool_decide; simpl; [rewrite IH; reflexivity|].
  destruct (split_on sep s) as [|w ws] eqn:Hs; simpl in *; lia.
Qed.

Lemma split_on_no_sep (sep : ascii) (s : string) :
  count_char sep s = 0%nat -> split_on sep s = [s].
Proof.
  induction s as [|c s IH]; simpl; [reflexivity|].
  case_bool_decide; [discriminate|]. simpl. intros H0.
  rewrite (IH H0). reflexivity.
Qed.

Lemma split_on_app_sep (sep : ascii) (w rest : string) :
  count_char sep w = 0%nat ->
  split_on sep (w +:+ String sep rest) = w :: split_on sep rest.
Proof.
  induction w as [|c w IH]; intros H0.
  - change ("" +:+ String sep rest) with (String sep rest). simpl.
    rewrite bool_decide_eq_true_2 by reflexivity. reflexivity.
  - rewrite append_cons. simpl in *.
    case_bool_decide; [discriminate|]. simpl in H0.
    rewrite (IH H0). reflexivity.
Qed.

(** Splitting what [sep.join] built gives the words back, when no word
    holds the separator. *)
Lemma split_on_concat (sep : ascii) (ws : list string) :
  ws <> [] ->
  Forall (fun w => count_char sep w = 0%nat) ws ->
  split_on sep (String.concat (String sep EmptyString) ws) = ws.
Proof.
  intros Hne Hall. induction Hall as [|w ws Hw Hws IH]; [congruence|].
  destruct ws as [|w' ws].
  - simpl. apply split_on_no_sep. exact Hw.
  - change (String.concat (String sep EmptyString) (w :: w' :: ws))
      with (w +:+ String sep EmptyString
            +:+ String.concat (String sep EmptyString) (w' :: ws)).
    rewrite append_cons.
    change ("" +:+ String.concat (String sep EmptyString) (w' :: ws))
      with (String.concat (String sep EmptyString) (w' :: ws)).
    rewrite split_on_app_sep by exact Hw.
    rewrite IH by discriminate. reflexivity.
Qed.

Lemma count_space_join (a b : string) :
  starts_with_sep b = false ->
  count_char space (join a b)
  = (count_char space a + count_char space b)%nat.
Proof.
  intros Hb. unfold join. rewrite Hb.
  destruct (bool_decide (a = "") || ends_with_sep a).
  - apply count_char_app.
  - rewrite !count_char_app. simpl. lia.
Qed.

(** ** [eval_rouge]: the command line *)

Lemma command_words (ROUGE_PATH tmp_dir : string) :
  EvalRouge.command ROUGE_PATH tmp_dir =
  String.concat " "
    [ join ROUGE_PATH "ROUGE-1.5.5.pl"; "-e"; join ROUGE_PATH "data";
      "-c"; "95"; "-r"; "1000"; "-n"; "2"; "-m"; "-a";
      join tmp_dir "settings.xml" ].
Proof.
  unfold EvalRouge.command. simpl.
  rewrite !append_cons. rewrite !append_assoc. reflexivity.
Qed.

(** X18: the argument vector [cmd.split(' ')] has 12 entries plus two for
    every blank in [_ROUGE_PATH] and one for every blank in the temporary
    directory's name; when neither holds a blank it is exactly the script,
    [-e], the data directory, [-c 95 -r 1000 -n 2 -m], [-a] and the
    settings file. *)
Theorem X18_scorer_argument_vector (ROUGE_PATH tmp_dir : string) :
  length (EvalRouge.argv ROUGE_PATH tmp_dir)
  = (12 + 2 * count_char space ROUGE_PATH + count_char space tmp_dir)%nat /\
  (count_char space ROUGE_PATH = 0%nat ->
   count_char space tmp_dir = 0%nat ->
   EvalRouge.argv ROUGE_PATH tmp_dir =
   [ join ROUGE_PATH "ROUGE-1.5.5.pl"; "-e"; join ROUGE_PATH "data";
     "-c"; "95"; "-r"; "1000"; "-n"; "2"; "-m"; "-a";
     join tmp_dir "settings.xml" ]).
Proof.
  split.
  - unfold EvalRouge.argv. rewrite length_split_on.
    unfold EvalRouge.command.
    rewrite !count_char_app, !count_space_join by reflexivity.
    simpl. lia.
  - intros HR Ht. unfold EvalRouge.argv. rewrite command_words.
    apply (split_on_concat space); [discriminate|].
    repeat constructor;
      rewrite ?count_space_join by reflexivity; rewrite ?HR, ?Ht; reflexivity.
Qed.

Lemma X18_scorer_argument_vector_witness :
  EvalRouge.argv "/opt/ROUGE" "/tmp/x1" =
  [ "/opt/ROUGE/ROUGE-1.5.5.pl"; "-e"; "/opt/ROUGE/data";
    "-c"; "95"; "-r"; "1000"; "-n"; "2"; "-m"; "-a"; "/tmp/x1/settings.xml" ].
Proof.
  apply (proj2 (X18_scorer_argument_vector "/opt/ROUGE" "/tmp/x1"));
    reflexivity.
Defined.

(** ** [eval_rouge]: reading the report *)

Lemma fourth_token (w0 w1 w2 value rest : string) :
  count_char space w0 = 0%nat -> count_char space w1 = 0%nat ->
  count_char space w2 = 0%nat -> count_char space value = 0%nat ->
  getitem (split_on space (EvalRouge.report_line w0 w1 w2 value rest)) 3
  = Ok value.
Proof.
  intros H0 H1 H2 Hv. unfold EvalRouge.report_line.
  change (" " +:+ w1 +:+ " " +:+ w2 +:+ " " +:+ value +:+ " " +:+ rest)
    with (String space (w1 +:+ " " +:+ w2 +:+ " " +:+ value +:+ " " +:+ rest)).
  rewrite split_on_app_sep by exact H0.
  change (" " +:+ w2 +:+ " " +:+ value +:+ " " +:+ rest)
    with (String space (w2 +:+ " " +:+ value +:+ " " +:+ rest)).
  rewrite split_on_app_sep by exact H1.
  change (" " +:+ value +:+ " " +:+ rest)
    with (String space (value +:+ " " +:+ rest)).
  rewrite split_on_app_sep by exact H2.
  change (" " +:+ rest) with (String space rest).
  rewrite split_on_app_sep by exact Hv.
  change 3 with (Z.of_nat 3). rewrite getitem_nat. reflexivity.
Qed.

Lemma parse_short_report (float : string -> Res Q) (output : string) :
  (length (split_on newline output) <= 11)%nat ->
  exists e, EvalRouge.parse_report float output = Raise e.
Proof.
  intros Hshort. unfold EvalRouge.parse_report.
  destruct (EvalRouge.field float output 3) as [r1|e]; [|eauto]. simpl.
  destruct (EvalRouge.field float output 7) as [r2|e]; [|eauto]. simpl.
  unfold EvalRouge.field at 1.
  rewrite getitem_past_the_end by lia. simpl. eauto.
Qed.

(** X19: [eval_rouge] fails without leaving a report behind: if the scorer
    run raises, or if its output has fewer than 12 lines, [eval_rouge]
    raises and every file is as before ([ROUGE.txt] is not written). *)
Theorem X19_eval_rouge_failure_writes_nothing
    (ROUGE_PATH tmp_dir : string)
    (check_output : list string -> string -> string -> gmap string string ->
                    Res string)
    (float : string -> Res Q)
    (Print : bool) (dec_dir ref_dir : string) (fs : gmap string string) :
  (forall e,
     check_output (EvalRouge.argv ROUGE_PATH tmp_dir) dec_dir ref_dir fs
       = Raise e ->
     EvalRouge.eval_rouge ROUGE_PATH tmp_dir check_output float Print
       dec_dir ref_dir fs = (Raise e, fs)) /\
  (forall output,
     check_output (EvalRouge.argv ROUGE_PATH tmp_dir) dec_dir ref_dir fs
       = Ok output ->
     (length (split_on newline output) <= 11)%nat ->
     exists e,
       EvalRouge.eval_rouge ROUGE_PATH tmp_dir check_output float Print
         dec_dir ref_dir fs = (Raise e, fs)).
Proof.
  split.
  - intros e He. unfold EvalRouge.eval_rouge. rewrite He. reflexivity.
  - intros output Hout Hshort. unfold EvalRouge.eval_rouge. rewrite Hout.
    destruct (parse_short_report float output Hshort) as (e & ->).
    exists e. reflexivity.
Qed.

Lemma X19_eval_rouge_failure_writes_nothing_witness :
  exists e,
    EvalRouge.eval_rouge "/opt/ROUGE" "/tmp/x1"
      (fun _ _ _ _ => Ok "Illegal division by zero") MoreSamples.read_float
      true "out/dec" "out/ref" ∅ = (Raise e, ∅).
Proof.
  apply (proj2 (X19_eval_rouge_failure_writes_nothing "/opt/ROUGE" "/tmp/x1"
                  (fun _ _ _ _ => Ok "Illegal division by zero")
                  MoreSamples.read_float true "out/dec" "out/ref" ∅)
           "Illegal division by zero").
  - reflexivity.
  - simpl. lia.
Defined.

Lemma field_of_line (float : string -> Res Q) (ls : list string) (k : nat)
    (w0 w1 w2 value rest : string) (r : Q) :
  ls <> [] ->
  Forall (fun l => count_char newline l = 0%nat) ls ->
  ls !! k = Some (EvalRouge.report_line w0 w1 w2 value rest) ->
  count_char space w0 = 0%nat -> count_char space w1 = 0%nat ->
  count_char space w2 = 0%nat -> count_char space value = 0%nat ->
  float value = Ok r ->
  EvalRouge.field float (String.concat nl ls) (Z.of_nat k) = Ok r.
Proof.
  intros Hne Hall Hk H0 H1 H2 Hv Hf. unfold EvalRouge.field.
  change nl with (String newline EmptyString).
  rewrite (split_on_concat newline ls Hne Hall).
  rewrite getitem_nat, Hk. simpl.
  rewrite fourth_token by assumption. simpl. exact Hf.
Qed.

(** X20: when the scorer prints a report whose lines 4, 8 and 12 each carry
    a number as their fourth blank-separated token, [eval_rouge] returns
    these three numbers as ROUGE-1, ROUGE-2 and ROUGE-L, and (with [Print])
    writes the raw report, followed by a newline, to [ROUGE.txt] beside the
    decoded directory, leaving every other file as it is. *)
Theorem X20_eval_rouge_reads_lines_4_8_12
    (ROUGE_PATH tmp_dir : string)
    (check_output : list string -> string -> string -> gmap string string ->
                    Res string)
    (float : string -> Res Q)
    (Print : bool) (dec_dir ref_dir : string) (fs : gmap string string)
    (ls : list string)
    (a1 b1 c1 v1 rest1 a2 b2 c2 v2 rest2 a3 b3 c3 v3 rest3 : string)
    (r1 r2 r3 : Q) :
  check_output (EvalRouge.argv ROUGE_PATH tmp_dir) dec_dir ref_dir fs
    = Ok (String.concat nl ls) ->
  Forall (fun l => count_char newline l = 0%nat) ls ->
  ls !! 3%nat = Some (EvalRouge.report_line a1 b1 c1 v1 rest1) ->
  ls !! 7%nat = Some (EvalRouge.report_line a2 b2 c2 v2 rest2) ->
  ls !! 11%nat = Some (EvalRouge.report_line a3 b3 c3 v3 rest3) ->
  Forall (fun w => count_char space w = 0%nat)
    [a1; b1; c1; v1; a2; b2; c2; v2; a3; b3; c3; v3] ->
  float v1 = Ok r1 -> float v2 = Ok r2 -> float v3 = Ok r3 ->
  EvalRouge.eval_rouge ROUGE_PATH tmp_dir check_output float Print
    dec_dir ref_dir fs
  = (Ok (r1, r2, r3),
     if Print
     then <[join dec_dir "../ROUGE.txt" := String.concat nl ls +:+ nl]> fs
     else fs).
Proof.
  intros Hout Hall H3 H7 H11 Hw F1 F2 F3.
  assert (Hne : ls <> []) by (intros ->; discriminate H3).
  repeat match goal with
         | H : Forall _ (_ :: _) |- _ =>
             apply Forall_cons in H as [? H]
         end.
  assert (E3 : EvalRouge.field float (String.concat nl ls) 3 = Ok r1)
    by (apply (field_of_line float ls 3 a1 b1 c1 v1 rest1 r1); assumption).
  assert (E7 : EvalRouge.field float (String.concat nl ls) 7 = Ok r2)
    by (apply (field_of_line float ls 7 a2 b2 c2 v2 rest2 r2); assumption).
  assert (E11 : EvalRouge.field float (String.concat nl ls) 11 = Ok r3)
    by (apply (field_of_line float ls 11 a3 b3 c3 v3 rest3 r3); assumption).
  unfold EvalRouge.eval_rouge. rewrite Hout.
  unfold EvalRouge.parse_report. rewrite E3, E7, E11. reflexivity.
Qed.

Lemma X20_eval_rouge_reads_lines_4_8_12_witness :
  EvalRouge.eval_rouge "/opt/ROUGE" "/tmp/x1" MoreSamples.print_report
    MoreSamples.read_float true "out/dec" "out/ref" ∅
  = (Ok ((41 # 100)%Q, (18 # 100)%Q, (37 # 100)%Q),
     <["out/dec/../ROUGE.txt" := MoreSamples.report_text +:+ nl]> ∅).
Proof.
  apply (X20_eval_rouge_reads_lines_4_8_12 "/opt/ROUGE" "/tmp/x1"
           MoreSamples.print_report MoreSamples.read_float true
           "out/dec" "out/ref" ∅ _
           "1" "ROUGE-1" "Average_F:" "0.41" "(95%-conf.int. 0.41 - 0.41)"
           "1" "ROUGE-2" "Average_F:" "0.18" "(95%-conf.int. 0.18 - 0.18)"
           "1" "ROUGE-L" "Average_F:" "0.37" "(95%-conf.int. 0.37 - 0.37)").
  - reflexivity.
  - repeat constructor.
  - reflexivity.
  - reflexivity.
  - reflexivity.
  - repeat constructor.
  - reflexivity.
  - reflexivity.
  - reflexivity.
Defined.

(** ** [get_metric] when the scorer fails *)

(** X21: if the files were written but [eval_rouge] then raises,
    [get_metric] raises the same exception; the decoded and reference files
    stay written, and nothing is reset even with [reset=True]: the examples,
    the recorded indices and the cursor are as before the call. *)
Theorem X21_scorer_failure_skips_the_reset
    (eval_rouge : string -> string -> gmap string string ->
                  Res (Q * Q * Q) * gmap string string)
    (reset : bool) (now : Q) (s s1 : MatchRougeMetric.state)
    (e : exn) (fs2 : gmap string string) :
  MatchRougeMetric.write_files s = (Ok tt, s1) ->
  eval_rouge (MatchRougeMetric.dec_path s) (MatchRougeMetric.ref_path s)
    (MatchRougeMetric.fs s1) = (Raise e, fs2) ->
  MatchRougeMetric.get_metric eval_rouge reset now s
    = (Raise e, MatchRougeMetric.set_fs fs2 s) /\
  s1 = MatchRougeMetric.set_fs (MatchRougeMetric.fs s1) s.
Proof.
  intros Hw He.
  assert (Hs1 : s1 = MatchRougeMetric.set_fs (MatchRougeMetric.fs s1) s).
  { rewrite write_files_unfold in Hw.
    destruct (write_loop_frame
                (zip (seq 0 (length (MatchRougeMetric.ext s)))
                   (MatchRougeMetric.ext s)) s) as (fs' & Hfs).
    rewrite Hw in Hfs. simpl in Hfs. subst s1. reflexivity. }
  split; [|exact Hs1].
  unfold MatchRougeMetric.get_metric, bind. rewrite Hw.
  unfold MatchRougeMetric.call_eval_rouge.
  rewrite Hs1 in He |- *. simpl in He |- *. rewrite He. reflexivity.
Qed.

Lemma X21_scorer_failure_skips_the_reset_witness :
  let s1 := snd (MatchRougeMetric.write_files Samples.match_state) in
  MatchRougeMetric.get_metric MoreSamples.failing_scorer true 9
    Samples.match_state
  = (Raise (ExternalError "ROUGE-1.5.5.pl"),
     MatchRougeMetric.set_fs (MatchRougeMetric.fs s1) Samples.match_state) /\
  s1 = MatchRougeMetric.set_fs (MatchRougeMetric.fs s1) Samples.match_state.
Proof.
  intros s1.
  apply (X21_scorer_failure_skips_the_reset MoreSamples.failing_scorer true 9
           Samples.match_state s1 (ExternalError "ROUGE-1.5.5.pl")
           (MatchRougeMetric.fs s1)).
  - vm_compute. reflexivity.
  - reflexivity.
Defined.
